(** * Weekly meal planner: plan state, aggregation engine and text export

    A shallow embedding of [meal_planner_app.py].  The Streamlit script is a
    single top-to-bottom run: a widget loop that rewrites
    [st.session_state.plan], followed by the body of the "Generate" button,
    which folds the plan into [shopping_list], [prep_list], [final_plan] and
    [is_plan_empty] and then renders the table rows and the text export.

    Python values are modelled as the script uses them:
    - [int] is [Z]; [float] is an IEEE-754 binary64 value ([spec_float] with
      precision 53 and maximal exponent 1024), with the operations of the
      Standard Library's executable specification;
    - [str] is [string], read as the UTF-8 bytes of the text (byte-wise
      lexicographic order on UTF-8 agrees with Python's code point order);
    - the plan, a dict whose iteration order the aggregation follows, is an
      insertion-ordered association list; [shopping_list], which is only
      read through [sorted], is a [gmap]; the unit sets are [gset]s;
    - exceptions are an explicit error result. *)

From Stdlib Require Import ZArith Lia.
From Stdlib Require Import Floats.SpecFloat.
From stdpp Require Import base gmap strings list sorting pretty.

#[local] Set Warnings "-clear-no-such-hyp".

Local Open Scope Z_scope.

(** ** Exceptions *)

Inductive exn :=
  | ZeroDivisionError
  | OverflowError
  | ValueError
  | KeyError.

Inductive result (A : Type) :=
  | Ok (a : A)
  | Raise (e : exn).
Arguments Ok {A} a.
Arguments Raise {A} e.

Global Instance result_ret : MRet result := fun A a => Ok a.

Global Instance result_bind : MBind result := fun A B k r =>
  match r with
  | Ok a => k a
  | Raise e => Raise e
  end.

Global Instance exn_eq_dec : EqDecision exn.
Proof. solve_decision. Defined.

Global Instance result_eq_dec {A} `{EqDecision A} : EqDecision (result A).
Proof. solve_decision. Defined.

Definition is_ok {A} (r : result A) : bool :=
  match r with Ok _ => true | Raise _ => false end.

(** ** Python numbers *)

Module Py.

Definition prec : Z := 53.
Definition emax : Z := 1024.

Abbreviation float := spec_float.

(** A JSON number, or the value of a numeric expression: [int] or [float]. *)
Inductive num :=
  | Int (z : Z)
  | Float (f : float).

Definition fadd : float -> float -> float := SFadd prec emax.
Definition fmul : float -> float -> float := SFmul prec emax.
Definition fdiv : float -> float -> float := SFdiv prec emax.

Definition is_inf (f : float) : bool :=
  match f with S754_infinity _ => true | _ => false end.

Definition is_zero (f : float) : bool :=
  match f with S754_zero _ => true | _ => false end.

(** The integer [z] as an unrounded significand with exponent 0. *)
Definition raw_of_Z (z : Z) : float :=
  match z with
  | Z0 => S754_zero false
  | Zpos p => S754_finite false p 0
  | Zneg p => S754_finite true p 0
  end.

(** [float(z)]: round to nearest, ties to even; an [int] beyond the range of
    a double raises [OverflowError]. *)
Definition float_of_int (z : Z) : result float :=
  let f := binary_normalize prec emax z 0 false in
  if is_inf f then Raise OverflowError else Ok f.

Definition to_float (x : num) : result float :=
  match x with
  | Int z => float_of_int z
  | Float f => Ok f
  end.

(** [a / b] on two ints: the correctly rounded quotient. *)
Definition int_truediv (a b : Z) : result float :=
  if b =? 0 then Raise ZeroDivisionError
  else
    let q := fdiv (raw_of_Z a) (raw_of_Z b) in
    if is_inf q then Raise OverflowError else Ok q.

(** [x / y] *)
Definition truediv (x y : num) : result num :=
  match x, y with
  | Int a, Int b => q ← int_truediv a b; Ok (Float q)
  | _, _ =>
      a ← to_float x;
      b ← to_float y;
      if is_zero b then Raise ZeroDivisionError else Ok (Float (fdiv a b))
  end.

(** [x * y] *)
Definition mul (x y : num) : result num :=
  match x, y with
  | Int a, Int b => Ok (Int (a * b))
  | _, _ =>
      a ← to_float x;
      b ← to_float y;
      Ok (Float (fmul a b))
  end.

(** [x + y] *)
Definition add (x y : num) : result num :=
  match x, y with
  | Int a, Int b => Ok (Int (a + b))
  | _, _ =>
      a ← to_float x;
      b ← to_float y;
      Ok (Float (fadd a b))
  end.

(** [math.ceil(x)]: an [int]; [OverflowError] on an infinity and
    [ValueError] on a NaN. *)
Definition float_ceil (f : float) : result Z :=
  match f with
  | S754_zero _ => Ok 0
  | S754_infinity _ => Raise OverflowError
  | S754_nan => Raise ValueError
  | S754_finite s m e =>
      let n := if s then Zneg m else Zpos m in
      Ok (if 0 <=? e then n * 2 ^ e else - ((- n) / 2 ^ (- e)))
  end.

Definition ceil (x : num) : result Z :=
  match x with
  | Int z => Ok z
  | Float f => float_ceil f
  end.

(** *** [repr] of a float

    [str(x)] and [f"{x}"] print a float with [repr]: the shortest decimal
    digit string that reads back as the same double (the nearest to the
    double among the shortest ones), laid out without an exponent when the
    decimal point falls within the first 16 digits and not more than three
    zeros follow it, and in exponent notation otherwise. *)

Global Instance float_eq_dec : EqDecision float.
Proof. solve_decision. Defined.

(** The positive rational [n / d], correctly rounded. *)
Definition round_ratio (n d : Z) : float := fdiv (raw_of_Z n) (raw_of_Z d).

(** [v / 10^s] as a fraction, for [v = vn / vd]. *)
Definition scale10 (vn vd s : Z) : Z * Z :=
  if 0 <=? s then (vn, vd * 10 ^ s) else (vn * 10 ^ (- s), vd).

(** [vn / vd < 10^p] *)
Definition lt_pow10 (vn vd p : Z) : bool :=
  let '(n, d) := scale10 vn vd p in n <? d.

Fixpoint adjust_up (fuel : nat) (vn vd p : Z) : Z :=
  match fuel with
  | O => p
  | S fuel => if lt_pow10 vn vd p then p else adjust_up fuel vn vd (p + 1)
  end.

Fixpoint adjust_down (fuel : nat) (vn vd p : Z) : Z :=
  match fuel with
  | O => p
  | S fuel =>
      if lt_pow10 vn vd (p - 1) then adjust_down fuel vn vd (p - 1) else p
  end.

(** The least [p] with [vn / vd < 10^p]: the position of the decimal point
    after the leading digits. *)
Definition decimal_point (vn vd : Z) : Z :=
  let est := ((Z.log2 vn - Z.log2 vd) * 1233) / 4096 in
  adjust_down 4 vn vd (adjust_up 4 vn vd est).

(** Does the decimal [D * 10^s] read back as [x]? *)
Definition reads_back (x : float) (D s : Z) : bool :=
  let '(n, d) := scale10 D 1 (- s) in
  bool_decide (round_ratio n d = x).

(** Search for the shortest digit string, from [k] digits on.  At each
    length the two [k]-digit decimals around the value are tried. *)
Fixpoint shortest_digits (fuel : nat) (x : float) (vn vd p k : Z) : Z * Z :=
  let s := p - k in
  let '(n, d) := scale10 vn vd s in
  let lo := n / d in
  let hi := lo + 1 in
  let r := n mod d in
  let nearest :=
    match 2 * r ?= d with
    | Lt => lo
    | Gt => hi
    | Eq => if Z.even lo then lo else hi
    end in
  match fuel with
  | O => (nearest, s)
  | S fuel =>
      match reads_back x lo s, reads_back x hi s with
      | true, true => (nearest, s)
      | true, false => (lo, s)
      | false, true => (hi, s)
      | false, false => shortest_digits fuel x vn vd p (k + 1)
      end
  end.

Fixpoint strip_zeros (fuel : nat) (D s : Z) : Z * Z :=
  match fuel with
  | O => (D, s)
  | S fuel =>
      if (D mod 10 =? 0) && negb (D =? 0) then strip_zeros fuel (D / 10) (s + 1)
      else (D, s)
  end.

Fixpoint zeros (n : nat) : string :=
  match n with
  | O => ""
  | S n => "0" +:+ zeros n
  end.

(** The layout of [repr]: [digits] are the significant digits and
    [decpt] the position of the decimal point relative to their start. *)
Definition layout (digits : string) (decpt : Z) : string :=
  let n := Z.of_nat (String.length digits) in
  if (decpt <=? -4) || (16 <? decpt) then
    let mantissa :=
      match digits with
      | EmptyString => ""
      | String c EmptyString => String c EmptyString
      | String c rest => String c ("." +:+ rest)
      end in
    let e := decpt - 1 in
    let ds := pretty (Z.abs e) in
    mantissa +:+ "e" +:+ (if e <? 0 then "-" else "+")
      +:+ (if Z.abs e <? 10 then "0" +:+ ds else ds)
  else if decpt <=? 0 then
    "0." +:+ zeros (Z.to_nat (- decpt)) +:+ digits
  else if n <=? decpt then
    digits +:+ zeros (Z.to_nat (decpt - n)) +:+ ".0"
  else
    String.substring 0 (Z.to_nat decpt) digits +:+ "."
      +:+ String.substring (Z.to_nat decpt) (Z.to_nat (n - decpt)) digits.

Definition float_repr (x : float) : string :=
  match x with
  | S754_nan => "nan"
  | S754_infinity s => if s then "-inf" else "inf"
  | S754_zero s => if s then "-0.0" else "0.0"
  | S754_finite s m e =>
      let '(vn, vd) := if 0 <=? e then (Zpos m * 2 ^ e, 1) else (Zpos m, 2 ^ (- e)) in
      let p := decimal_point vn vd in
      let '(D0, s0) := shortest_digits 17 (S754_finite false m e) vn vd p 1 in
      let '(D, s10) := strip_zeros 20 D0 s0 in
      let digits := pretty D in
      (if s then "-" else "")
        +:+ layout digits (Z.of_nat (String.length digits) + s10)
  end.

(** [str(x)] *)
Definition str (x : num) : string :=
  match x with
  | Int z => pretty z
  | Float f => float_repr f
  end.

Global Arguments truediv : simpl never.
Global Arguments mul : simpl never.
Global Arguments add : simpl never.
Global Arguments ceil : simpl never.
Global Arguments str : simpl never.

End Py.

(** ** Strings *)

(** [s1 <= s2] on [str]: lexicographic on the code units, case-sensitive. *)
Abbreviation str_le := String.le.

(** [s1 < s2] *)
Definition str_lt (s1 s2 : string) : Prop := String.ltb s1 s2 = true.

(** [sep.join(l)] *)
Fixpoint join (sep : string) (l : list string) : string :=
  match l with
  | [] => ""
  | [s] => s
  | s :: rest => s +:+ sep +:+ join sep rest
  end.

Definition newline : string := String (Ascii.ascii_of_nat 10) EmptyString.

(** ** Insertion-ordered dicts with [str] keys

    Iteration follows insertion order; assigning to a key that is present
    keeps its position, assigning to a new key appends it. *)

Module Dict.

Definition t (V : Type) := list (string * V).

Section ops.
Context {V : Type}.

(** [d.get(k)] *)
Fixpoint get (k : string) (d : t V) : option V :=
  match d with
  | [] => None
  | (k', v) :: d' => if bool_decide (k' = k) then Some v else get k d'
  end.

(** [k in d] *)
Definition mem (k : string) (d : t V) : bool :=
  match get k d with Some _ => true | None => false end.

(** [d[k] = v] *)
Fixpoint set (k : string) (v : V) (d : t V) : t V :=
  match d with
  | [] => [(k, v)]
  | (k', v') :: d' =>
      if bool_decide (k' = k) then (k, v) :: d' else (k', v') :: set k v d'
  end.

(** [del d[k]], for a key that is present *)
Fixpoint del (k : string) (d : t V) : t V :=
  match d with
  | [] => []
  | (k', v') :: d' =>
      if bool_decide (k' = k) then d' else (k', v') :: del k d'
  end.

Definition keys (d : t V) : list string := d.*1.
End ops.

End Dict.

(** ** The catalog *)

(** One element of a meal's ['ingredients'] list. *)
Record ingredient := {
  ing_item : string;
  ing_quantity : Py.num;
  ing_unit : string;
}.

(** One record of [meals.json].  The keys read with [.get(key, default)]
    may be absent. *)
Record meal := {
  meal_name : string;
  meal_type : list string;
  meal_difficulty : string;
  meal_ingredients : list ingredient;
  meal_recipe : string;
  meal_is_salad : option bool;
  meal_meal_prep : option bool;
  meal_default_portions : option Py.num;
}.

Fixpoint get_meal_by_name (name : string) (meals_db : list meal) : option meal :=
  match meals_db with
  | [] => None
  | meal :: rest =>
      if bool_decide (meal_name meal = name) then Some meal
      else get_meal_by_name name rest
  end.

(** ** Plan state *)

(** The dict stored at [plan[day][meal_type]]: keys ['name'], ['people']
    and ['salad'], each present or not. *)
Record selection := {
  sel_name : option string;
  sel_people : option Z;
  sel_salad : option string;
}.

Global Instance selection_eq_dec : EqDecision selection.
Proof. solve_decision. Defined.

Abbreviation plan_t := (Dict.t (Dict.t selection)).

Definition days_of_week : list string :=
  ["Sunday"; "Monday"; "Tuesday"; "Wednesday"; "Thursday"; "Friday"; "Saturday"].

Definition meal_types : list string := ["Breakfast"; "Lunch"; "Dinner"].

(** The values of the three widgets of one slot. *)
Record slot_widgets := {
  selected_meal : string;
  num_people : Z;
  selected_salad : string;
}.

(** [plan.get(day, {})] *)
Definition day_meals (day : string) (plan : plan_t) : Dict.t selection :=
  default [] (Dict.get day plan).

(** [plan.get(day, {}).get(meal_type)] *)
Definition plan_get (day meal_type : string) (plan : plan_t) : option selection :=
  Dict.get meal_type (day_meals day plan).

(** The main select box and people input of one slot. *)
Definition set_main (day meal_type : string) (w : slot_widgets) (plan : plan_t)
  : plan_t :=
  if bool_decide (selected_meal w ≠ "-") then
    Dict.set day
      (Dict.set meal_type
         {| sel_name := Some (selected_meal w);
            sel_people := Some (num_people w);
            sel_salad := None |}
         (day_meals day plan))
      plan
  else if Dict.mem meal_type (day_meals day plan) then
    Dict.set day (Dict.del meal_type (day_meals day plan)) plan
  else plan.

(** The side salad select box of one slot. *)
Definition set_salad (day meal_type : string) (w : slot_widgets) (plan : plan_t)
  : plan_t :=
  if bool_decide (selected_salad w ≠ "-") then
    let selection :=
      default {| sel_name := None; sel_people := None; sel_salad := None |}
        (plan_get day meal_type plan) in
    Dict.set day
      (Dict.set meal_type
         {| sel_name := sel_name selection;
            sel_people := sel_people selection;
            sel_salad := Some (selected_salad w) |}
         (day_meals day plan))
      plan
  else
    match plan_get day meal_type plan with
    | Some selection =>
        match sel_salad selection with
        | Some _ =>
            Dict.set day
              (Dict.set meal_type
                 {| sel_name := sel_name selection;
                    sel_people := sel_people selection;
                    sel_salad := None |}
                 (day_meals day plan))
              plan
        | None => plan
        end
    | None => plan
    end.

(** The body of the loop over [meal_types]. *)
Definition update_slot (day meal_type : string) (w : slot_widgets)
    (plan : plan_t) : plan_t :=
  let plan := set_main day meal_type w plan in
  if bool_decide (meal_type ∈ ["Lunch"; "Dinner"]) then
    set_salad day meal_type w plan
  else plan.

(** The body of the loop over [days_of_week]. *)
Definition update_day (widgets : string -> string -> slot_widgets)
    (day : string) (plan : plan_t) : plan_t :=
  let plan := if Dict.mem day plan then plan else Dict.set day [] plan in
  foldl (fun plan meal_type => update_slot day meal_type (widgets day meal_type) plan)
    plan meal_types.

(** One run of the script over the planning grid. *)
Definition plan_week (widgets : string -> string -> slot_widgets)
    (plan : plan_t) : plan_t :=
  foldl (fun plan day => update_day widgets day plan) plan days_of_week.

(** The session: [st.session_state.plan] starts as [{}] and every
    interaction reruns the script with the widget values of that moment. *)
Definition session (runs : list (string -> string -> slot_widgets)) : plan_t :=
  foldl (fun plan widgets => plan_week widgets plan) [] runs.

(** ** The aggregation engine *)

(** A value of [shopping_list]: [{'quantity': ..., 'units': ...}]. *)
Record item_data := {
  quantity : Py.num;
  units : gset string;
}.

(** The value the [defaultdict] creates for an item seen for the first
    time. *)
Definition new_item : item_data := {| quantity := Py.Int 0; units := ∅ |}.

(** The variables of the "Generate" handler that the loops update. *)
Record gen_state := {
  shopping_list : gmap string item_data;
  final_plan : Dict.t (Dict.t (string * string));
  prep_list : list string;
  is_plan_empty : bool;
}.

Definition init_state : gen_state :=
  {| shopping_list := ∅; final_plan := []; prep_list := []; is_plan_empty := true |}.

Definition with_shopping_list (sl : gmap string item_data) (st : gen_state) :=
  {| shopping_list := sl; final_plan := final_plan st;
     prep_list := prep_list st; is_plan_empty := is_plan_empty st |}.

Definition with_final_plan (fp : Dict.t (Dict.t (string * string))) (st : gen_state) :=
  {| shopping_list := shopping_list st; final_plan := fp;
     prep_list := prep_list st; is_plan_empty := is_plan_empty st |}.

Definition with_prep_list (pl : list string) (st : gen_state) :=
  {| shopping_list := shopping_list st; final_plan := final_plan st;
     prep_list := pl; is_plan_empty := is_plan_empty st |}.

Definition not_empty (st : gen_state) :=
  {| shopping_list := shopping_list st; final_plan := final_plan st;
     prep_list := prep_list st; is_plan_empty := false |}.

(** A [for] loop whose body may raise. *)
Fixpoint for_each {A S : Type} (body : S -> A -> result S) (s : S) (l : list A)
  : result S :=
  match l with
  | [] => Ok s
  | x :: l' => s' ← body s x; for_each body s' l'
  end.

(** The body of the loop over a meal's ingredients. *)
Definition add_ingredient (scaling_factor : Py.num)
    (sl : gmap string item_data) (ingredient : ingredient)
  : result (gmap string item_data) :=
  let item := ing_item ingredient in
  scaled_quantity ← Py.mul (ing_quantity ingredient) scaling_factor;
  let data := default new_item (sl !! item) in
  total ← Py.add (quantity data) scaled_quantity;
  Ok (<[item := {| quantity := total;
                   units := {[ing_unit ingredient]} ∪ units data |}]> sl).

Definition add_ingredients_to_list (MEALS : list meal)
    (meal_name' : string) (num_people : Z) (st : gen_state) : result gen_state :=
  match get_meal_by_name meal_name' MEALS with
  | None => Ok st
  | Some meal_details =>
      let st :=
        if default false (meal_meal_prep meal_details)
        then with_prep_list (prep_list st ++ [meal_name meal_details]) st
        else st in
      let default_portions :=
        default (Py.Int 1) (meal_default_portions meal_details) in
      scaling_factor ← Py.truediv (Py.Int num_people) default_portions;
      sl ← for_each (add_ingredient scaling_factor) (shopping_list st)
             (meal_ingredients meal_details);
      Ok (with_shopping_list sl st)
  end.

(** The [if 'name' in selection] block. *)
Definition process_main (MEALS : list meal) (day meal_type : string)
    (selection : selection) (st : gen_state) : result gen_state :=
  match sel_name selection with
  | None => Ok st
  | Some main_meal_name =>
      let st := not_empty st in
      num_people ← from_option Ok (Raise KeyError) (sel_people selection);
      match get_meal_by_name main_meal_name MEALS with
      | None => Ok st
      | Some main_meal_details =>
          let cell := (meal_name main_meal_details,
                       meal_difficulty main_meal_details) in
          let fp := final_plan st in
          let st :=
            with_final_plan
              (Dict.set day (Dict.set meal_type cell (default [] (Dict.get day fp))) fp)
              st in
          add_ingredients_to_list MEALS main_meal_name num_people st
      end
  end.

(** The [if 'salad' in selection] block. *)
Definition process_salad (MEALS : list meal) (selection : selection)
    (st : gen_state) : result gen_state :=
  match sel_salad selection with
  | None => Ok st
  | Some salad_name =>
      let st := not_empty st in
      let num_people_salad := default 1 (sel_people selection) in
      add_ingredients_to_list MEALS salad_name num_people_salad st
  end.

(** The body of the loop over a day's [meals.items()]. *)
Definition process_selection (MEALS : list meal) (day : string)
    (st : gen_state) (entry : string * selection) : result gen_state :=
  let '(meal_type, selection) := entry in
  st ← process_main MEALS day meal_type selection st;
  process_salad MEALS selection st.

Global Arguments process_selection : simpl never.

(** The body of the loop over [plan.items()]. *)
Definition process_day (MEALS : list meal) (st : gen_state)
    (entry : string * Dict.t selection) : result gen_state :=
  let '(day, meals) := entry in
  let st := with_final_plan (Dict.set day [] (final_plan st)) st in
  for_each (process_selection MEALS day) st meals.

Definition aggregate (MEALS : list meal) (plan : plan_t) : result gen_state :=
  for_each (process_day MEALS) init_state plan.

(** ** Output *)

(** [sorted(shopping_list.items())]: the pairs are ordered by their keys
    (which are distinct, so that no two values are ever compared). *)
Definition items_le (x y : string * item_data) : Prop := str_le x.1 y.1.

Global Instance items_le_dec : RelDecision items_le.
Proof. intros x y. unfold items_le. apply _. Defined.

Definition sorted_items (sl : gmap string item_data) : list (string * item_data) :=
  merge_sort items_le (map_to_list sl).

(** [math.ceil(data['quantity'] * 100) / 100] *)
Definition final_quantity (data : item_data) : result Py.num :=
  cents ← Py.mul (quantity data) (Py.Int 100);
  up ← Py.ceil cents;
  Py.truediv (Py.Int up) (Py.Int 100).

(** [", ".join(sorted(list(data['units'])))] *)
Definition units_str (data : item_data) : string :=
  join ", " (merge_sort str_le (elements (units data))).

(** A row of [shopping_df_data]: [[item, final_quantity, units_str]]. *)
Definition row : Type := string * Py.num * string.

Definition row_item (r : row) : string := r.1.1.
Definition row_quantity (r : row) : Py.num := r.1.2.
Definition row_units (r : row) : string := r.2.

Definition make_row (rows : list row) (entry : string * item_data)
  : result (list row) :=
  let '(item, data) := entry in
  q ← final_quantity data;
  Ok (rows ++ [(item, q, units_str data)]).

Definition shopping_df_data (sl : gmap string item_data) : result (list row) :=
  for_each make_row [] (sorted_items sl).

Definition text_header : string :=
  "Your Shopping List" +:+ newline +:+ "------------------" +:+ newline.

(** [f"- {item}: {quantity} {unit}\n"] *)
Definition text_line (r : row) : string :=
  let '(item, quantity, unit) := r in
  "- " +:+ item +:+ ": " +:+ Py.str quantity +:+ " " +:+ unit +:+ newline.

Definition shopping_list_text (rows : list row) : string :=
  foldl (fun text r => text +:+ text_line r) text_header rows.

(** [sorted(list(set(prep_list)))] *)
Definition unique_prep_list (prep_list : list string) : list string :=
  merge_sort str_le (elements (list_to_set prep_list : gset string)).

(** What the handler shows: the warning, or the table rows, the text file
    and the two inputs of the timetable image. *)
Inductive outcome :=
  | EmptyPlanWarning
  | Artifacts (table : list row) (text : string)
      (timetable : Dict.t (Dict.t (string * string))) (prep_notes : list string).

Definition generate (MEALS : list meal) (plan : plan_t) : result outcome :=
  st ← aggregate MEALS plan;
  if is_plan_empty st then Ok EmptyPlanWarning
  else
    rows ← shopping_df_data (shopping_list st);
    Ok (Artifacts rows (shopping_list_text rows) (final_plan st)
          (unique_prep_list (prep_list st))).

(** ** The example of the specification *)

Module Example.

Definition oat_bowl : meal :=
  {| meal_name := "Oat Bowl"; meal_type := ["Breakfast"];
     meal_difficulty := "Easy";
     meal_ingredients :=
       [{| ing_item := "oats"; ing_quantity := Py.Int 200; ing_unit := "g" |}];
     meal_recipe := "";
     meal_is_salad := None; meal_meal_prep := Some true;
     meal_default_portions := Some (Py.Int 2) |}.

Definition garden_salad : meal :=
  {| meal_name := "Garden Salad"; meal_type := ["Lunch"; "Dinner"];
     meal_difficulty := "Easy";
     meal_ingredients :=
       [{| ing_item := "lettuce"; ing_quantity := Py.Int 1; ing_unit := "head" |}];
     meal_recipe := "";
     meal_is_salad := Some true; meal_meal_prep := None;
     meal_default_portions := None |}.

Definition MEALS : list meal := [oat_bowl; garden_salad].

Definition plan : plan_t :=
  [("Sunday",
    [("Breakfast",
      {| sel_name := Some "Oat Bowl"; sel_people := Some 3; sel_salad := None |})])].

(** The example plan with a lunch entry whose meal the catalog does not
    hold. *)
Definition mixed_plan : plan_t :=
  [("Sunday",
    [("Breakfast",
      {| sel_name := Some "Oat Bowl"; sel_people := Some 3; sel_salad := None |});
     ("Lunch",
      {| sel_name := Some "Ghost Stew"; sel_people := Some 2;
         sel_salad := Some "Ghost Salad" |})])].

End Example.

(** ** Plan state: what a run leaves in a slot *)

(** The entry a slot holds after its widgets have been processed: it
    depends on the widgets alone. *)
Definition slot_value (meal_type : string) (w : slot_widgets) : option selection :=
  let main :=
    if bool_decide (selected_meal w ≠ "-")
    then Some {| sel_name := Some (selected_meal w);
                 sel_people := Some (num_people w);
                 sel_salad := None |}
    else None in
  if bool_decide (meal_type ∈ ["Lunch"; "Dinner"]) && bool_decide (selected_salad w ≠ "-")
  then Some {| sel_name := main ≫= sel_name;
               sel_people := main ≫= sel_people;
               sel_salad := Some (selected_salad w) |}
  else main.

(** Within each day the slot keys are distinct, as in any dict. *)
Definition plan_inv (plan : plan_t) : Prop :=
  forall day, NoDup (Dict.keys (day_meals day plan)).

(** The user changes the main select box of one slot to ["-"]. *)
Definition clear_main (day mt : string) (widgets : string -> string -> slot_widgets)
  : string -> string -> slot_widgets :=
  fun d t =>
    if bool_decide (d = day /\ t = mt)
    then {| selected_meal := "-"; num_people := num_people (widgets d t);
            selected_salad := selected_salad (widgets d t) |}
    else widgets d t.

(** The user changes the side salad select box of one slot to ["-"]. *)
Definition clear_salad (day mt : string) (widgets : string -> string -> slot_widgets)
  : string -> string -> slot_widgets :=
  fun d t =>
    if bool_decide (d = day /\ t = mt)
    then {| selected_meal := selected_meal (widgets d t);
            num_people := num_people (widgets d t); selected_salad := "-" |}
    else widgets d t.

(** Widget values used in the examples: nothing selected anywhere, except
    a main for two people and a side salad on Monday lunch. *)
Definition monday_lunch_widgets : string -> string -> slot_widgets :=
  fun day meal_type =>
    if bool_decide (day = "Monday" /\ meal_type = "Lunch")
    then {| selected_meal := "Oat Bowl"; num_people := 2;
            selected_salad := "Garden Salad" |}
    else {| selected_meal := "-"; num_people := 1; selected_salad := "-" |}.

(** ** The aggregation, seen from one item

    The handler updates one shared [shopping_list]; the definitions below
    describe what the specification says about a single item: the list of
    its occurrences in the resolved meals of the plan, and the running
    total and unit set built from that list alone. *)

(** One use of an ingredient by a resolved meal reference: the ingredient,
    the people count of the reference and the meal's portion count. *)
Record occurrence := {
  occ_ingredient : ingredient;
  occ_people : Z;
  occ_portions : Py.num;
}.

Definition occ_item (o : occurrence) : string := ing_item (occ_ingredient o).
Definition occ_unit (o : occurrence) : string := ing_unit (occ_ingredient o).

(** [quantity * (people_count / default_portions)] *)
Definition scaled (o : occurrence) : result Py.num :=
  scaling_factor ← Py.truediv (Py.Int (occ_people o)) (occ_portions o);
  Py.mul (ing_quantity (occ_ingredient o)) scaling_factor.

Global Arguments scaled : simpl never.

(** The meal references of an entry with their people counts: the main,
    then the salad. *)
Definition calls (sel : selection) : list (string * Z) :=
  match sel_name sel, sel_people sel with
  | Some name, Some n => [(name, n)]
  | _, _ => []
  end ++
  match sel_salad sel with
  | Some salad => [(salad, default 1 (sel_people sel))]
  | None => []
  end.

Definition call_occurrences (MEALS : list meal) (call : string * Z)
  : list occurrence :=
  match get_meal_by_name call.1 MEALS with
  | None => []
  | Some m =>
      (fun ing => {| occ_ingredient := ing; occ_people := call.2;
                     occ_portions := default (Py.Int 1) (meal_default_portions m) |})
        <$> meal_ingredients m
  end.

(** The entries of the plan in the order the handler visits them. *)
Definition entries (plan : plan_t) : list (string * string * selection) :=
  plan ≫= (fun '(day, meals) => (fun '(meal_type, sel) => (day, meal_type, sel)) <$> meals).

Definition occurrences (MEALS : list meal) (plan : plan_t) : list occurrence :=
  entries plan ≫= (fun e => calls e.2 ≫= call_occurrences MEALS).

Definition occurrences_of (item : string) (occs : list occurrence) : list occurrence :=
  filter (fun o => occ_item o = item) occs.

(** The running total of the scaled quantities, in order. *)
Definition accumulate (start : Py.num) (occs : list occurrence) : result Py.num :=
  for_each (fun total o => s ← scaled o; Py.add total s) start occs.

(** The units observed. *)
Definition observed_units (occs : list occurrence) : gset string :=
  list_to_set (occ_unit <$> occs).

(** The effect of one occurrence on its item's value in [shopping_list]. *)
Definition post (d : option item_data) (o : occurrence) : result (option item_data) :=
  s ← scaled o;
  let data := default new_item d in
  total ← Py.add (quantity data) s;
  Ok (Some {| quantity := total; units := {[occ_unit o]} ∪ units data |}).

(** The parts of the state other than the emptiness flag. *)
Definition core (st : gen_state) :=
  (shopping_list st, final_plan st, prep_list st).

Global Instance result_fmap : FMap result := fun A B f r =>
  match r with
  | Ok a => Ok (f a)
  | Raise e => Raise e
  end.

(** The row the handler builds from one item of [shopping_list]. *)
Definition row_of (entry : string * item_data) (r : row) : Prop :=
  final_quantity entry.2 = Ok (row_quantity r)
  /\ row_item r = entry.1
  /\ row_units r = units_str entry.2.

(** A second catalog for the examples: three dishes that all use salt,
    measured in two different units, and one dish that lists the same item
    twice. *)
Module Pantry.

Definition dish (name item : string) (quantity : Py.num) (unit : string) : meal :=
  {| meal_name := name; meal_type := ["Breakfast"; "Lunch"; "Dinner"];
     meal_difficulty := "Easy";
     meal_ingredients :=
       [{| ing_item := item; ing_quantity := quantity; ing_unit := unit |}];
     meal_recipe := "";
     meal_is_salad := None; meal_meal_prep := None;
     meal_default_portions := None |}.

(** The JSON numbers [0.1], [0.2] and [0.3]. *)
Definition tenth : Py.num := Py.Float (S754_finite false 7205759403792794 (-56)).
Definition fifth : Py.num := Py.Float (S754_finite false 7205759403792794 (-55)).
Definition three_tenths : Py.num := Py.Float (S754_finite false 5404319552844595 (-54)).

Definition porridge : meal := dish "Porridge" "salt" tenth "tsp".
Definition soup : meal := dish "Soup" "salt" fifth "tsp".
Definition stew : meal := dish "Stew" "salt" three_tenths "pinch".

Definition pancakes : meal :=
  {| meal_name := "Pancakes"; meal_type := ["Breakfast"];
     meal_difficulty := "Easy";
     meal_ingredients :=
       [{| ing_item := "flour"; ing_quantity := Py.Int 100; ing_unit := "g" |};
        {| ing_item := "milk"; ing_quantity := Py.Int 200; ing_unit := "ml" |};
        {| ing_item := "flour"; ing_quantity := Py.Int 1; ing_unit := "tbsp" |}];
     meal_recipe := "";
     meal_is_salad := None; meal_meal_prep := Some true;
     meal_default_portions := Some (Py.Int 4) |}.

(** The JSON number [1.1]. *)
Definition eleven_tenths : Py.num := Py.Float (S754_finite false 4953959590107546 (-52)).

Definition bread : meal := dish "Bread" "flour" eleven_tenths "kg".

Definition MEALS : list meal := [porridge; soup; stew; pancakes; bread].

Definition main (name : string) (people : Z) : selection :=
  {| sel_name := Some name; sel_people := Some people; sel_salad := None |}.

(** Breakfast chosen first, then lunch, then dinner. *)
Definition plan : plan_t :=
  [("Monday", [("Breakfast", main "Porridge" 1); ("Lunch", main "Soup" 1);
               ("Dinner", main "Stew" 1)])].

(** The same selections, made in the opposite order. *)
Definition plan_reversed : plan_t :=
  [("Monday", [("Dinner", main "Stew" 1); ("Lunch", main "Soup" 1);
               ("Breakfast", main "Porridge" 1)])].

(** Porridge for seven. *)
Definition plan_porridge : plan_t := [("Sunday", [("Breakfast", main "Porridge" 7)])].

(** Bread for one. *)
Definition plan_bread : plan_t := [("Sunday", [("Breakfast", main "Bread" 1)])].

(** Pancakes for two. *)
Definition plan_pancakes : plan_t := [("Sunday", [("Breakfast", main "Pancakes" 2)])].

End Pantry.

(** The exact value of a finite double, as a rational. *)
Definition exact (f : Py.float) : QArith_base.Q :=
  match f with
  | S754_finite s m e =>
      let n := if s then Zneg m else Zpos m in
      if 0 <=? e then QArith_base.inject_Z (n * 2 ^ e)
      else QArith_base.Qmake n (Z.to_pos (2 ^ (- e)))
  | _ => QArith_base.inject_Z 0
  end.

(** Widget values for Monday, one main per slot and no salads. *)
Definition monday_widgets (breakfast lunch dinner : string)
  : string -> string -> slot_widgets :=
  fun day meal_type =>
    let choice :=
      if bool_decide (day = "Monday") then
        if bool_decide (meal_type = "Breakfast") then breakfast
        else if bool_decide (meal_type = "Lunch") then lunch
        else if bool_decide (meal_type = "Dinner") then dinner
        else "-"
      else "-" in
    {| selected_meal := choice; num_people := 1; selected_salad := "-" |}.

(** Two sessions that end with the same widget values: the user picks
    breakfast, lunch and dinner in that order, or in the opposite order. *)
Definition session_forward : plan_t :=
  session [monday_widgets "Porridge" "-" "-";
           monday_widgets "Porridge" "Soup" "-";
           monday_widgets "Porridge" "Soup" "Stew"].

Definition session_backward : plan_t :=
  session [monday_widgets "-" "-" "Stew";
           monday_widgets "-" "Soup" "Stew";
           monday_widgets "Porridge" "Soup" "Stew"].

(** The table and the text export of an outcome. *)
Definition table_and_text (r : result outcome) : option (list row * string) :=
  match r with
  | Ok (Artifacts table text _ _) => Some (table, text)
  | _ => None
  end.

(** ** Entries and references *)

(** An entry without a main and without a salad. *)
Definition blank (sel : selection) : bool :=
  bool_decide (sel_name sel = None /\ sel_salad sel = None).

(** An entry whose main or salad is found in the catalog. *)
Definition resolvable (MEALS : list meal) (sel : selection) : Prop :=
  (exists name, sel_name sel = Some name /\ is_Some (get_meal_by_name name MEALS))
  \/ (exists salad, sel_salad sel = Some salad /\ is_Some (get_meal_by_name salad MEALS)).


(** ** One meal, seen from one item *)

(** The ingredients of a meal that carry a given item name. *)
Definition ingredients_of (item : string) (ings : list ingredient) : list ingredient :=
  filter (fun ing => ing_item ing = item) ings.

(** [total + quantity * scaling_factor] *)
Definition add_scaled (scaling_factor : Py.num) (total : Py.num) (ing : ingredient)
  : result Py.num :=
  scaled_quantity ← Py.mul (ing_quantity ing) scaling_factor;
  Py.add total scaled_quantity.

(** What [shopping_list] holds for an item, or the fresh value of the
    [defaultdict]. *)
Definition item_value (sl : gmap string item_data) (item : string) : item_data :=
  default new_item (sl !! item).

(** Every quantity in [shopping_list] is a float. *)
Definition float_valued (sl : gmap string item_data) : Prop :=
  forall item data, sl !! item = Some data -> exists f, quantity data = Py.Float f.

(** The state after the salad of the example is processed on its own. *)
Definition lunch_with_salad : selection :=
  {| sel_name := Some "Oat Bowl"; sel_people := Some 3;
     sel_salad := Some "Garden Salad" |}.

Definition after_salad : gen_state :=
  match process_salad Example.MEALS lunch_with_salad init_state with
  | Ok st => st
  | Raise _ => init_state
  end.

(** The state after the main of the example is added on its own. *)
Definition after_oat_bowl : gen_state :=
  match add_ingredients_to_list Example.MEALS "Oat Bowl" 3 init_state with
  | Ok st => st
  | Raise _ => init_state
  end.

(** The double [0.5]. *)
Definition one_half : Py.num := Py.Float (S754_finite false 4503599627370496 (-53)).

(** ** Unknown references *)

Definition known (MEALS : list meal) (name : string) : bool :=
  bool_decide (name ∈ meal_name <$> MEALS).

(** The entry without the references that the catalog does not hold.  The
    people count stays: the salad reads it whether the main is found or
    not. *)
Definition known_refs (MEALS : list meal) (sel : selection) : selection :=
  {| sel_name := name ← sel_name sel; if known MEALS name then Some name else None;
     sel_people := sel_people sel;
     sel_salad := salad ← sel_salad sel; if known MEALS salad then Some salad else None |}.

(** The plan without its unknown references. *)
Definition known_only (MEALS : list meal) (plan : plan_t) : plan_t :=
  (fun day_meals : string * list (string * selection) =>
     (day_meals.1,
      (fun slot : string * selection => (slot.1, known_refs MEALS slot.2))
        <$> day_meals.2))
    <$> plan.

(** The people count the salad of an entry is scaled for: the main's,
    when a main is selected, and 1 otherwise. *)
Definition salad_people (sel : selection) : Z :=
  match sel_name sel, sel_people sel with
  | Some _, Some n => n
  | _, _ => 1
  end.

(** ** The select boxes *)

(** The options of the main select box of a slot:
    [["-"] + [m['name'] for m in MEALS
              if meal_type in m['type'] and not m.get('is_salad', False)]] *)
Definition meal_options (MEALS : list meal) (slot_type : string) : list string :=
  "-" :: (meal_name <$>
            filter (fun m => slot_type ∈ meal_type m
                             /\ default false (meal_is_salad m) = false) MEALS).

(** The options of the side salad select box:
    [["-"] + [m['name'] for m in MEALS if m.get('is_salad', False)]] *)
Definition salad_options (MEALS : list meal) : list string :=
  "-" :: (meal_name <$> filter (fun m => default false (meal_is_salad m) = true) MEALS).

(** Every select box of the grid shows one of its options. *)
Definition from_options (MEALS : list meal)
    (widgets : string -> string -> slot_widgets) : Prop :=
  forall day slot_type,
    selected_meal (widgets day slot_type) ∈ meal_options MEALS slot_type
    /\ selected_salad (widgets day slot_type) ∈ salad_options MEALS.

(** What the timetable image reads for a cell:
    [plan.get(day, {}).get(meal_type)] *)
Definition cell (day slot_type : string) (plan : Dict.t (Dict.t (string * string)))
  : option (string * string) :=
  Dict.get slot_type (default [] (Dict.get day plan)).

(** Widget values with Oat Bowl for three at Monday breakfast, Oat Bowl
    for two with a Garden Salad at Monday lunch, and nothing else. *)
Definition monday_from_options : string -> string -> slot_widgets :=
  fun day slot_type =>
    if bool_decide (day = "Monday" /\ slot_type = "Breakfast")
    then {| selected_meal := "Oat Bowl"; num_people := 3; selected_salad := "-" |}
    else if bool_decide (day = "Monday" /\ slot_type = "Lunch")
    then {| selected_meal := "-"; num_people := 1; selected_salad := "Garden Salad" |}
    else {| selected_meal := "-"; num_people := 1; selected_salad := "-" |}.

(** The references of an entry are all found in the catalog. *)
Definition all_found (MEALS : list meal) (sel : selection) : Prop :=
  (forall name, sel_name sel = Some name -> is_Some (get_meal_by_name name MEALS))
  /\ (forall salad, sel_salad sel = Some salad -> is_Some (get_meal_by_name salad MEALS)).

(** ** The prep-ahead notes and the timetable, from the plan *)

(** What one meal reference adds to [prep_list]. *)
Definition prep_names (MEALS : list meal) (call : string * Z) : list string :=
  match get_meal_by_name call.1 MEALS with
  | Some m => if default false (meal_meal_prep m) then [meal_name m] else []
  | None => []
  end.

(** The timetable cell of an entry: name and difficulty of its main, when
    the main is found. *)
Definition main_cell (MEALS : list meal) (sel : selection) : option (string * string) :=
  name ← sel_name sel;
  m ← get_meal_by_name name MEALS;
  Some (meal_name m, meal_difficulty m).

(** A plan with the same meal on two days and a salad flagged for prep. *)
Module Week.

Definition chili : meal :=
  {| meal_name := "Chili"; meal_type := ["Lunch"; "Dinner"];
     meal_difficulty := "Medium";
     meal_ingredients :=
       [{| ing_item := "beans"; ing_quantity := Py.Int 400; ing_unit := "g" |}];
     meal_recipe := "";
     meal_is_salad := None; meal_meal_prep := Some true;
     meal_default_portions := Some (Py.Int 4) |}.

Definition slaw : meal :=
  {| meal_name := "Slaw"; meal_type := ["Lunch"; "Dinner"];
     meal_difficulty := "Easy";
     meal_ingredients :=
       [{| ing_item := "cabbage"; ing_quantity := Py.Int 1; ing_unit := "head" |}];
     meal_recipe := "";
     meal_is_salad := Some true; meal_meal_prep := Some true;
     meal_default_portions := None |}.

Definition toast : meal :=
  {| meal_name := "Toast"; meal_type := ["Breakfast"];
     meal_difficulty := "Easy";
     meal_ingredients :=
       [{| ing_item := "bread"; ing_quantity := Py.Int 2; ing_unit := "slice" |}];
     meal_recipe := "";
     meal_is_salad := None; meal_meal_prep := None;
     meal_default_portions := None |}.

(** A record that cannot be scaled. *)
Definition broken : meal :=
  {| meal_name := "Broken"; meal_type := ["Dinner"];
     meal_difficulty := "Hard";
     meal_ingredients := [];
     meal_recipe := "";
     meal_is_salad := None; meal_meal_prep := None;
     meal_default_portions := Some (Py.Int 0) |}.

Definition MEALS : list meal := [chili; slaw; toast; broken].

Definition plan : plan_t :=
  [("Monday",
    [("Breakfast",
      {| sel_name := Some "Toast"; sel_people := Some 1; sel_salad := None |});
     ("Dinner",
      {| sel_name := Some "Chili"; sel_people := Some 2; sel_salad := Some "Slaw" |})]);
   ("Tuesday",
    [("Lunch",
      {| sel_name := Some "Chili"; sel_people := Some 4; sel_salad := None |})])].

(** The same entries with the days in the other order. *)
Definition plan_swapped : plan_t :=
  [("Tuesday",
    [("Lunch",
      {| sel_name := Some "Chili"; sel_people := Some 4; sel_salad := None |})]);
   ("Monday",
    [("Breakfast",
      {| sel_name := Some "Toast"; sel_people := Some 1; sel_salad := None |});
     ("Dinner",
      {| sel_name := Some "Chili"; sel_people := Some 2; sel_salad := Some "Slaw" |})])].

Definition plan_broken : plan_t :=
  [("Monday",
    [("Dinner",
      {| sel_name := Some "Broken"; sel_people := Some 2; sel_salad := None |})])].

End Week.

(** The outcome of the handler on the week plan. *)
Definition week_outcome (plan : plan_t) : outcome :=
  match generate Week.MEALS plan with
  | Ok o => o
  | Raise _ => EmptyPlanWarning
  end.

Definition outcome_table (o : outcome) : list row :=
  match o with Artifacts table _ _ _ => table | EmptyPlanWarning => [] end.
Definition outcome_text (o : outcome) : string :=
  match o with Artifacts _ text _ _ => text | EmptyPlanWarning => "" end.
Definition outcome_timetable (o : outcome) : Dict.t (Dict.t (string * string)) :=
  match o with Artifacts _ _ timetable _ => timetable | EmptyPlanWarning => [] end.
Definition outcome_prep (o : outcome) : list string :=
  match o with Artifacts _ _ _ prep => prep | EmptyPlanWarning => [] end.

(** ** When the aggregation raises *)

(** The reference can be added: the name is not found, or the scaling
    factor and every scaled quantity of the record can be computed. *)
Definition call_ok (MEALS : list meal) (call : string * Z) : bool :=
  match get_meal_by_name call.1 MEALS with
  | None => true
  | Some m =>
      match Py.truediv (Py.Int call.2) (default (Py.Int 1) (meal_default_portions m)) with
      | Ok scaling_factor =>
          forallb (fun ing => is_ok (Py.mul (ing_quantity ing) scaling_factor))
            (meal_ingredients m)
      | Raise _ => false
      end
  end.

(** The entry can be processed: a main comes with its people count, and
    the main and the salad can be added. *)
Definition entry_ok (MEALS : list meal) (sel : selection) : bool :=
  match sel_name sel, sel_people sel with
  | Some _, None => false
  | _, _ => forallb (call_ok MEALS) (calls sel)
  end.

(** ** Wrapping text for the image *)

(** [text.split(' ')]: the pieces between the spaces, empty ones kept. *)
Fixpoint split_space (text : string) : list string :=
  match text with
  | EmptyString => [""]
  | String c rest =>
      if bool_decide (c = Ascii.Space) then "" :: split_space rest
      else
        match split_space rest with
        | w :: ws => String c w :: ws
        | [] => [String c ""]
        end
  end.

Section wrap_text.

(** [font.getbbox(s)[2] <= max_width], for the font and the width of the
    call. *)
Variable fits : string -> bool.

(** [str.strip] *)
Variable strip : string -> string.

(** The inner loop: words are popped onto [line] while the line with the
    next word fits. *)
Fixpoint fill_line (line : string) (words : list string) : string * list string :=
  match words with
  | w :: rest =>
      if fits (line +:+ w) then fill_line (line +:+ (w +:+ " ")) rest
      else (line, words)
  | [] => (line, [])
  end.

(** The body of the outer loop up to [lines.append]: the line built and
    the words left. *)
Definition next_line (words : list string) : string * list string :=
  let '(line, words) := fill_line "" words in
  match line, words with
  | EmptyString, w :: rest => (w +:+ " ", rest)
  | _, _ => (line, words)
  end.

(** The outer loop, [while words:]. *)
Fixpoint wrap_loop (fuel : nat) (lines : list string) (words : list string)
  : option (list string) :=
  match words, fuel with
  | [], _ => Some lines
  | _ :: _, O => None
  | _ :: _, S fuel =>
      let '(line, rest) := next_line words in
      wrap_loop fuel (lines ++ [strip line]) rest
  end.

Definition wrap_text (text : string) : option (list string) :=
  let words := split_space text in
  wrap_loop (length words) [] words.

(** The line built from the words of one group, before [strip]. *)
Definition line_of (group : list string) : string :=
  foldl (fun line w => line +:+ (w +:+ " ")) "" group.

(** Every word of the group after the first passed the test of the inner
    loop. *)
Fixpoint added_fit (line : string) (ws : list string) : bool :=
  match ws with
  | [] => true
  | w :: ws => fits (line +:+ w) && added_fit (line +:+ (w +:+ " ")) ws
  end.

(** The group is what one pass of the outer loop takes when [next] is the
    word that follows: a first word that does not fit stands alone; else
    every word fits behind those before it and [next] does not. *)
Definition taken (group : list string) (next : option string) : bool :=
  match group with
  | [] => false
  | w :: ws =>
      if fits w then
        added_fit (w +:+ " ") ws
        && match next with
           | Some w' => negb (fits (line_of group +:+ w'))
           | None => true
           end
      else bool_decide (ws = [])
  end.

(** The groups are taken one after the other. *)
Fixpoint greedy (groups : list (list string)) : bool :=
  match groups with
  | [] => true
  | g :: rest => taken g (head (concat rest)) && greedy rest
  end.

End wrap_text.

(** ** Finite floats *)

(** [math.isfinite(f)] *)
Definition is_finite (f : Py.float) : bool :=
  match f with
  | S754_zero _ | S754_finite _ _ _ => true
  | S754_infinity _ | S754_nan => false
  end.

(** [isinstance(x, float) and math.isfinite(x)] *)
Definition finite_float (x : Py.num) : bool :=
  match x with
  | Py.Float f => is_finite f
  | Py.Int _ => false
  end.

(** A catalog whose only dish needs more rice than a double can count. *)
Module Feast.

Definition banquet : meal :=
  {| meal_name := "Banquet"; meal_type := ["Dinner"];
     meal_difficulty := "Hard";
     meal_ingredients :=
       [{| ing_item := "rice";
           ing_quantity := Py.Float (S754_finite false 9007199254740991 971);
           ing_unit := "kg" |}];
     meal_recipe := "";
     meal_is_salad := None; meal_meal_prep := None;
     meal_default_portions := Some (Py.Int 1) |}.

Definition MEALS : list meal := [banquet].

Definition plan : plan_t :=
  [("Saturday",
    [("Dinner",
      {| sel_name := Some "Banquet"; sel_people := Some 2; sel_salad := None |})])].

End Feast.

(** ** The cells of the image *)

(** The grid of [create_meal_plan_image]. *)
Definition days : list string :=
  ["Sunday"; "Monday"; "Tuesday"; "Wednesday"; "Thursday"; "Friday"; "Saturday"].

Definition meals_of_day : list string := ["Breakfast"; "Lunch"; "Dinner"].

(** The cells for which the loop over the grid draws a name and a
    difficulty, in the order it visits them. *)
Definition drawn_cells (plan : Dict.t (Dict.t (string * string)))
  : list (string * string * (string * string)) :=
  day ← days;
  meal_type ← meals_of_day;
  match cell day meal_type plan with
  | Some meal_info => [(day, meal_type, meal_info)]
  | None => []
  end.

(** What the handler shows for the example catalog after one run with
    [monday_from_options]. *)
Definition monday_outcome : outcome :=
  match generate Example.MEALS (session [monday_from_options]) with
  | Ok o => o
  | Raise _ => EmptyPlanWarning
  end.

(** ** The order of the slots after a rerun *)

(** The slot has a salad and no main: the main branch deletes its entry
    and the salad branch stores it again. *)
Definition salad_only (meal_type : string) (w : slot_widgets) : bool :=
  bool_decide (selected_meal w = "-")
  && bool_decide (meal_type ∈ ["Lunch"; "Dinner"])
  && bool_decide (selected_salad w ≠ "-").

(** [v = d[k]; del d[k]; d[k] = v]: the key moves behind the others. *)
Definition move_end {V} (k : string) (d : Dict.t V) : Dict.t V :=
  match Dict.get k d with
  | Some v => Dict.set k v (Dict.del k d)
  | None => d
  end.

(** What a rerun with unchanged widgets does to the dict of a day: the
    entries keep their values, the salad-only ones move to the end. *)
Definition slot_norm (meal_type : string) (w : slot_widgets) (d : Dict.t selection)
  : Dict.t selection :=
  if salad_only meal_type w then move_end meal_type d else d.

Definition day_norm (w : string -> slot_widgets) (d : Dict.t selection)
  : Dict.t selection :=
  foldl (fun d meal_type => slot_norm meal_type (w meal_type) d) d meal_types.

(** The dict of the day holds, for each slot of the grid, what the
    widgets of the slot select. *)
Definition matching (widgets : string -> string -> slot_widgets)
    (plan : plan_t) (day : string) : Prop :=
  exists d,
    Dict.get day plan = Some d
    /\ NoDup (Dict.keys d)
    /\ forall mt, mt ∈ meal_types -> Dict.get mt d = slot_value mt (widgets day mt).

(** Widget values with a salad and no main at Monday lunch and a main at
    Monday dinner. *)
Definition salad_then_main : string -> string -> slot_widgets :=
  fun day slot_type =>
    if bool_decide (day = "Monday" /\ slot_type = "Lunch")
    then {| selected_meal := "-"; num_people := 1; selected_salad := "Garden Salad" |}
    else if bool_decide (day = "Monday" /\ slot_type = "Dinner")
    then {| selected_meal := "Oat Bowl"; num_people := 2; selected_salad := "-" |}
    else {| selected_meal := "-"; num_people := 1; selected_salad := "-" |}.

(** The dict of the day is, in addition, in the order that a rerun with
    the same widgets leaves. *)
Definition settled (widgets : string -> string -> slot_widgets)
    (plan : plan_t) (day : string) : Prop :=
  exists d,
    Dict.get day plan = Some d
    /\ NoDup (Dict.keys d)
    /\ (forall mt, mt ∈ meal_types -> Dict.get mt d = slot_value mt (widgets day mt))
    /\ day_norm (widgets day) d = d.

(** ** Scaling without rounding *)

(** The double with value [k / 2^j], for [0 < k < 2^53]: the significand
    [k] shifted to 53 bits. *)
Definition dyadic (s : bool) (k j : Z) : Py.float :=
  S754_finite s (Z.to_pos (k * 2 ^ (53 - Zdigits2 k))) (Zdigits2 k - 53 - j).

(** A catalog for the scaling examples: salt [0.1] per portion, and rice
    for three. *)
Module Scaling.

Definition risotto : meal :=
  {| meal_name := "Risotto"; meal_type := ["Breakfast"; "Lunch"; "Dinner"];
     meal_difficulty := "Medium";
     meal_ingredients :=
       [{| ing_item := "rice"; ing_quantity := Py.Int 100; ing_unit := "g" |}];
     meal_recipe := "";
     meal_is_salad := None; meal_meal_prep := None;
     meal_default_portions := Some (Py.Int 3) |}.

Definition MEALS : list meal := [Pantry.porridge; risotto].

(** The widget values with one main at Monday breakfast, for [people]. *)
Definition breakfast (name : string) (people : Z) : string -> string -> slot_widgets :=
  fun day meal_type =>
    if bool_decide (day = "Monday" /\ meal_type = "Breakfast")
    then {| selected_meal := name; num_people := people; selected_salad := "-" |}
    else {| selected_meal := "-"; num_people := 1; selected_salad := "-" |}.

End Scaling.


(** * Properties *)

(** ** The number model on some known values *)

Example one_tenth_plus_one_fifth :
  Py.str (Py.Float (Py.fadd (S754_finite false 7205759403792794 (-56))
                            (S754_finite false 7205759403792794 (-55))))
  = "0.30000000000000004".
Proof. vm_compute. reflexivity. Qed.

Example three_hundred : Py.int_truediv 30000 100 = Ok (S754_finite false 5277655813324800 (-44))
  /\ Py.float_repr (S754_finite false 5277655813324800 (-44)) = "300.0".
Proof. split; vm_compute; reflexivity. Qed.

Example one_third :
  (q ← Py.truediv (Py.Int 1) (Py.Int 3); Ok (Py.str q)) = Ok "0.3333333333333333".
Proof. vm_compute. reflexivity. Qed.

Example large_and_small :
  (q ← Py.mul (Py.Int (10 ^ 16)) (Py.Float (S754_finite false 4503599627370496 (-52)));
   Ok (Py.str q)) = Ok "1e+16"
  /\ (q ← Py.truediv (Py.Int 1) (Py.Int 100000); Ok (Py.str q)) = Ok "1e-05"
  /\ (q ← Py.truediv (Py.Int (- 5)) (Py.Int 4); Ok (Py.str q)) = Ok "-1.25".
Proof. split_and!; vm_compute; reflexivity. Qed.

Example ceil_of_floats :
  Py.float_ceil (S754_finite false 5277655813324800 (-44)) = Ok 300
  /\ Py.float_ceil (S754_finite false 7205759403792794 (-56)) = Ok 1
  /\ Py.float_ceil (S754_finite true 7205759403792794 (-56)) = Ok 0
  /\ Py.float_ceil (S754_infinity false) = Raise OverflowError
  /\ Py.float_ceil S754_nan = Raise ValueError.
Proof. split_and!; vm_compute; reflexivity. Qed.

Example division_by_zero :
  Py.truediv (Py.Int 3) (Py.Int 0) = Raise ZeroDivisionError
  /\ Py.truediv (Py.Int 3) (Py.Float (S754_zero false)) = Raise ZeroDivisionError.
Proof. split; vm_compute; reflexivity. Qed.

(** ** Plan state management *)

Section dict_facts.
Context {V : Type}.
Implicit Types (d : Dict.t V) (k : string) (v : V).

Lemma dict_get_None k d : Dict.get k d = None <-> k ∉ Dict.keys d.
Proof.
  induction d as [|[k' v'] d IH]; simpl.
  - split; [intros _; apply not_elem_of_nil | done].
  - case_bool_decide as Hk; subst.
    + split; [done | intros []; left].
    + rewrite IH, not_elem_of_cons. naive_solver.
Qed.

Lemma dict_get_set_eq k v d : Dict.get k (Dict.set k v d) = Some v.
Proof.
  induction d as [|[k' v'] d IH]; simpl.
  - by rewrite bool_decide_eq_true_2.
  - case_bool_decide; simpl; case_bool_decide; done.
Qed.

Lemma dict_get_set_ne k k' v d :
  k ≠ k' -> Dict.get k' (Dict.set k v d) = Dict.get k' d.
Proof.
  intros Hne. induction d as [|[k0 v0] d IH]; simpl.
  - by rewrite bool_decide_eq_false_2.
  - case_bool_decide; subst; simpl.
    + by rewrite !bool_decide_eq_false_2.
    + by rewrite IH.
Qed.

Lemma dict_get_del_ne k k' d :
  k ≠ k' -> Dict.get k' (Dict.del k d) = Dict.get k' d.
Proof.
  intros Hne. induction d as [|[k0 v0] d IH]; simpl; [done|].
  case_bool_decide; subst; simpl.
  - by rewrite bool_decide_eq_false_2.
  - by rewrite IH.
Qed.

Lemma dict_get_del_eq k d :
  NoDup (Dict.keys d) -> Dict.get k (Dict.del k d) = None.
Proof.
  induction d as [|[k0 v0] d IH]; simpl; [done|].
  intros [Hk0 Hd]%NoDup_cons. case_bool_decide; subst; simpl.
  - by apply dict_get_None.
  - rewrite bool_decide_eq_false_2 by done. by apply IH.
Qed.

Lemma dict_keys_set k v d :
  Dict.keys (Dict.set k v d)
  = if Dict.mem k d then Dict.keys d else Dict.keys d ++ [k].
Proof.
  unfold Dict.mem. induction d as [|[k0 v0] d IH]; simpl; [done|].
  case_bool_decide; subst; simpl; [done|].
  unfold Dict.keys in *. rewrite IH. by destruct (Dict.get k d).
Qed.

Lemma dict_keys_del_subseteq k d : Dict.keys (Dict.del k d) ⊆ Dict.keys d.
Proof.
  induction d as [|[k0 v0] d IH]; simpl; [done|].
  case_bool_decide; simpl; set_solver.
Qed.

Lemma dict_NoDup_set k v d :
  NoDup (Dict.keys d) -> NoDup (Dict.keys (Dict.set k v d)).
Proof.
  intros Hd. rewrite dict_keys_set. unfold Dict.mem.
  destruct (Dict.get k d) eqn:Hg; [done|].
  apply dict_get_None in Hg. apply NoDup_app. split_and!; [done| |apply NoDup_singleton].
  intros x Hx ->%list_elem_of_singleton. done.
Qed.

Lemma dict_NoDup_del k d :
  NoDup (Dict.keys d) -> NoDup (Dict.keys (Dict.del k d)).
Proof.
  induction d as [|[k0 v0] d IH]; simpl; [done|].
  intros [Hk0 Hd]%NoDup_cons. case_bool_decide; simpl; [done|].
  apply NoDup_cons. split; [|by apply IH].
  intros Hin. by apply Hk0, (dict_keys_del_subseteq k).
Qed.
End dict_facts.

Lemma day_meals_set day day' meals (plan : plan_t) :
  day_meals day' (Dict.set day meals plan)
  = if bool_decide (day = day') then meals else day_meals day' plan.
Proof.
  unfold day_meals. case_bool_decide; subst.
  - by rewrite dict_get_set_eq.
  - by rewrite dict_get_set_ne.
Qed.

Lemma plan_get_set day mt day' mt' sel (plan : plan_t) :
  plan_get day' mt' (Dict.set day (Dict.set mt sel (day_meals day plan)) plan)
  = if bool_decide (day = day' /\ mt = mt') then Some sel else plan_get day' mt' plan.
Proof.
  unfold plan_get. rewrite day_meals_set.
  case_bool_decide as Hd; subst.
  - case_bool_decide as Hm.
    + destruct Hm as [_ ->]. apply dict_get_set_eq.
    + apply dict_get_set_ne. naive_solver.
  - rewrite bool_decide_eq_false_2; naive_solver.
Qed.

Lemma plan_inv_set day mt sel (plan : plan_t) :
  plan_inv plan ->
  plan_inv (Dict.set day (Dict.set mt sel (day_meals day plan)) plan).
Proof.
  intros Hinv day'. rewrite day_meals_set. case_bool_decide; [|done].
  by apply dict_NoDup_set.
Qed.

Lemma set_main_get day mt w day' mt' plan :
  plan_inv plan ->
  plan_get day' mt' (set_main day mt w plan)
  = if bool_decide (day = day' /\ mt = mt')
    then (if bool_decide (selected_meal w ≠ "-")
          then Some {| sel_name := Some (selected_meal w);
                       sel_people := Some (num_people w);
                       sel_salad := None |}
          else None)
    else plan_get day' mt' plan.
Proof.
  intros Hinv. unfold set_main. case_bool_decide as Hsel.
  { apply plan_get_set. }
  unfold Dict.mem. destruct (Dict.get mt (day_meals day plan)) eqn:Hg.
  - unfold plan_get. rewrite day_meals_set.
    case_bool_decide as Hd; subst.
    + case_bool_decide as Hm.
      * destruct Hm as [_ ->]. by apply dict_get_del_eq.
      * apply dict_get_del_ne. naive_solver.
    + rewrite bool_decide_eq_false_2; naive_solver.
  - case_bool_decide as Hm; [|done]. by destruct Hm as [-> ->].
Qed.

Lemma set_main_inv day mt w plan : plan_inv plan -> plan_inv (set_main day mt w plan).
Proof.
  intros Hinv. unfold set_main. case_bool_decide.
  { by apply plan_inv_set. }
  destruct (Dict.mem _ _); [|done].
  intros day'. rewrite day_meals_set. case_bool_decide; [|done].
  by apply dict_NoDup_del.
Qed.

Lemma set_salad_get day mt w day' mt' plan :
  plan_get day' mt' (set_salad day mt w plan)
  = if bool_decide (day = day' /\ mt = mt')
    then (if bool_decide (selected_salad w ≠ "-")
          then Some {| sel_name := plan_get day mt plan ≫= sel_name;
                       sel_people := plan_get day mt plan ≫= sel_people;
                       sel_salad := Some (selected_salad w) |}
          else (fun sel => {| sel_name := sel_name sel;
                              sel_people := sel_people sel;
                              sel_salad := None |}) <$> plan_get day mt plan)
    else plan_get day' mt' plan.
Proof.
  unfold set_salad. case_bool_decide as Hsel.
  { rewrite plan_get_set. by destruct (plan_get day mt plan). }
  destruct (plan_get day mt plan) as [sel|] eqn:Hg; simpl.
  - destruct (sel_salad sel) eqn:Hs.
    + apply plan_get_set.
    + case_bool_decide as Hm; [|done]. destruct Hm as [-> ->].
      rewrite Hg. by destruct sel; simplify_eq/=.
  - case_bool_decide as Hm; [|done]. by destruct Hm as [-> ->].
Qed.

Lemma set_salad_inv day mt w plan : plan_inv plan -> plan_inv (set_salad day mt w plan).
Proof.
  intros Hinv. unfold set_salad. case_bool_decide.
  { by apply plan_inv_set. }
  destruct (plan_get day mt plan) as [sel|]; [|done].
  destruct (sel_salad sel); [|done]. by apply plan_inv_set.
Qed.

Lemma update_slot_inv day mt w plan :
  plan_inv plan -> plan_inv (update_slot day mt w plan).
Proof.
  intros Hinv. unfold update_slot. case_bool_decide.
  - by apply set_salad_inv, set_main_inv.
  - by apply set_main_inv.
Qed.

Lemma update_slot_get day mt w day' mt' plan :
  plan_inv plan ->
  plan_get day' mt' (update_slot day mt w plan)
  = if bool_decide (day = day' /\ mt = mt') then slot_value mt w
    else plan_get day' mt' plan.
Proof.
  intros Hinv. unfold update_slot, slot_value.
  destruct (bool_decide (mt ∈ ["Lunch"; "Dinner"])); simpl.
  - rewrite set_salad_get, !set_main_get by done.
    rewrite (bool_decide_eq_true_2 (day = day /\ mt = mt)) by done.
    case_bool_decide; [|done].
    repeat case_bool_decide; done.
  - by rewrite set_main_get.
Qed.

Lemma update_slots_inv day (widgets : string -> slot_widgets) mts plan :
  plan_inv plan ->
  plan_inv (foldl (fun plan mt => update_slot day mt (widgets mt) plan) plan mts).
Proof.
  revert plan. induction mts as [|mt mts IH]; simpl; [done|].
  intros plan Hinv. by apply IH, update_slot_inv.
Qed.

Lemma update_slots_get day (widgets : string -> slot_widgets) mts day' mt' plan :
  plan_inv plan -> NoDup mts ->
  plan_get day' mt'
    (foldl (fun plan mt => update_slot day mt (widgets mt) plan) plan mts)
  = if bool_decide (day = day' /\ mt' ∈ mts) then slot_value mt' (widgets mt')
    else plan_get day' mt' plan.
Proof.
  revert plan. induction mts as [|mt mts IH]; simpl; intros plan Hinv Hnd.
  { rewrite bool_decide_eq_false_2; [done|]. intros [_ []%elem_of_nil]. }
  apply NoDup_cons in Hnd as [Hmt Hnd].
  rewrite IH by auto using update_slot_inv.
  rewrite update_slot_get by done.
  repeat case_bool_decide; try done; set_solver.
Qed.

Lemma init_day_get day day' mt' (plan : plan_t) :
  plan_get day' mt' (if Dict.mem day plan then plan else Dict.set day [] plan)
  = plan_get day' mt' plan.
Proof.
  unfold Dict.mem. destruct (Dict.get day plan) eqn:Hg; [done|].
  unfold plan_get. rewrite day_meals_set. case_bool_decide; [|done].
  subst. unfold day_meals. by rewrite Hg.
Qed.

Lemma init_day_inv day (plan : plan_t) :
  plan_inv plan ->
  plan_inv (if Dict.mem day plan then plan else Dict.set day [] plan).
Proof.
  intros Hinv. destruct (Dict.mem day plan); [done|].
  intros day'. rewrite day_meals_set. case_bool_decide; [apply NoDup_nil_2|done].
Qed.

Lemma update_day_inv widgets day plan :
  plan_inv plan -> plan_inv (update_day widgets day plan).
Proof.
  intros Hinv. unfold update_day.
  by apply (update_slots_inv day (widgets day)), init_day_inv.
Qed.

Lemma update_day_get widgets day day' mt' plan :
  plan_inv plan ->
  plan_get day' mt' (update_day widgets day plan)
  = if bool_decide (day = day' /\ mt' ∈ meal_types)
    then slot_value mt' (widgets day mt')
    else plan_get day' mt' plan.
Proof.
  intros Hinv. unfold update_day.
  rewrite (update_slots_get day (widgets day)).
  - case_bool_decide as Hd; [by destruct Hd as [-> _]|]. apply init_day_get.
  - by apply init_day_inv.
  - unfold meal_types. repeat constructor; set_solver.
Qed.

Lemma update_days_inv widgets days plan :
  plan_inv plan ->
  plan_inv (foldl (fun plan day => update_day widgets day plan) plan days).
Proof.
  revert plan. induction days as [|day days IH]; simpl; [done|].
  intros plan Hinv. by apply IH, update_day_inv.
Qed.

Lemma update_days_get widgets days day' mt' plan :
  plan_inv plan -> NoDup days ->
  plan_get day' mt'
    (foldl (fun plan day => update_day widgets day plan) plan days)
  = if bool_decide (day' ∈ days /\ mt' ∈ meal_types)
    then slot_value mt' (widgets day' mt')
    else plan_get day' mt' plan.
Proof.
  revert plan. induction days as [|day days IH]; simpl; intros plan Hinv Hnd.
  { done. }
  apply NoDup_cons in Hnd as [Hday Hnd].
  rewrite IH by auto using update_day_inv.
  rewrite update_day_get by done.
  repeat case_bool_decide; try done; set_solver.
Qed.

Lemma plan_week_inv widgets plan : plan_inv plan -> plan_inv (plan_week widgets plan).
Proof. apply update_days_inv. Qed.

(** After a run, every slot of the grid holds what its widgets say. *)
Lemma plan_week_get widgets day mt plan :
  plan_inv plan ->
  plan_get day mt (plan_week widgets plan)
  = if bool_decide (day ∈ days_of_week /\ mt ∈ meal_types)
    then slot_value mt (widgets day mt)
    else plan_get day mt plan.
Proof.
  intros Hinv. apply update_days_get; [done|].
  unfold days_of_week. repeat constructor; set_solver.
Qed.

Lemma session_snoc runs widgets :
  session (runs ++ [widgets]) = plan_week widgets (session runs).
Proof. unfold session. by rewrite foldl_app. Qed.

Lemma session_inv runs : plan_inv (session runs).
Proof.
  induction runs as [|widgets runs IH] using rev_ind.
  - intros day. apply NoDup_nil_2.
  - rewrite session_snoc. by apply plan_week_inv.
Qed.

(** The plan never holds an entry outside the grid. *)
Lemma session_get_outside runs day mt :
  ~ (day ∈ days_of_week /\ mt ∈ meal_types) ->
  plan_get day mt (session runs) = None.
Proof.
  intros Hout. induction runs as [|widgets runs IH] using rev_ind; [done|].
  rewrite session_snoc, plan_week_get by apply session_inv.
  by rewrite bool_decide_eq_false_2.
Qed.

(** On its own, the [del] of the main branch drops the whole slot entry,
    salad included; the salad branch, which runs next for the same slot,
    stores the salad again from its select box. *)
Lemma set_main_clear_drops_entry day mt w plan :
  plan_inv plan -> selected_meal w = "-" ->
  plan_get day mt (set_main day mt w plan) = None.
Proof.
  intros Hinv Hw. rewrite set_main_get by done.
  rewrite bool_decide_eq_true_2 by done.
  rewrite bool_decide_eq_false_2; [done|]. by intros [].
Qed.

(** In a session, name and people count are stored and removed together. *)
Lemma session_entry_shape runs day mt sel :
  plan_get day mt (session runs) = Some sel ->
  (is_Some (sel_name sel) <-> is_Some (sel_people sel))
  /\ (is_Some (sel_salad sel) -> mt ∈ ["Lunch"; "Dinner"]).
Proof.
  destruct runs as [|widgets runs _] using rev_ind; [done|].
  rewrite session_snoc, plan_week_get by apply session_inv.
  case_bool_decide as Hgrid.
  - unfold slot_value. intros Hsel.
    repeat (case_bool_decide || simplify_eq/= || destruct (bool_decide (mt ∈ _)) eqn:?);
      split; try done; try (split; intros [? [=]]); try (by intros [? [=]]);
      intros _; by apply bool_decide_eq_true_1.
  - by rewrite session_get_outside.
Qed.

(** C1: after a run of the script, take a slot whose entry holds both a
    main (name and people count) and a salad.  When the user sets the
    slot's main select box to "-" and the script runs again, the entry
    loses name and people count and keeps the same salad; when the user
    sets the salad select box to "-" instead, the entry loses the salad
    and keeps the same name and people count. *)
Theorem clearing_main_or_salad_keeps_the_other runs widgets day mt m n s :
  plan_get day mt (session (runs ++ [widgets]))
    = Some {| sel_name := Some m; sel_people := Some n; sel_salad := Some s |} ->
  plan_get day mt
    (plan_week (clear_main day mt widgets) (session (runs ++ [widgets])))
    = Some {| sel_name := None; sel_people := None; sel_salad := Some s |}
  /\ plan_get day mt
       (plan_week (clear_salad day mt widgets) (session (runs ++ [widgets])))
     = Some {| sel_name := Some m; sel_people := Some n; sel_salad := None |}.
Proof.
  intros Hentry.
  pose proof (session_inv (runs ++ [widgets])) as Hinv.
  rewrite !plan_week_get by done.
  rewrite session_snoc, plan_week_get in Hentry by apply session_inv.
  destruct (bool_decide (day ∈ days_of_week /\ mt ∈ meal_types)) eqn:Hgrid.
  - unfold slot_value, clear_main, clear_salad in *.
    rewrite !(bool_decide_eq_true_2 (day = day /\ mt = mt)) by done. simpl.
    destruct (bool_decide (mt ∈ ["Lunch"; "Dinner"])); simpl in *;
      repeat (case_bool_decide; simplify_eq/=); done.
  - apply bool_decide_eq_false_1 in Hgrid.
    by rewrite session_get_outside in Hentry.
Qed.

Lemma clearing_main_or_salad_keeps_the_other_witness :
  plan_get "Monday" "Lunch"
    (plan_week (clear_main "Monday" "Lunch" monday_lunch_widgets)
       (session ([] ++ [monday_lunch_widgets])))
    = Some {| sel_name := None; sel_people := None;
              sel_salad := Some "Garden Salad" |}
  /\ plan_get "Monday" "Lunch"
       (plan_week (clear_salad "Monday" "Lunch" monday_lunch_widgets)
          (session ([] ++ [monday_lunch_widgets])))
     = Some {| sel_name := Some "Oat Bowl"; sel_people := Some 2;
               sel_salad := None |}.
Proof.
  apply (clearing_main_or_salad_keeps_the_other
           [] monday_lunch_widgets "Monday" "Lunch" "Oat Bowl" 2 "Garden Salad").
  vm_compute. reflexivity.
Defined.

(** ** The order on strings *)

Lemma str_compare_refl s : String.compare s s = Eq.
Proof.
  induction s as [|c s IH]; simpl; [done|].
  unfold Ascii.compare. by rewrite N.compare_refl.
Qed.

Lemma str_lt_le_ne s1 s2 : str_lt s1 s2 <-> str_le s1 s2 /\ s1 ≠ s2.
Proof.
  unfold str_lt, String.le, String.ltb, String.leb.
  destruct (String.compare s1 s2) eqn:Hc; simpl.
  - apply String.compare_eq_iff in Hc. naive_solver.
  - split; [|done]. intros _. split; [done|]. intros ->.
    by rewrite str_compare_refl in Hc.
  - naive_solver.
Qed.

Global Instance items_le_total : Total items_le.
Proof. intros x y. apply (total str_le). Qed.

Global Instance items_le_trans : Transitive items_le.
Proof. intros x y z. apply (transitivity (R:=str_le)). Qed.

(** ** The aggregation engine *)

Lemma for_each_app {A S} (body : S -> A -> result S) s l1 l2 :
  for_each body s (l1 ++ l2) = s' ← for_each body s l1; for_each body s' l2.
Proof.
  revert s. induction l1 as [|x l1 IH]; intros s; simpl; [done|].
  destruct (body s x); simpl; [apply IH|done].
Qed.

Lemma bind_Ok {A B} (r : result A) (k : A -> result B) b :
  r ≫= k = Ok b <-> exists a, r = Ok a /\ k a = Ok b.
Proof. destruct r; simpl; naive_solver. Qed.

Lemma scaled_eq ing n p f :
  Py.truediv (Py.Int n) p = Ok f ->
  scaled {| occ_ingredient := ing; occ_people := n; occ_portions := p |}
  = Py.mul (ing_quantity ing) f.
Proof. intros Hf. unfold scaled. simpl. by rewrite Hf. Qed.

(** The ingredient loop, seen from one item. *)
Lemma add_ingredient_lookup f sl ing sl' n p item :
  Py.truediv (Py.Int n) p = Ok f ->
  add_ingredient f sl ing = Ok sl' ->
  for_each post (sl !! item)
    (occurrences_of item
       [{| occ_ingredient := ing; occ_people := n; occ_portions := p |}])
  = Ok (sl' !! item).
Proof.
  intros Hf. unfold add_ingredient.
  intros (s & Hs & (total & Htotal & [= <-])%bind_Ok)%bind_Ok.
  unfold occurrences_of. rewrite filter_cons, filter_nil. unfold occ_item at 1. simpl.
  case_decide as Hitem; simpl.
  - subst item. unfold post. rewrite (scaled_eq _ _ _ _ Hf), Hs. simpl.
    rewrite Htotal. simpl. by rewrite lookup_insert_eq.
  - by rewrite lookup_insert_ne.
Qed.

Lemma occurrences_of_app item l1 l2 :
  occurrences_of item (l1 ++ l2) = occurrences_of item l1 ++ occurrences_of item l2.
Proof. apply filter_app. Qed.

Lemma occurrences_of_cons item o l :
  occurrences_of item (o :: l) = occurrences_of item [o] ++ occurrences_of item l.
Proof. apply (occurrences_of_app item [o] l). Qed.

Lemma add_ingredients_lookup f ings sl sl' n p item :
  Py.truediv (Py.Int n) p = Ok f ->
  for_each (add_ingredient f) sl ings = Ok sl' ->
  for_each post (sl !! item)
    (occurrences_of item
       ((fun ing => {| occ_ingredient := ing; occ_people := n; occ_portions := p |})
          <$> ings))
  = Ok (sl' !! item).
Proof.
  intros Hf. revert sl. induction ings as [|ing ings IH]; intros sl; simpl.
  { by intros [= <-]. }
  intros (sl1 & H1 & Hrest)%bind_Ok.
  rewrite occurrences_of_cons, for_each_app.
  rewrite (add_ingredient_lookup _ _ _ _ _ _ _ Hf H1). simpl. by apply IH.
Qed.

Lemma add_ingredients_to_list_lookup MEALS name n st st' item :
  add_ingredients_to_list MEALS name n st = Ok st' ->
  for_each post (shopping_list st !! item)
    (occurrences_of item (call_occurrences MEALS (name, n)))
  = Ok (shopping_list st' !! item).
Proof.
  unfold add_ingredients_to_list, call_occurrences. simpl.
  destruct (get_meal_by_name name MEALS) as [m|]; [|by intros [= <-]].
  intros (f & Hf & (sl & Hsl & [= <-])%bind_Ok)%bind_Ok. simpl.
  rewrite <- (add_ingredients_lookup _ _ _ _ _ _ item Hf Hsl).
  by destruct (default false (meal_meal_prep m)).
Qed.

Lemma process_selection_lookup MEALS day st mt sel st' item :
  process_selection MEALS day st (mt, sel) = Ok st' ->
  for_each post (shopping_list st !! item)
    (occurrences_of item (calls sel ≫= call_occurrences MEALS))
  = Ok (shopping_list st' !! item).
Proof.
  unfold process_selection, process_main, process_salad, calls.
  intros (st1 & Hmain & Hsalad)%bind_Ok.
  rewrite bind_app, occurrences_of_app, for_each_app.
  assert (for_each post (shopping_list st !! item)
            (occurrences_of item
               (match sel_name sel, sel_people sel with
                | Some name, Some n => [(name, n)]
                | _, _ => []
                end ≫= call_occurrences MEALS))
          = Ok (shopping_list st1 !! item)) as ->.
  { destruct (sel_name sel) as [name|]; [|by simplify_eq].
    destruct (sel_people sel) as [n|]; [|done]. simpl in *.
    rewrite app_nil_r.
    destruct (get_meal_by_name name MEALS) as [m|] eqn:Hm.
    - by rewrite <- (add_ingredients_to_list_lookup _ _ _ _ _ item Hmain).
    - simplify_eq. unfold call_occurrences. simpl. by rewrite Hm. }
  simpl. destruct (sel_salad sel) as [salad|]; [|by simplify_eq].
  simpl. rewrite app_nil_r.
  by rewrite <- (add_ingredients_to_list_lookup _ _ _ _ _ item Hsalad).
Qed.

Lemma process_day_lookup MEALS st day meals st' item :
  process_day MEALS st (day, meals) = Ok st' ->
  for_each post (shopping_list st !! item)
    (occurrences_of item
       (((fun '(meal_type, sel) => (day, meal_type, sel)) <$> meals)
          ≫= (fun e => calls e.2 ≫= call_occurrences MEALS)))
  = Ok (shopping_list st' !! item).
Proof.
  unfold process_day.
  change (shopping_list st) with
    (shopping_list (with_final_plan (Dict.set day [] (final_plan st)) st)).
  generalize (with_final_plan (Dict.set day [] (final_plan st)) st). clear st.
  induction meals as [|[mt sel] meals IH]; intros st; simpl.
  { by intros [= <-]. }
  intros (st1 & H1 & Hrest)%bind_Ok.
  rewrite occurrences_of_app, for_each_app.
  rewrite (process_selection_lookup _ _ _ _ _ _ item H1). simpl. by apply IH.
Qed.

Lemma for_each_process_day_lookup MEALS st plan st' item :
  for_each (process_day MEALS) st plan = Ok st' ->
  for_each post (shopping_list st !! item)
    (occurrences_of item (occurrences MEALS plan))
  = Ok (shopping_list st' !! item).
Proof.
  unfold occurrences, entries.
  revert st. induction plan as [|[day meals] plan IH]; intros st; simpl.
  { by intros [= <-]. }
  intros (st1 & H1 & Hrest)%bind_Ok.
  rewrite bind_app, occurrences_of_app, for_each_app.
  rewrite (process_day_lookup _ _ _ _ _ item H1). simpl. by apply IH.
Qed.

(** What [shopping_list] holds for an item after the aggregation is the
    result of posting that item's occurrences, in plan order, starting
    from no entry. *)
Lemma aggregate_lookup MEALS plan st item :
  aggregate MEALS plan = Ok st ->
  for_each post None (occurrences_of item (occurrences MEALS plan))
  = Ok (shopping_list st !! item).
Proof.
  intros Hagg. by rewrite <- (for_each_process_day_lookup _ _ _ _ item Hagg).
Qed.

(** Posting a list of occurrences: nothing changes when the list is
    empty; otherwise the item is present, its quantity is the running
    total and its units are the units observed, added to what was there. *)
Lemma for_each_post_nil d : for_each post d [] = Ok d.
Proof. done. Qed.

Lemma accumulate_cons start o occs :
  accumulate start (o :: occs)
  = s ← scaled o; total ← Py.add start s; accumulate total occs.
Proof.
  unfold accumulate. simpl. destruct (scaled o); simpl; [|done].
  by destruct (Py.add start a).
Qed.

Lemma for_each_post_cons d o occs d' :
  for_each post d (o :: occs) = Ok d' ->
  exists data,
    d' = Some data
    /\ accumulate (quantity (default new_item d)) (o :: occs) = Ok (quantity data)
    /\ units data = observed_units (o :: occs) ∪ units (default new_item d).
Proof.
  revert d o. induction occs as [|o' occs IH]; intros d o.
  - simpl. unfold post at 1.
    intros (r & (s & Hs & (total & Htotal & [= <-])%bind_Ok)%bind_Ok & [= <-])%bind_Ok.
    eexists. split; [done|]. rewrite accumulate_cons, Hs. simpl.
    rewrite Htotal. simpl.
    split; [done|]. unfold observed_units. simpl. set_solver.
  - intros (d1 & H1 & Hrest)%bind_Ok.
    apply IH in Hrest as (data & -> & Hacc & Hunits).
    unfold post in H1.
    apply bind_Ok in H1 as (s & Hs & (total & Htotal & [= <-])%bind_Ok).
    eexists. split; [done|]. rewrite accumulate_cons, Hs. simpl.
    rewrite Htotal. simpl in *.
    split; [done|]. rewrite Hunits. unfold observed_units. simpl. set_solver.
Qed.

(** ** The table rows *)

Lemma make_rows_spec entries acc rows :
  for_each make_row acc entries = Ok rows ->
  exists new, rows = acc ++ new /\ Forall2 row_of entries new.
Proof.
  revert acc. induction entries as [|[item data] entries IH]; intros acc; simpl.
  - intros [= <-]. exists []. by rewrite app_nil_r.
  - intros (acc1 & (q & Hq & [= <-])%bind_Ok & Hrest)%bind_Ok.
    apply IH in Hrest as (new & -> & Hnew).
    exists ((item, q, units_str data) :: new). rewrite <- app_assoc. split; [done|].
    by constructor.
Qed.

Lemma shopping_df_data_spec sl rows :
  shopping_df_data sl = Ok rows -> Forall2 row_of (sorted_items sl) rows.
Proof.
  intros (new & -> & Hnew)%make_rows_spec. done.
Qed.

Lemma sorted_items_perm sl : sorted_items sl ≡ₚ map_to_list sl.
Proof. apply merge_sort_Permutation. Qed.

Lemma elem_of_sorted_items sl item data :
  (item, data) ∈ sorted_items sl <-> sl !! item = Some data.
Proof. by rewrite sorted_items_perm, elem_of_map_to_list. Qed.

Lemma NoDup_sorted_items_keys sl : NoDup (sorted_items sl).*1.
Proof. rewrite sorted_items_perm. apply NoDup_fst_map_to_list. Qed.

Lemma sorted_items_sorted sl : StronglySorted items_le (sorted_items sl).
Proof. apply StronglySorted_merge_sort; apply _. Qed.

(** The keys come out in strictly increasing order. *)
Lemma sorted_items_keys_sorted sl : StronglySorted str_lt (sorted_items sl).*1.
Proof.
  pose proof (NoDup_sorted_items_keys sl) as Hnd.
  pose proof (sorted_items_sorted sl) as Hs.
  induction Hs as [|x l Hs IH Hx]; simpl in *; [constructor|].
  apply NoDup_cons in Hnd as [Hx' Hnd].
  constructor; [by apply IH|].
  apply Forall_fmap, Forall_forall. intros y Hy. simpl.
  apply str_lt_le_ne. split.
  - rewrite Forall_forall in Hx. by apply Hx.
  - intros Heq. apply Hx'. rewrite Heq. apply list_elem_of_fmap. by exists y.
Qed.

Lemma rows_items entries rows :
  Forall2 row_of entries rows -> row_item <$> rows = entries.*1.
Proof.
  induction 1 as [|e r entries rows (_ & Hitem & _) _ IH]; [done|].
  rewrite !fmap_cons. by rewrite Hitem, IH.
Qed.

Lemma filter_absent_key {V} (l : list (string * V)) k :
  k ∉ l.*1 -> filter (fun x => x.1 = k) l = [].
Proof.
  induction l as [|[k' v'] l IH]; [done|].
  rewrite fmap_cons, not_elem_of_cons. simpl. intros [Hne Hl].
  rewrite filter_cons_False by (simpl; congruence). by apply IH.
Qed.

Lemma filter_unique_key {V} (l : list (string * V)) k v :
  NoDup l.*1 -> (k, v) ∈ l -> filter (fun x => x.1 = k) l = [(k, v)].
Proof.
  induction l as [|[k' v'] l IH].
  { by intros _ ?%elem_of_nil. }
  rewrite fmap_cons. simpl. intros [Hk' Hnd]%NoDup_cons Hin.
  apply elem_of_cons in Hin as [[= <- <-]|Hin].
  - rewrite filter_cons_True by done. by rewrite filter_absent_key.
  - rewrite filter_cons_False; [by apply IH|].
    simpl. intros ->. apply Hk'. apply list_elem_of_fmap. by exists (k, v).
Qed.

Lemma rows_filter entries rows item :
  Forall2 row_of entries rows ->
  Forall2 row_of (filter (fun e => e.1 = item) entries)
    (filter (fun r => row_item r = item) rows).
Proof.
  induction 1 as [|e r entries rows He _ IH]; [constructor|].
  rewrite !filter_cons. destruct He as (Hq & Hitem & Hunits).
  rewrite Hitem. case_decide; [|done]. by constructor.
Qed.

Lemma generate_Artifacts MEALS plan table text timetable prep :
  generate MEALS plan = Ok (Artifacts table text timetable prep) ->
  exists st,
    aggregate MEALS plan = Ok st
    /\ is_plan_empty st = false
    /\ shopping_df_data (shopping_list st) = Ok table
    /\ text = shopping_list_text table
    /\ timetable = final_plan st
    /\ prep = unique_prep_list (prep_list st).
Proof.
  unfold generate. intros (st & Hst & Hout)%bind_Ok. exists st.
  destruct (is_plan_empty st); [done|].
  apply bind_Ok in Hout as (rows & Hrows & [= <- <- <- <-]). done.
Qed.

(** What the aggregation leaves in [shopping_list] for an item that
    occurs in the plan. *)
Lemma aggregate_item MEALS plan st item :
  aggregate MEALS plan = Ok st ->
  occurrences_of item (occurrences MEALS plan) ≠ [] ->
  exists total,
    accumulate (Py.Int 0) (occurrences_of item (occurrences MEALS plan)) = Ok total
    /\ shopping_list st !! item
       = Some {| quantity := total;
                 units := observed_units (occurrences_of item (occurrences MEALS plan)) |}.
Proof.
  intros Hagg%(aggregate_lookup _ _ _ item) Hocc.
  destruct (occurrences_of item (occurrences MEALS plan)) as [|o occs]; [done|].
  apply for_each_post_cons in Hagg as ([total us] & Hdata & Hacc & Hunits).
  simpl in *. exists total. split; [done|]. rewrite Hdata. do 2 f_equal.
  rewrite Hunits. set_solver.
Qed.

(** An item without occurrences is not in [shopping_list]. *)
Lemma aggregate_no_item MEALS plan st item :
  aggregate MEALS plan = Ok st ->
  occurrences_of item (occurrences MEALS plan) = [] ->
  shopping_list st !! item = None.
Proof.
  intros Hagg%(aggregate_lookup _ _ _ item) Hocc. rewrite Hocc in Hagg.
  by simplify_eq/=.
Qed.

(** The value and the row of an item: built once, from what the whole
    plan accumulated for it. *)
Lemma item_entry MEALS plan table text timetable prep item :
  generate MEALS plan = Ok (Artifacts table text timetable prep) ->
  occurrences_of item (occurrences MEALS plan) ≠ [] ->
  exists total,
    accumulate (Py.Int 0) (occurrences_of item (occurrences MEALS plan)) = Ok total
    /\ Forall2 row_of
         [(item,
           {| quantity := total;
              units := observed_units (occurrences_of item (occurrences MEALS plan)) |})]
         (filter (fun r => row_item r = item) table).
Proof.
  intros (st & Hagg & _ & Hrows & _)%generate_Artifacts Hocc.
  destruct (aggregate_item _ _ _ _ Hagg Hocc) as (total & Hacc & Hlookup).
  exists total. split; [done|].
  apply shopping_df_data_spec in Hrows.
  apply (rows_filter _ _ item) in Hrows.
  by rewrite (filter_unique_key _ item _ (NoDup_sorted_items_keys _)) in Hrows
    by (by apply elem_of_sorted_items).
Qed.

(** C7: an item that occurs in the selected meals has exactly one row in
    the shopping list.  Its quantity is the rounded-up running total of
    the scaled quantities of all its occurrences, whatever their units,
    and its unit string is the sorted list of the distinct units observed,
    joined by a comma and a space. *)
Theorem shared_item_has_one_row MEALS plan table text timetable prep item :
  generate MEALS plan = Ok (Artifacts table text timetable prep) ->
  occurrences_of item (occurrences MEALS plan) ≠ [] ->
  exists total q,
    accumulate (Py.Int 0) (occurrences_of item (occurrences MEALS plan)) = Ok total
    /\ final_quantity
         {| quantity := total;
            units := observed_units (occurrences_of item (occurrences MEALS plan)) |}
       = Ok q
    /\ filter (fun r => row_item r = item) table
       = [(item, q,
           join ", "
             (merge_sort str_le
                (elements
                   (observed_units (occurrences_of item (occurrences MEALS plan))))))].
Proof.
  intros Hgen Hocc.
  destruct (item_entry _ _ _ _ _ _ _ Hgen Hocc) as (total & Hacc & Hrows).
  apply Forall2_cons_inv_l in Hrows as ([[item' q] us] & rest & Hrow & Hrest & ->).
  apply Forall2_nil_inv_l in Hrest as ->.
  destruct Hrow as (Hq & Hitem & Hus).
  unfold row_quantity, row_item, row_units in *. simpl in *. subst.
  by exists total, q.
Qed.

Lemma shared_item_has_one_row_witness :
  exists total q,
    accumulate (Py.Int 0)
      (occurrences_of "salt" (occurrences Pantry.MEALS Pantry.plan)) = Ok total
    /\ final_quantity
         {| quantity := total;
            units := observed_units
                       (occurrences_of "salt" (occurrences Pantry.MEALS Pantry.plan)) |}
       = Ok q
    /\ filter (fun r => row_item r = "salt")
         [("salt", Py.Float (S754_finite false 5494391545392005 (-53)), "pinch, tsp")]
       = [("salt", q,
           join ", "
             (merge_sort str_le
                (elements
                   (observed_units
                      (occurrences_of "salt" (occurrences Pantry.MEALS Pantry.plan))))))].
Proof.
  apply (shared_item_has_one_row Pantry.MEALS Pantry.plan
           [("salt", Py.Float (S754_finite false 5494391545392005 (-53)), "pinch, tsp")]
           (text_header +:+ "- salt: 0.61 pinch, tsp" +:+ newline)
           [("Monday", [("Breakfast", ("Porridge", "Easy")); ("Lunch", ("Soup", "Easy"));
                        ("Dinner", ("Stew", "Easy"))])]
           [] "salt").
  - vm_compute. reflexivity.
  - vm_compute. discriminate.
Defined.

(** ** Order of the rows and reordering of the plan *)

Lemma occurrences_perm MEALS plan plan' item :
  entries plan ≡ₚ entries plan' ->
  occurrences_of item (occurrences MEALS plan)
  ≡ₚ occurrences_of item (occurrences MEALS plan').
Proof. intros Hperm. unfold occurrences_of, occurrences. by rewrite Hperm. Qed.

Lemma observed_units_perm occs occs' :
  occs ≡ₚ occs' -> observed_units occs = observed_units occs'.
Proof.
  intros Hperm. unfold observed_units. apply set_eq. intros u.
  rewrite !elem_of_list_to_set. by rewrite Hperm.
Qed.

(** Which items are present, and with which units, does not depend on
    the order of the entries. *)
Lemma aggregate_units_perm MEALS plan plan' st st' :
  entries plan ≡ₚ entries plan' ->
  aggregate MEALS plan = Ok st -> aggregate MEALS plan' = Ok st' ->
  units <$> shopping_list st = units <$> shopping_list st'.
Proof.
  intros Hperm Hagg Hagg'. apply map_eq. intros item. rewrite !lookup_fmap.
  pose proof (occurrences_perm MEALS _ _ item Hperm) as Hocc.
  destruct (decide (occurrences_of item (occurrences MEALS plan) = [])) as [Hnil|Hne].
  - rewrite (aggregate_no_item _ _ _ _ Hagg Hnil).
    rewrite Hnil in Hocc. apply Permutation_nil in Hocc.
    by rewrite (aggregate_no_item _ _ _ _ Hagg' Hocc).
  - destruct (aggregate_item _ _ _ _ Hagg Hne) as (total & _ & ->).
    assert (occurrences_of item (occurrences MEALS plan') ≠ []) as Hne'.
    { intros Hnil. rewrite Hnil in Hocc. by apply Permutation_nil_r in Hocc. }
    destruct (aggregate_item _ _ _ _ Hagg' Hne') as (total' & _ & ->).
    simpl. f_equal. by apply observed_units_perm.
Qed.

Lemma sorted_items_units sl sl' :
  units <$> sl = units <$> sl' ->
  prod_map id units <$> sorted_items sl = prod_map id units <$> sorted_items sl'.
Proof.
  intros Heq.
  assert (forall m : gmap string item_data,
             prod_map id units <$> sorted_items m ≡ₚ map_to_list (units <$> m)) as Hperm.
  { intros m. by rewrite sorted_items_perm, map_to_list_fmap. }
  apply (StronglySorted_unique_strong
           (fun x y : string * gset string => str_le x.1 y.1)).
  - intros [k1 u1] [k2 u2] H1 H2 Hle1 Hle2. simpl in *.
    assert (k1 = k2) as <- by (by apply (anti_symm str_le)).
    rewrite Hperm in H1, H2. apply elem_of_map_to_list in H1, H2.
    rewrite Heq in H1. congruence.
  - eapply StronglySorted_fmap; [|apply sorted_items_sorted]. by intros [] [].
  - eapply StronglySorted_fmap; [|apply sorted_items_sorted]. by intros [] [].
  - by rewrite !Hperm, Heq.
Qed.

Lemma rows_units entries rows :
  Forall2 row_of entries rows ->
  row_units <$> rows = (fun x => units_str x.2) <$> entries.
Proof.
  induction 1 as [|e r entries rows (_ & _ & Hunits) _ IH]; [done|].
  rewrite !fmap_cons. by rewrite Hunits, IH.
Qed.

(** The rows of the table are in strictly increasing order of item name. *)
Lemma table_strictly_sorted sl table :
  shopping_df_data sl = Ok table -> StronglySorted str_lt (row_item <$> table).
Proof.
  intros Hrows%shopping_df_data_spec%rows_items. rewrite Hrows.
  apply sorted_items_keys_sorted.
Qed.

(** C6 (as amended): the rows of the shopping list are in strictly
    increasing order of item name, and the item names, their order and
    their unit strings are the same when the same entries are processed in
    a different order.  (The quantities are running binary64 totals taken
    in processing order; they are not covered.) *)
Theorem rows_sorted_and_stable_under_reordering
    MEALS plan plan' table text timetable prep table' text' timetable' prep' :
  entries plan ≡ₚ entries plan' ->
  generate MEALS plan = Ok (Artifacts table text timetable prep) ->
  generate MEALS plan' = Ok (Artifacts table' text' timetable' prep') ->
  StronglySorted str_lt (row_item <$> table)
  /\ row_item <$> table = row_item <$> table'
  /\ row_units <$> table = row_units <$> table'.
Proof.
  intros Hperm (st & Hagg & _ & Hrows & _)%generate_Artifacts
    (st' & Hagg' & _ & Hrows' & _)%generate_Artifacts.
  split; [by eapply table_strictly_sorted|].
  pose proof (sorted_items_units _ _ (aggregate_units_perm _ _ _ _ _ Hperm Hagg Hagg'))
    as Hsame.
  apply shopping_df_data_spec in Hrows, Hrows'.
  rewrite (rows_items _ _ Hrows), (rows_items _ _ Hrows').
  rewrite (rows_units _ _ Hrows), (rows_units _ _ Hrows').
  split.
  - apply (f_equal (fmap fst)) in Hsame.
    rewrite <- !list_fmap_compose in Hsame. exact Hsame.
  - apply (f_equal (fmap (fun x : string * gset string =>
                            join ", " (merge_sort str_le (elements x.2))))) in Hsame.
    rewrite <- !list_fmap_compose in Hsame. exact Hsame.
Qed.

Lemma rows_sorted_and_stable_under_reordering_witness :
  StronglySorted str_lt
    (row_item <$> [("salt", Py.Float (S754_finite false 5494391545392005 (-53)),
                    "pinch, tsp")])
  /\ row_item <$> [("salt", Py.Float (S754_finite false 5494391545392005 (-53)),
                    "pinch, tsp")]
     = row_item <$> [("salt", Py.Float (S754_finite false 5404319552844595 (-53)),
                      "pinch, tsp")]
  /\ row_units <$> [("salt", Py.Float (S754_finite false 5494391545392005 (-53)),
                     "pinch, tsp")]
     = row_units <$> [("salt", Py.Float (S754_finite false 5404319552844595 (-53)),
                       "pinch, tsp")].
Proof.
  apply (rows_sorted_and_stable_under_reordering Pantry.MEALS Pantry.plan
           Pantry.plan_reversed
           _ (text_header +:+ "- salt: 0.61 pinch, tsp" +:+ newline)
           [("Monday", [("Breakfast", ("Porridge", "Easy")); ("Lunch", ("Soup", "Easy"));
                        ("Dinner", ("Stew", "Easy"))])]
           []
           _ (text_header +:+ "- salt: 0.6 pinch, tsp" +:+ newline)
           [("Monday", [("Dinner", ("Stew", "Easy")); ("Lunch", ("Soup", "Easy"));
                        ("Breakfast", ("Porridge", "Easy"))])]
           []).
  - vm_compute.
    etrans; [apply perm_skip, perm_swap|].
    etrans; [apply perm_swap|].
    apply perm_skip, perm_swap.
  - vm_compute. reflexivity.
  - vm_compute. reflexivity.
Defined.

(** The claim of C6 about quantities fails: the two sessions below end with
    the same selections, made in a different order, and the shopping list
    shows 0.61 for salt after one and 0.6 after the other, because
    [(0.1 + 0.2) + 0.3] and [(0.3 + 0.2) + 0.1] are different doubles. *)
Lemma reordering_changes_quantities :
  entries session_forward ≡ₚ entries session_backward
  /\ table_and_text (generate Pantry.MEALS session_forward)
     = Some ([("salt", Py.Float (S754_finite false 5494391545392005 (-53)),
               "pinch, tsp")],
             text_header +:+ "- salt: 0.61 pinch, tsp" +:+ newline)
  /\ table_and_text (generate Pantry.MEALS session_backward)
     = Some ([("salt", Py.Float (S754_finite false 5404319552844595 (-53)),
               "pinch, tsp")],
             text_header +:+ "- salt: 0.6 pinch, tsp" +:+ newline)
  /\ table_and_text (generate Pantry.MEALS session_forward)
     ≠ table_and_text (generate Pantry.MEALS session_backward).
Proof.
  split_and!.
  - vm_compute.
    etrans; [apply perm_skip, perm_swap|].
    etrans; [apply perm_swap|].
    apply perm_skip, perm_swap.
  - vm_compute. reflexivity.
  - vm_compute. reflexivity.
  - vm_compute. discriminate.
Qed.

(** ** The rounding of the totals *)

Lemma float_ceil_exact f up :
  Py.float_ceil f = Ok up ->
  QArith_base.Qlt (QArith_base.inject_Z (up - 1)) (exact f)
  /\ QArith_base.Qle (exact f) (QArith_base.inject_Z up).
Proof.
  destruct f as [s|s| |s m e]; simpl; try done.
  - intros [= <-]. by vm_compute.
  - intros [= <-].
    set (n := if s then Z.neg m else Z.pos m).
    destruct (Z.leb_spec 0 e) as [He|He].
    + unfold QArith_base.Qlt, QArith_base.Qle. simpl. lia.
    + assert (0 < 2 ^ (- e)) as Hd by (apply Z.pow_pos_nonneg; lia).
      unfold QArith_base.Qlt, QArith_base.Qle. simpl.
      rewrite Z2Pos.id by done.
      pose proof (Z.div_mod (- n) (2 ^ (- e)) ltac:(lia)) as Hdm.
      pose proof (Z.mod_pos_bound (- n) (2 ^ (- e)) Hd) as Hmod.
      nia.
Qed.

(** Scaled quantities and running totals are floats. *)
Lemma truediv_float x y q : Py.truediv x y = Ok q -> exists f, q = Py.Float f.
Proof.
  unfold Py.truediv. destruct x as [a|a], y as [b|b].
  1: intros (q' & _ & [= <-])%bind_Ok; eauto.
  all: intros (a' & _ & (b' & _ & H)%bind_Ok)%bind_Ok;
    destruct (Py.is_zero b'); simplify_eq; eauto.
Qed.

Lemma mul_float_r x f q : Py.mul x (Py.Float f) = Ok q -> exists g, q = Py.Float g.
Proof.
  unfold Py.mul. destruct x as [a|a];
    intros (a' & _ & (b' & _ & [= <-])%bind_Ok)%bind_Ok; eauto.
Qed.

Lemma mul_float_l f y q : Py.mul (Py.Float f) y = Ok q -> exists g, q = Py.Float g.
Proof.
  unfold Py.mul. destruct y as [b|b];
    intros (a' & _ & (b' & _ & [= <-])%bind_Ok)%bind_Ok; eauto.
Qed.

Lemma add_float_r x f q : Py.add x (Py.Float f) = Ok q -> exists g, q = Py.Float g.
Proof.
  unfold Py.add. destruct x as [a|a];
    intros (a' & _ & (b' & _ & [= <-])%bind_Ok)%bind_Ok; eauto.
Qed.

Lemma scaled_float o s : scaled o = Ok s -> exists f, s = Py.Float f.
Proof.
  unfold scaled. intros (q & [f ->]%truediv_float & Hmul)%bind_Ok.
  by eapply mul_float_r.
Qed.

Lemma accumulate_float start occs total :
  occs ≠ [] -> accumulate start occs = Ok total -> exists f, total = Py.Float f.
Proof.
  revert start. induction occs as [|o occs IH]; intros start Hne; [done|].
  rewrite accumulate_cons.
  intros (s & [f ->]%scaled_float & (t & [g ->]%add_float_r & Hrest)%bind_Ok)%bind_Ok.
  destruct (decide (occs = [])) as [->|Hne'].
  - unfold accumulate in Hrest. simplify_eq/=. eauto.
  - exact (IH _ Hne' Hrest).
Qed.

(** C5 (as amended): the reported quantity of an item is Python's
    [math.ceil(total * 100) / 100], evaluated once, on the running total of
    all the item's occurrences in the plan: [up] is the least integer not
    below the double [total * 100], and the row shows the double nearest
    to [up / 100]. *)
Theorem final_quantity_is_one_ceiling_of_the_total
    MEALS plan table text timetable prep item :
  generate MEALS plan = Ok (Artifacts table text timetable prep) ->
  occurrences_of item (occurrences MEALS plan) ≠ [] ->
  exists total cents up q us,
    accumulate (Py.Int 0) (occurrences_of item (occurrences MEALS plan))
      = Ok (Py.Float total)
    /\ Py.mul (Py.Float total) (Py.Int 100) = Ok (Py.Float cents)
    /\ Py.ceil (Py.Float cents) = Ok up
    /\ QArith_base.Qlt (QArith_base.inject_Z (up - 1)) (exact cents)
    /\ QArith_base.Qle (exact cents) (QArith_base.inject_Z up)
    /\ Py.truediv (Py.Int up) (Py.Int 100) = Ok q
    /\ filter (fun r => row_item r = item) table = [(item, q, us)].
Proof.
  intros Hgen Hocc.
  destruct (item_entry _ _ _ _ _ _ _ Hgen Hocc) as (total & Hacc & Hrows).
  apply Forall2_cons_inv_l in Hrows as ([[item' q] us] & rest & Hrow & Hrest & Hfilter).
  apply Forall2_nil_inv_l in Hrest as ->.
  destruct Hrow as (Hq & Hitem & _).
  unfold row_quantity, row_item in *. simpl in Hq, Hitem. subst item'.
  destruct (accumulate_float _ _ _ Hocc Hacc) as [ftotal ->].
  unfold final_quantity in Hq. cbn [quantity] in Hq.
  apply bind_Ok in Hq as (cents & Hcents & (up & Hup & Hdiv)%bind_Ok).
  destruct (mul_float_l _ _ _ Hcents) as [fcents ->].
  destruct (float_ceil_exact _ _ Hup) as [Hlo Hhi].
  exists ftotal, fcents, up, q, us. by split_and!.
Qed.

Lemma final_quantity_is_one_ceiling_of_the_total_witness :
  exists total cents up q us,
    accumulate (Py.Int 0)
      (occurrences_of "salt" (occurrences Pantry.MEALS Pantry.plan))
      = Ok (Py.Float total)
    /\ Py.mul (Py.Float total) (Py.Int 100) = Ok (Py.Float cents)
    /\ Py.ceil (Py.Float cents) = Ok up
    /\ QArith_base.Qlt (QArith_base.inject_Z (up - 1)) (exact cents)
    /\ QArith_base.Qle (exact cents) (QArith_base.inject_Z up)
    /\ Py.truediv (Py.Int up) (Py.Int 100) = Ok q
    /\ filter (fun r => row_item r = "salt")
         [("salt", Py.Float (S754_finite false 5494391545392005 (-53)), "pinch, tsp")]
       = [("salt", q, us)].
Proof.
  apply (final_quantity_is_one_ceiling_of_the_total Pantry.MEALS Pantry.plan
           [("salt", Py.Float (S754_finite false 5494391545392005 (-53)), "pinch, tsp")]
           (text_header +:+ "- salt: 0.61 pinch, tsp" +:+ newline)
           [("Monday", [("Breakfast", ("Porridge", "Easy")); ("Lunch", ("Soup", "Easy"));
                        ("Dinner", ("Stew", "Easy"))])]
           [] "salt").
  - vm_compute. reflexivity.
  - vm_compute. discriminate.
Defined.

(** The bounds claimed in C5 fail in binary64.  Porridge for seven needs
    [0.1 * 7.0 = 0.7000000000000001] of salt and the list shows [0.7],
    which is less; bread for one needs [1.1] of flour and the list shows
    [1.11], which exceeds it by more than one hundredth. *)
Lemma rounding_leaves_the_claimed_interval :
  (exists raw final,
      accumulate (Py.Int 0)
        (occurrences_of "salt" (occurrences Pantry.MEALS Pantry.plan_porridge))
        = Ok (Py.Float raw)
      /\ table_and_text (generate Pantry.MEALS Pantry.plan_porridge)
         = Some ([("salt", Py.Float final, "tsp")],
                 text_header +:+ "- salt: 0.7 tsp" +:+ newline)
      /\ QArith_base.Qlt (exact final) (exact raw))
  /\ (exists raw final,
        accumulate (Py.Int 0)
          (occurrences_of "flour" (occurrences Pantry.MEALS Pantry.plan_bread))
          = Ok (Py.Float raw)
        /\ table_and_text (generate Pantry.MEALS Pantry.plan_bread)
           = Some ([("flour", Py.Float final, "kg")],
                   text_header +:+ "- flour: 1.11 kg" +:+ newline)
        /\ QArith_base.Qlt
             (QArith_base.Qplus (exact raw) (QArith_base.Qmake 1 100))
             (exact final)).
Proof.
  split.
  - exists (S754_finite false 6305039478318695 (-53)),
           (S754_finite false 6305039478318694 (-53)).
    split_and!; vm_compute; reflexivity.
  - exists (S754_finite false 4953959590107546 (-52)),
           (S754_finite false 4998995586381251 (-52)).
    split_and!; vm_compute; reflexivity.
Qed.

(** ** The empty-plan condition *)

Lemma add_ingredients_to_list_flag MEALS name n st st' :
  add_ingredients_to_list MEALS name n st = Ok st' ->
  is_plan_empty st' = is_plan_empty st.
Proof.
  unfold add_ingredients_to_list.
  destruct (get_meal_by_name name MEALS) as [m|]; [|by intros [= <-]].
  intros (f & _ & (sl & _ & [= <-])%bind_Ok)%bind_Ok.
  by destruct (default false (meal_meal_prep m)).
Qed.

Lemma process_selection_flag MEALS day st mt sel st' :
  process_selection MEALS day st (mt, sel) = Ok st' ->
  is_plan_empty st' = is_plan_empty st && blank sel.
Proof.
  unfold process_selection, process_main, process_salad, blank.
  intros (st1 & Hmain & Hsalad)%bind_Ok.
  assert (is_plan_empty st1
          = is_plan_empty st && bool_decide (sel_name sel = None)) as Hst1.
  { destruct (sel_name sel) as [name|]; [|simplify_eq; by rewrite andb_true_r].
    rewrite andb_false_r.
    apply bind_Ok in Hmain as (n & _ & Hmain).
    destruct (get_meal_by_name name MEALS); [|by simplify_eq].
    by rewrite (add_ingredients_to_list_flag _ _ _ _ _ Hmain). }
  destruct (sel_salad sel) as [salad|].
  - rewrite (add_ingredients_to_list_flag _ _ _ _ _ Hsalad). simpl.
    rewrite bool_decide_eq_false_2 by naive_solver. by rewrite andb_false_r.
  - simplify_eq. rewrite Hst1. f_equal. apply bool_decide_ext. naive_solver.
Qed.

Lemma for_each_process_selection_flag MEALS day meals st st' :
  for_each (process_selection MEALS day) st meals = Ok st' ->
  is_plan_empty st' = is_plan_empty st && forallb blank meals.*2.
Proof.
  revert st. induction meals as [|[mt sel] meals IH]; intros st; simpl.
  { intros [= <-]. by rewrite andb_true_r. }
  intros (st1 & H1 & Hrest)%bind_Ok.
  rewrite (IH _ Hrest), (process_selection_flag _ _ _ _ _ _ H1).
  by rewrite andb_assoc.
Qed.

Lemma entries_cons day meals (plan : plan_t) :
  entries ((day, meals) :: plan)
  = ((fun '(meal_type, sel) => (day, meal_type, sel)) <$> meals) ++ entries plan.
Proof. done. Qed.

Lemma for_each_process_day_flag MEALS plan st st' :
  for_each (process_day MEALS) st plan = Ok st' ->
  is_plan_empty st' = is_plan_empty st && forallb blank (entries plan).*2.
Proof.
  revert st. induction plan as [|[day meals] plan IH]; intros st.
  { intros [= <-]. by rewrite andb_true_r. }
  intros (st1 & H1 & Hrest)%bind_Ok.
  rewrite (IH _ Hrest). unfold process_day in H1.
  rewrite (for_each_process_selection_flag _ _ _ _ _ H1).
  cbn [is_plan_empty with_final_plan].
  rewrite entries_cons, fmap_app, forallb_app, andb_assoc. do 2 f_equal.
  rewrite <- list_fmap_compose. f_equal. apply list_fmap_ext. by intros ? [].
Qed.

(** Blank entries are passed over. *)
Lemma process_selection_blank MEALS day st mt sel :
  blank sel = true -> process_selection MEALS day st (mt, sel) = Ok st.
Proof.
  intros [Hname Hsalad]%bool_decide_eq_true.
  unfold process_selection, process_main, process_salad.
  by rewrite Hname, Hsalad.
Qed.

Lemma for_each_process_selection_blank MEALS day st meals :
  forallb blank meals.*2 = true ->
  for_each (process_selection MEALS day) st meals = Ok st.
Proof.
  induction meals as [|[mt sel] meals IH]; simpl; [done|].
  intros [Hsel Hmeals]%andb_true_iff.
  rewrite process_selection_blank by done. simpl. by apply IH.
Qed.

Lemma for_each_process_day_blank MEALS st plan :
  forallb blank (entries plan).*2 = true ->
  exists st', for_each (process_day MEALS) st plan = Ok st'.
Proof.
  revert st. induction plan as [|[day meals] plan IH]; intros st; [by eexists|].
  rewrite entries_cons, fmap_app, forallb_app.
  intros [Hmeals Hplan]%andb_true_iff.
  rewrite <- list_fmap_compose in Hmeals.
  cbn [for_each process_day].
  rewrite for_each_process_selection_blank; [by apply IH|].
  rewrite <- Hmeals. f_equal. apply list_fmap_ext. by intros ? [].
Qed.

(** On any plan, the handler shows the warning, and produces no table,
    text or image, exactly when no entry has a main or a salad: the flag
    is cleared where the keys are read. *)
Lemma empty_plan_warning_iff_nothing_selected MEALS plan :
  generate MEALS plan = Ok EmptyPlanWarning
  <-> Forall (fun e => sel_name e.2 = None /\ sel_salad e.2 = None) (entries plan).
Proof.
  assert (Forall (fun e => sel_name e.2 = None /\ sel_salad e.2 = None) (entries plan)
          <-> forallb blank (entries plan).*2 = true) as ->.
  { rewrite List.forallb_forall, <- List.Forall_forall, Forall_fmap.
    apply Forall_proper; [|done].
    intros e. unfold blank. simpl. by rewrite bool_decide_eq_true. }
  unfold generate, aggregate. split.
  - intros (st & Hagg & Hout)%bind_Ok.
    rewrite (for_each_process_day_flag _ _ _ _ Hagg) in Hout. simpl in Hout.
    destruct (forallb blank (entries plan).*2); [done|].
    by apply bind_Ok in Hout as (rows & _ & [=]).
  - intros Hblank.
    destruct (for_each_process_day_blank MEALS init_state plan Hblank) as [st Hagg].
    rewrite Hagg. simpl.
    by rewrite (for_each_process_day_flag _ _ _ _ Hagg), Hblank.
Qed.

(** ** The text export *)

Lemma str_app_assoc (s1 s2 s3 : string) : (s1 +:+ s2) +:+ s3 = s1 +:+ s2 +:+ s3.
Proof.
  induction s1 as [|c s1 IH]; [done|].
  change (String c ((s1 +:+ s2) +:+ s3) = String c (s1 +:+ s2 +:+ s3)).
  by rewrite IH.
Qed.





(** ** One meal *)

Lemma ingredients_of_cons item ing ings :
  ingredients_of item (ing :: ings)
  = if decide (ing_item ing = item) then ing :: ingredients_of item ings
    else ingredients_of item ings.
Proof. unfold ingredients_of. by rewrite filter_cons. Qed.

(** The ingredient loop, seen from one item: the running total grows by
    the scaled quantity of each ingredient with that item name, in order,
    and the units of those ingredients join the unit set. *)
Lemma add_ingredients_item f ings sl sl' item :
  for_each (add_ingredient f) sl ings = Ok sl' ->
  for_each (add_scaled f) (quantity (item_value sl item)) (ingredients_of item ings)
    = Ok (quantity (item_value sl' item))
  /\ units (item_value sl' item)
     = list_to_set (ing_unit <$> ingredients_of item ings) ∪ units (item_value sl item)
  /\ (ingredients_of item ings ≠ [] -> is_Some (sl' !! item))
  /\ (ingredients_of item ings = [] -> sl' !! item = sl !! item).
Proof.
  revert sl. induction ings as [|ing ings IH]; intros sl.
  { intros [= <-]. split_and!; try done. set_solver. }
  intros (sl1 & H1 & Hrest)%bind_Ok.
  destruct (IH _ Hrest) as (Hq & Hu & Hsome & Hnone).
  unfold add_ingredient in H1.
  apply bind_Ok in H1 as (s & Hs & (total & Htotal & [= <-])%bind_Ok).
  unfold item_value in *. rewrite ingredients_of_cons.
  case_decide as Hitem.
  - subst item. rewrite lookup_insert_eq in Hq, Hu, Hnone. simpl in Hq, Hu.
    split_and!.
    + cbn [for_each].
      assert (add_scaled f (quantity (default new_item (sl !! ing_item ing))) ing
              = Ok total) as ->; [|exact Hq].
      unfold add_scaled. rewrite Hs. exact Htotal.
    + rewrite Hu. set_solver.
    + intros _. destruct (ingredients_of (ing_item ing) ings) eqn:Hocc.
      * by rewrite Hnone.
      * by apply Hsome.
    + done.
  - rewrite lookup_insert_ne in Hq, Hu, Hnone by done. done.
Qed.

Lemma float_of_int_0 : Py.float_of_int 0 = Ok (S754_zero false).
Proof. done. Qed.

Lemma add_to_item_total data f :
  (exists g, quantity data = Py.Float g) \/ data = new_item ->
  exists g, Py.add (quantity data) (Py.Float f) = Ok (Py.Float g).
Proof.
  intros [[g ->]| ->]; unfold Py.add; simpl; eauto.
Qed.

(** The loop cannot fail once every scaled quantity can be computed. *)
Lemma add_ingredients_total f ings sl :
  (exists g, f = Py.Float g) ->
  float_valued sl ->
  Forall (fun ing => is_ok (Py.mul (ing_quantity ing) f) = true) ings ->
  exists sl', for_each (add_ingredient f) sl ings = Ok sl' /\ float_valued sl'.
Proof.
  intros [g ->]. revert sl.
  induction ings as [|ing ings IH]; intros sl Hsl Hings; [by exists sl|].
  apply Forall_cons in Hings as [Hing Hings].
  destruct (Py.mul (ing_quantity ing) (Py.Float g)) as [s|] eqn:Hs; [|done].
  destruct (mul_float_r _ _ _ Hs) as [fs ->].
  destruct (add_to_item_total (default new_item (sl !! ing_item ing)) fs)
    as [total Htotal].
  { destruct (sl !! ing_item ing) as [data|] eqn:Hdata; [left|by right].
    by eapply Hsl. }
  cbn [for_each].
  assert (add_ingredient (Py.Float g) sl ing
          = Ok (<[ing_item ing :=
                   {| quantity := Py.Float total;
                      units := {[ing_unit ing]}
                               ∪ units (default new_item (sl !! ing_item ing)) |}]> sl))
    as ->.
  { unfold add_ingredient. rewrite Hs. simpl. by rewrite Htotal. }
  simpl. apply IH; [|done].
  intros item data. destruct (decide (item = ing_item ing)) as [->|Hne].
  - rewrite lookup_insert_eq. intros [= <-]. simpl. eauto.
  - rewrite lookup_insert_ne by done. apply Hsl.
Qed.

Lemma add_ingredients_to_list_resolved MEALS name m n st st' :
  get_meal_by_name name MEALS = Some m ->
  add_ingredients_to_list MEALS name n st = Ok st' ->
  exists scaling_factor,
    Py.truediv (Py.Int n) (default (Py.Int 1) (meal_default_portions m))
      = Ok scaling_factor
    /\ for_each (add_ingredient scaling_factor) (shopping_list st) (meal_ingredients m)
       = Ok (shopping_list st')
    /\ prep_list st'
       = prep_list st ++ (if default false (meal_meal_prep m) then [meal_name m] else [])
    /\ final_plan st' = final_plan st.
Proof.
  intros Hm. unfold add_ingredients_to_list. rewrite Hm.
  intros (f & Hf & (sl & Hsl & [= <-])%bind_Ok)%bind_Ok. exists f.
  destruct (default false (meal_meal_prep m)); simpl in *;
    rewrite ?app_nil_r; done.
Qed.

(** ** Scaling without rounding *)

Lemma digits2_pos_size p : digits2_pos p = Pos.size p.
Proof. induction p as [p IH|p IH|]; simpl; by rewrite ?IH. Qed.

Lemma Zdigits2_bounds m :
  0 < m -> 2 ^ (Zdigits2 m - 1) <= m < 2 ^ Zdigits2 m.
Proof.
  destruct m as [|p|p]; [lia| |lia]. intros _. simpl.
  rewrite digits2_pos_size.
  pose proof (Pos.size_gt p) as Hgt. pose proof (Pos.size_le p) as Hle.
  assert (Z.pos (2 ^ Pos.size p) = 2 ^ Z.pos (Pos.size p)) as Hpow
    by (by rewrite Pos2Z.inj_pow).
  assert (2 ^ Z.pos (Pos.size p) = 2 * 2 ^ (Z.pos (Pos.size p) - 1)) as Hsplit.
  { rewrite <- Z.pow_succ_r by lia. f_equal. lia. }
  lia.
Qed.

Lemma Zdigits2_pos m : 0 < m -> 0 < Zdigits2 m.
Proof. destruct m; simpl; lia. Qed.

Lemma Zdigits2_unique m d :
  2 ^ (d - 1) <= m < 2 ^ d -> 0 < m -> Zdigits2 m = d.
Proof.
  intros [Hlo Hhi] Hm. pose proof (Zdigits2_bounds m Hm) as [Hlo' Hhi'].
  pose proof (Zdigits2_pos m Hm) as Hd'.
  assert (0 < d) as Hd.
  { destruct (Z.lt_ge_cases 0 d) as [|Hneg]; [done|].
    destruct (decide (d = 0)) as [->|]; [simpl in Hhi; lia|].
    rewrite Z.pow_neg_r in Hhi by lia. lia. }
  assert (d - 1 < Zdigits2 m) by (apply (Z.pow_lt_mono_r_iff 2); lia).
  assert (Zdigits2 m - 1 < d) by (apply (Z.pow_lt_mono_r_iff 2); lia).
  lia.
Qed.

Lemma Zdigits2_shift m n : 0 < m -> 0 <= n -> Zdigits2 (m * 2 ^ n) = Zdigits2 m + n.
Proof.
  intros Hm Hn. pose proof (Zdigits2_bounds m Hm) as [Hlo Hhi].
  pose proof (Zdigits2_pos m Hm) as Hd.
  assert (0 < 2 ^ n) as Hpow by (apply Z.pow_pos_nonneg; lia).
  apply Zdigits2_unique; [|nia].
  replace (Zdigits2 m + n - 1) with (Zdigits2 m - 1 + n) by lia.
  rewrite !Z.pow_add_r by lia. nia.
Qed.

Lemma iter_pos_nat {A} (f : A -> A) p x :
  SpecFloat.iter_pos f p x = Nat.iter (Pos.to_nat p) f x.
Proof.
  revert x. induction p as [p IH|p IH|]; intros x; cbn [SpecFloat.iter_pos].
  - rewrite !IH, Pos2Nat.inj_xI. rewrite Nat.iter_succ_r.
    replace (2 * Pos.to_nat p)%nat with (Pos.to_nat p + Pos.to_nat p)%nat by lia.
    by rewrite Nat.iter_add.
  - rewrite !IH, Pos2Nat.inj_xO.
    replace (2 * Pos.to_nat p)%nat with (Pos.to_nat p + Pos.to_nat p)%nat by lia.
    by rewrite Nat.iter_add.
  - done.
Qed.

Lemma shr_1_double M :
  0 < M ->
  shr_1 {| shr_m := 2 * M; shr_r := false; shr_s := false |}
  = {| shr_m := M; shr_r := false; shr_s := false |}.
Proof. destruct M as [|p|p]; [lia| |lia]. done. Qed.

Lemma iter_shr_1_exact M (k : nat) :
  0 < M ->
  Nat.iter k shr_1 {| shr_m := M * 2 ^ Z.of_nat k; shr_r := false; shr_s := false |}
  = {| shr_m := M; shr_r := false; shr_s := false |}.
Proof.
  revert M. induction k as [|k IH]; intros M HM.
  { simpl. by rewrite Z.mul_1_r. }
  rewrite Nat.iter_succ_r.
  replace (M * 2 ^ Z.of_nat (S k)) with (2 * (M * 2 ^ Z.of_nat k)).
  - rewrite shr_1_double; [by apply IH|].
    assert (0 < 2 ^ Z.of_nat k) by (apply Z.pow_pos_nonneg; lia). nia.
  - rewrite Nat2Z.inj_succ, Z.pow_succ_r by lia. lia.
Qed.

Lemma shr_exact M e n :
  0 < M -> 0 <= n ->
  shr {| shr_m := M * 2 ^ n; shr_r := false; shr_s := false |} e n
  = ({| shr_m := M; shr_r := false; shr_s := false |}, e + n).
Proof.
  intros HM Hn. destruct n as [|p|p]; [|clear Hn|lia].
  - simpl. by rewrite Z.mul_1_r, Z.add_0_r.
  - unfold shr. rewrite iter_pos_nat.
    rewrite <- (positive_nat_Z p) at 1. by rewrite iter_shr_1_exact.
Qed.

(** Rounding a number that the format holds returns that number. *)
Lemma binary_round_aux_representable s M E n :
  0 < M -> fexp 53 1024 (Zdigits2 M + E) = E -> E <= 971 -> 0 <= n ->
  binary_round_aux 53 1024 s (M * 2 ^ n) (E - n) loc_Exact
  = S754_finite s (Z.to_pos M) E.
Proof.
  intros HM Hcanon HE Hn.
  unfold binary_round_aux, shr_fexp.
  rewrite Zdigits2_shift by done.
  replace (Zdigits2 M + n + (E - n)) with (Zdigits2 M + E) by lia.
  rewrite Hcanon. replace (E - (E - n)) with n by lia.
  cbn [shr_record_of_loc]. rewrite shr_exact by done.
  cbn [shr_m loc_of_shr_record round_nearest_even].
  replace (E - n + n) with E by lia.
  rewrite Hcanon, Z.sub_diag. cbn [shr shr_record_of_loc shr_m].
  destruct M as [|p|p]; [lia| |lia].
  rewrite (proj2 (Z.leb_le E (1024 - 53))) by lia. done.
Qed.

Lemma div_eucl_exact a b : 0 < b -> Z.div_eucl (a * b) b = (a, 0).
Proof.
  intros Hb. pose proof (Z.div_mul a b ltac:(lia)) as Hdiv.
  pose proof (Z.mod_mul a b ltac:(lia)) as Hmod.
  unfold Z.div, Z.modulo in *.
  by destruct (Z.div_eucl (a * b) b) as [q r]; simpl in *; subst.
Qed.

Lemma new_location_exact p : new_location p 0 = loc_Exact.
Proof. unfold new_location. by destruct (Z.even p). Qed.

Lemma Zdigits2_mul_bounds a b :
  0 < a -> 0 < b ->
  Zdigits2 a + Zdigits2 b - 1 <= Zdigits2 (a * b) <= Zdigits2 a + Zdigits2 b.
Proof.
  intros Ha Hb.
  destruct (Zdigits2_bounds a Ha) as [Hlo1 Hhi1].
  destruct (Zdigits2_bounds b Hb) as [Hlo2 Hhi2].
  destruct (Zdigits2_bounds (a * b) ltac:(nia)) as [Hlo Hhi].
  pose proof (Zdigits2_pos a Ha). pose proof (Zdigits2_pos b Hb).
  pose proof (Zdigits2_pos (a * b) ltac:(nia)).
  assert (0 < 2 ^ (Zdigits2 a - 1)) by (apply Z.pow_pos_nonneg; lia).
  assert (0 < 2 ^ (Zdigits2 b - 1)) by (apply Z.pow_pos_nonneg; lia).
  split.
  - assert (Zdigits2 a - 1 + (Zdigits2 b - 1) < Zdigits2 (a * b)); [|lia].
    apply (Z.pow_lt_mono_r_iff 2); [lia|lia|]. rewrite Z.pow_add_r by lia. nia.
  - assert (Zdigits2 (a * b) - 1 < Zdigits2 a + Zdigits2 b); [|lia].
    apply (Z.pow_lt_mono_r_iff 2); [lia|lia|]. rewrite Z.pow_add_r by lia. nia.
Qed.

Lemma Zdigits2_le_53 k : 0 < k < 2 ^ 53 -> Zdigits2 k <= 53.
Proof.
  intros Hk. destruct (Zdigits2_bounds k ltac:(lia)) as [Hlo _].
  assert (Zdigits2 k - 1 < 53); [|lia].
  apply (Z.pow_lt_mono_r_iff 2); lia.
Qed.

(** [n / p] is computed without rounding when it is [k / 2^j]. *)
Lemma fdiv_dyadic n p k j :
  0 < p -> 0 < k < 2 ^ 53 -> 0 <= j <= 1000 -> n * 2 ^ j = k * p ->
  Py.fdiv (Py.raw_of_Z n) (Py.raw_of_Z p) = dyadic false k j.
Proof.
  intros Hp Hk Hj Heq.
  assert (0 < 2 ^ j) as Hpowj by (apply Z.pow_pos_nonneg; lia).
  assert (0 < n) as Hn by nia.
  pose proof (Zdigits2_pos n Hn) as Hd1. pose proof (Zdigits2_pos p Hp) as Hd2.
  pose proof (Zdigits2_pos k ltac:(lia)) as Hdk.
  pose proof (Zdigits2_le_53 k Hk) as Hdk53.
  pose proof (Zdigits2_mul_bounds k p ltac:(lia) Hp) as Hkp.
  rewrite <- Heq, Zdigits2_shift in Hkp by lia.
  set (d1 := Zdigits2 n) in *. set (d2 := Zdigits2 p) in *.
  set (dk := Zdigits2 k) in *.
  set (s := 53 + d2 - d1).
  set (nn := dk - j + d2 - d1).
  assert (0 <= nn <= 1) as Hnn by (subst nn; lia).
  assert (s = 53 - dk + nn + j) as Hs by (subst s nn; lia).
  assert (SFdiv_core_binary 53 1024 n 0 p 0
          = (k * 2 ^ (53 - dk) * 2 ^ nn, - s, loc_Exact)) as Hcore.
  { unfold SFdiv_core_binary. fold d1 d2.
    rewrite !Z.add_0_r, Z.sub_0_r.
    assert (fexp 53 1024 (d1 - d2) = d1 - d2 - 53) as -> by (unfold fexp, emin; lia).
    rewrite Z.min_l by lia.
    replace (0 - (d1 - d2 - 53)) with s by (subst s; lia).
    assert (match s with
            | 0 => n
            | Z.pos _ => Z.shiftl n s
            | Z.neg _ => 0
            end = k * 2 ^ (53 - dk) * 2 ^ nn * p) as ->.
    { assert (n * 2 ^ s = k * 2 ^ (53 - dk) * 2 ^ nn * p) as <-.
      { rewrite Hs, !Z.pow_add_r by lia. nia. }
      destruct s as [|s'|s'] eqn:Hs'; [simpl; lia| |lia].
      by rewrite Z.shiftl_mul_pow2 by lia. }
    rewrite div_eucl_exact by done. rewrite new_location_exact.
    f_equal. f_equal. subst s. lia. }
  unfold Py.fdiv, SFdiv, dyadic. fold dk.
  destruct p as [|pp|pp]; [lia| |lia]. destruct n as [|np|np]; [lia| |lia].
  cbn [Py.raw_of_Z xorb]. unfold Py.prec, Py.emax. rewrite Hcore.
  replace (- s) with (dk - 53 - j - nn) by lia.
  apply binary_round_aux_representable; [| |lia|lia].
  - assert (0 < 2 ^ (53 - dk)) by (apply Z.pow_pos_nonneg; lia). nia.
  - rewrite Zdigits2_shift by lia. fold dk. unfold fexp, emin. lia.
Qed.

Lemma pos_iter_xO m d : Z.pos (Pos.iter xO m d) = Z.pos m * 2 ^ Z.pos d.
Proof.
  induction d as [|d IH] using Pos.peano_ind.
  - simpl. lia.
  - rewrite Pos.iter_succ, Pos2Z.inj_xO, IH, Pos2Z.inj_succ, Z.pow_succ_r by lia. lia.
Qed.

Lemma dyadic_canonical k j :
  0 < k < 2 ^ 53 -> j <= 1000 ->
  0 < k * 2 ^ (53 - Zdigits2 k)
  /\ fexp 53 1024 (Zdigits2 (k * 2 ^ (53 - Zdigits2 k)) + (Zdigits2 k - 53 - j))
     = Zdigits2 k - 53 - j.
Proof.
  intros Hk Hj. pose proof (Zdigits2_le_53 k Hk).
  pose proof (Zdigits2_pos k ltac:(lia)).
  assert (0 < 2 ^ (53 - Zdigits2 k)) by (apply Z.pow_pos_nonneg; lia).
  split; [nia|]. rewrite Zdigits2_shift by lia. unfold fexp, emin. lia.
Qed.

(** [float(q)] is [q] for an int below [2^53]. *)
Lemma float_of_int_dyadic q :
  0 < Z.abs q < 2 ^ 53 ->
  Py.float_of_int q = Ok (dyadic (q <? 0) (Z.abs q) 0).
Proof.
  intros Hq. unfold Py.float_of_int, binary_normalize, binary_round.
  assert (forall s m,
             0 < Z.pos m < 2 ^ 53 ->
             (let '(mz, ez) :=
                shl_align m 0 (fexp Py.prec Py.emax (Z.pos (digits2_pos m) + 0)) in
              binary_round_aux Py.prec Py.emax s (Z.pos mz) ez loc_Exact)
             = dyadic s (Z.pos m) 0) as Hround.
  { intros s m Hm. unfold Py.prec, Py.emax.
    change (Z.pos (digits2_pos m)) with (Zdigits2 (Z.pos m)).
    pose proof (Zdigits2_le_53 _ Hm) as Hd. pose proof (Zdigits2_pos (Z.pos m) ltac:(lia)).
    destruct (dyadic_canonical (Z.pos m) 0 Hm ltac:(lia)) as [HM Hcanon].
    assert (fexp 53 1024 (Zdigits2 (Z.pos m) + 0) = Zdigits2 (Z.pos m) - 53) as ->
      by (unfold fexp, emin; lia).
    unfold shl_align, dyadic. rewrite Z.sub_0_r.
    destruct (Zdigits2 (Z.pos m) - 53) as [|d|d] eqn:Hdiff; [|lia|].
    - assert (Zdigits2 (Z.pos m) = 53) as H53 by lia.
      pose proof (binary_round_aux_representable s (Z.pos m) 0 0) as Hr.
      rewrite Z.pow_0_r, Z.mul_1_r, Z.sub_0_r in Hr.
      rewrite Hr; [|lia|rewrite H53; unfold fexp, emin; lia|lia|lia].
      rewrite H53. simpl. by rewrite Pos.mul_1_r.
    - assert (53 - Zdigits2 (Z.pos m) = Z.pos d) as Hd' by lia.
      rewrite Hd' in *. rewrite pos_iter_xO.
      rewrite Z.sub_0_r in Hcanon.
      pose proof (binary_round_aux_representable s (Z.pos m * 2 ^ Z.pos d)
                    (Z.neg d) 0 HM Hcanon ltac:(lia) ltac:(lia)) as Hr.
      rewrite Z.pow_0_r, Z.mul_1_r, !Z.sub_0_r in Hr. by rewrite Hr. }
  destruct q as [|m|m]; [simpl in Hq; lia| |].
  - rewrite (Hround false m) by (simpl in Hq; lia). done.
  - rewrite (Hround true m) by (simpl in Hq; lia). done.
Qed.

(** The product of two such doubles is exact when it is below [2^53]. *)
Lemma fmul_dyadic s1 s2 k1 j1 k2 j2 :
  0 < k1 -> 0 < k2 -> k1 * k2 < 2 ^ 53 ->
  0 <= j1 -> 0 <= j2 -> j1 + j2 <= 1000 ->
  Py.fmul (dyadic s1 k1 j1) (dyadic s2 k2 j2) = dyadic (xorb s1 s2) (k1 * k2) (j1 + j2).
Proof.
  intros H1 H2 H12 Hj1 Hj2 Hj.
  assert (0 < k1 < 2 ^ 53) as Hk1 by nia.
  assert (0 < k2 < 2 ^ 53) as Hk2 by nia.
  assert (0 < k1 * k2 < 2 ^ 53) as HK by nia.
  pose proof (Zdigits2_le_53 _ Hk1). pose proof (Zdigits2_le_53 _ Hk2).
  pose proof (Zdigits2_le_53 _ HK).
  pose proof (Zdigits2_pos k1 H1). pose proof (Zdigits2_pos k2 H2).
  pose proof (Zdigits2_mul_bounds k1 k2 H1 H2) as Hd.
  destruct (dyadic_canonical (k1 * k2) (j1 + j2) HK Hj) as [HM Hcanon].
  set (d1 := Zdigits2 k1) in *. set (d2 := Zdigits2 k2) in *.
  set (dK := Zdigits2 (k1 * k2)) in *.
  assert (0 < 2 ^ (53 - d1)) by (apply Z.pow_pos_nonneg; lia).
  assert (0 < 2 ^ (53 - d2)) by (apply Z.pow_pos_nonneg; lia).
  unfold Py.fmul, SFmul, dyadic. fold d1 d2 dK.
  rewrite Pos2Z.inj_mul, !Z2Pos.id by nia.
  pose proof (binary_round_aux_representable (xorb s1 s2)
                (k1 * k2 * 2 ^ (53 - dK)) (dK - 53 - (j1 + j2)) (dK + 53 - d1 - d2)
                HM Hcanon ltac:(lia) ltac:(lia)) as Hr.
  unfold Py.prec, Py.emax. rewrite <- Hr. f_equal; [|lia].
  assert (2 ^ (53 - dK) * 2 ^ (dK + 53 - d1 - d2) = 2 ^ (53 - d1) * 2 ^ (53 - d2))
    as Hpow by (rewrite <- !Z.pow_add_r by lia; f_equal; lia).
  rewrite <- (Z.mul_assoc (k1 * k2)), Hpow. lia.
Qed.

Lemma exact_dyadic s k j :
  0 < k < 2 ^ 53 -> 0 <= j ->
  QArith_base.Qeq (exact (dyadic s k j))
    (QArith_base.Qmake (if s then - k else k) (Z.to_pos (2 ^ j))).
Proof.
  intros Hk Hj. pose proof (Zdigits2_le_53 k Hk) as Hd.
  pose proof (Zdigits2_pos k ltac:(lia)).
  assert (0 < 2 ^ (53 - Zdigits2 k)) by (apply Z.pow_pos_nonneg; lia).
  assert (0 < 2 ^ j) as Hpj by (apply Z.pow_pos_nonneg; lia).
  unfold exact, dyadic.
  set (M := k * 2 ^ (53 - Zdigits2 k)).
  assert (0 < M) as HM by (subst M; nia).
  assert ((if s then Z.neg (Z.to_pos M) else Z.pos (Z.to_pos M))
          = if s then - M else M) as ->.
  { destruct s; [rewrite <- Pos2Z.opp_pos|]; by rewrite Z2Pos.id. }
  destruct (Z.leb_spec 0 (Zdigits2 k - 53 - j)) as [He|He].
  - assert (Zdigits2 k = 53 /\ j = 0) as [H53 ->] by lia.
    subst M. rewrite H53. simpl.
    unfold QArith_base.Qeq. simpl. destruct s; lia.
  - unfold QArith_base.Qeq. simpl.
    assert (0 < 2 ^ (- (Zdigits2 k - 53 - j))) as Hpe by (apply Z.pow_pos_nonneg; lia).
    rewrite !Z2Pos.id by done.
    replace (- (Zdigits2 k - 53 - j)) with ((53 - Zdigits2 k) + j) by lia.
    rewrite Z.pow_add_r by lia. subst M. destruct s; lia.
Qed.

Lemma dyadic_value (s : bool) k j N D :
  0 < k < 2 ^ 53 -> 0 <= j -> 0 < D ->
  (if s then - k else k) * D = N * 2 ^ j ->
  QArith_base.Qeq (exact (dyadic s k j)) (QArith_base.Qmake N (Z.to_pos D)).
Proof.
  intros Hk Hj HD Heq.
  eapply QArith_base.Qeq_trans; [by apply exact_dyadic|].
  assert (0 < 2 ^ j) by (apply Z.pow_pos_nonneg; lia).
  unfold QArith_base.Qeq. simpl. rewrite !Z2Pos.id by done. lia.
Qed.

Lemma truediv_dyadic n p k j :
  0 < p -> 0 < k < 2 ^ 53 -> 0 <= j <= 1000 -> n * 2 ^ j = k * p ->
  Py.truediv (Py.Int n) (Py.Int p) = Ok (Py.Float (dyadic false k j)).
Proof.
  intros Hp Hk Hj Heq. unfold Py.truediv, Py.int_truediv.
  rewrite (proj2 (Z.eqb_neq p 0)) by lia.
  by rewrite (fdiv_dyadic n p k j).
Qed.

Lemma mul_int_dyadic q k j :
  0 < k -> Z.abs q * k < 2 ^ 53 -> 0 <= j <= 1000 ->
  exists g,
    Py.mul (Py.Int q) (Py.Float (dyadic false k j)) = Ok (Py.Float g)
    /\ is_finite g = true
    /\ forall N D, 0 < D -> q * k * D = N * 2 ^ j ->
                   QArith_base.Qeq (exact g) (QArith_base.Qmake N (Z.to_pos D)).
Proof.
  intros Hk Hqk Hj. unfold Py.mul. cbn [Py.to_float].
  destruct (decide (q = 0)) as [->|Hq].
  - exists (S754_zero false). split; [done|]. split; [done|].
    intros N D HD Heq. assert (0 < 2 ^ j) by (apply Z.pow_pos_nonneg; lia).
    assert (N = 0) as -> by nia. done.
  - assert (0 < Z.abs q) as Hq' by lia.
    assert (0 < Z.abs q * k) as Hpos by nia.
    rewrite float_of_int_dyadic by nia. cbn -[Py.fmul dyadic Z.ltb Z.abs].
    rewrite (fmul_dyadic (q <? 0) false (Z.abs q) 0 k j) by lia.
    eexists. split; [done|]. split; [done|].
    intros N D HD Heq. apply dyadic_value; [lia|lia|done|].
    rewrite xorb_false_r, Z.add_0_l.
    destruct (Z.ltb_spec q 0).
    + rewrite Z.abs_neq by lia. nia.
    + rewrite Z.abs_eq by lia. nia.
Qed.


(** C4 (as amended): for a meal found in the catalog, with portion count
    p (1 when the record has no ['default_portions']) and selected for n
    people, the scaling factor is Python's [n / p], and the running total
    of every item grows by Python's [quantity * (n / p)] for each
    ingredient of the meal with that item name, in double precision; for
    an item that the meal lists once this is one product added to the
    total.  Whenever [n / p = k / 2^j] with [0 < k < 2^53] and
    [0 <= j <= 1000], as when p divides n with a quotient below [2^53],
    the factor is exactly n/p, and for an integer quantity q with
    [|q| * k < 2^53] the product that is added is exactly [q * n / p]:
    these scaled quantities are linear in n.  Otherwise the factor and
    the products are rounded to doubles. *)
Theorem ingredients_scaled_by_people_over_portions MEALS name m n st st' :
  get_meal_by_name name MEALS = Some m ->
  add_ingredients_to_list MEALS name n st = Ok st' ->
  exists scaling_factor,
    Py.truediv (Py.Int n) (default (Py.Int 1) (meal_default_portions m))
      = Ok scaling_factor
    /\ (forall item,
          for_each (add_scaled scaling_factor)
            (quantity (item_value (shopping_list st) item))
            (ingredients_of item (meal_ingredients m))
          = Ok (quantity (item_value (shopping_list st') item)))
    /\ (forall ing,
          ingredients_of (ing_item ing) (meal_ingredients m) = [ing] ->
          exists scaled_quantity,
            Py.mul (ing_quantity ing) scaling_factor = Ok scaled_quantity
            /\ Py.add (quantity (item_value (shopping_list st) (ing_item ing)))
                 scaled_quantity
               = Ok (quantity (item_value (shopping_list st') (ing_item ing))))
    /\ (forall p k j,
          default (Py.Int 1) (meal_default_portions m) = Py.Int p ->
          0 < p -> 0 < k < 2 ^ 53 -> 0 <= j <= 1000 -> n * 2 ^ j = k * p ->
          (exists f,
              scaling_factor = Py.Float f
              /\ is_finite f = true
              /\ QArith_base.Qeq (exact f) (QArith_base.Qmake n (Z.to_pos p)))
          /\ (forall ing q,
                ing ∈ meal_ingredients m ->
                ing_quantity ing = Py.Int q ->
                Z.abs q * k < 2 ^ 53 ->
                exists g,
                  Py.mul (ing_quantity ing) scaling_factor = Ok (Py.Float g)
                  /\ is_finite g = true
                  /\ QArith_base.Qeq (exact g)
                       (QArith_base.Qmake (q * n) (Z.to_pos p)))).
Proof.
  intros Hm Hadd.
  destruct (add_ingredients_to_list_resolved _ _ _ _ _ _ Hm Hadd)
    as (f & Hf & Hloop & _).
  exists f. split; [done|]. split; [|split].
  - intros item. by destruct (add_ingredients_item _ _ _ _ item Hloop) as [? _].
  - intros ing Hone.
    destruct (add_ingredients_item _ _ _ _ (ing_item ing) Hloop) as [Hq _].
    rewrite Hone in Hq. cbn [for_each] in Hq.
    apply bind_Ok in Hq as (total & (s & Hs & Htotal)%bind_Ok & [= <-]).
    by exists s.
  - intros p k j Hp Hpos Hk Hj Heq.
    rewrite Hp, (truediv_dyadic n p k j) in Hf by done.
    injection Hf as <-. split.
    + exists (dyadic false k j). split; [done|]. split; [done|].
      apply dyadic_value; lia.
    + intros ing q _ -> Hq.
      destruct (mul_int_dyadic q k j) as (g & Hg & Hfin & Hval); [lia|done|done|].
      exists g. split; [done|]. split; [done|]. apply Hval; [done|]. nia.
Qed.

Lemma ingredients_scaled_by_people_over_portions_witness :
  exists scaling_factor,
    Py.truediv (Py.Int 3) (default (Py.Int 1) (meal_default_portions Example.oat_bowl))
      = Ok scaling_factor
    /\ (forall item,
          for_each (add_scaled scaling_factor)
            (quantity (item_value (shopping_list init_state) item))
            (ingredients_of item (meal_ingredients Example.oat_bowl))
          = Ok (quantity (item_value (shopping_list after_oat_bowl) item)))
    /\ (forall ing,
          ingredients_of (ing_item ing) (meal_ingredients Example.oat_bowl) = [ing] ->
          exists scaled_quantity,
            Py.mul (ing_quantity ing) scaling_factor = Ok scaled_quantity
            /\ Py.add (quantity (item_value (shopping_list init_state) (ing_item ing)))
                 scaled_quantity
               = Ok (quantity (item_value (shopping_list after_oat_bowl) (ing_item ing))))
    /\ (forall p k j,
          default (Py.Int 1) (meal_default_portions Example.oat_bowl) = Py.Int p ->
          0 < p -> 0 < k < 2 ^ 53 -> 0 <= j <= 1000 -> 3 * 2 ^ j = k * p ->
          (exists f,
              scaling_factor = Py.Float f
              /\ is_finite f = true
              /\ QArith_base.Qeq (exact f) (QArith_base.Qmake 3 (Z.to_pos p)))
          /\ (forall ing q,
                ing ∈ meal_ingredients Example.oat_bowl ->
                ing_quantity ing = Py.Int q ->
                Z.abs q * k < 2 ^ 53 ->
                exists g,
                  Py.mul (ing_quantity ing) scaling_factor = Ok (Py.Float g)
                  /\ is_finite g = true
                  /\ QArith_base.Qeq (exact g)
                       (QArith_base.Qmake (q * 3) (Z.to_pos p)))).
Proof.
  apply (ingredients_scaled_by_people_over_portions
           Example.MEALS "Oat Bowl" Example.oat_bowl 3 init_state after_oat_bowl).
  - reflexivity.
  - vm_compute. reflexivity.
Defined.

(** The example of the specification is in the exact case: three people
    over two portions is [3 / 2^1], the factor is exactly 3/2 and 200 g of
    oats add exactly 300. *)
Example oat_bowl_scaling_is_exact :
  exists f g,
    Py.truediv (Py.Int 3) (Py.Int 2) = Ok (Py.Float f)
    /\ QArith_base.Qeq (exact f) (QArith_base.Qmake 3 2)
    /\ Py.mul (Py.Int 200) (Py.Float f) = Ok (Py.Float g)
    /\ QArith_base.Qeq (exact g) (QArith_base.inject_Z 300).
Proof. do 2 eexists. split_and!; vm_compute; reflexivity. Qed.

(** The claim of C4 fails where the results are not doubles.  Risotto,
    with three default portions, planned for one person: the factor is
    the double next to 1/3 and not 1/3, and 100 g of rice add less than
    100/3.  Porridge, with 0.1 of salt per portion: for one person the
    total is 0.1 and the list shows 0.1; for three people the total is
    [0.1 * 3.0 = 0.30000000000000004], which is not three times the total
    for one, and the list shows 0.31. *)
Lemma scaling_is_rounded_not_linear :
  (exists f rice,
      Py.truediv (Py.Int 1) (default (Py.Int 1) (meal_default_portions Scaling.risotto))
        = Ok (Py.Float f)
      /\ ~ QArith_base.Qeq (exact f) (QArith_base.Qmake 1 3)
      /\ accumulate (Py.Int 0)
           (occurrences_of "rice"
              (occurrences Scaling.MEALS (session [Scaling.breakfast "Risotto" 1])))
         = Ok (Py.Float rice)
      /\ QArith_base.Qlt (exact rice) (QArith_base.Qmake 100 3))
  /\ (exists one three,
        accumulate (Py.Int 0)
          (occurrences_of "salt"
             (occurrences Scaling.MEALS (session [Scaling.breakfast "Porridge" 1])))
          = Ok (Py.Float one)
        /\ accumulate (Py.Int 0)
             (occurrences_of "salt"
                (occurrences Scaling.MEALS (session [Scaling.breakfast "Porridge" 3])))
           = Ok (Py.Float three)
        /\ QArith_base.Qlt
             (QArith_base.Qmult (QArith_base.inject_Z 3) (exact one)) (exact three)
        /\ table_and_text
             (generate Scaling.MEALS (session [Scaling.breakfast "Porridge" 1]))
           = Some ([("salt", Pantry.tenth, "tsp")],
                   text_header +:+ "- salt: 0.1 tsp" +:+ newline)
        /\ table_and_text
             (generate Scaling.MEALS (session [Scaling.breakfast "Porridge" 3]))
           = Some ([("salt", Py.Float (S754_finite false 5584463537939415 (-54)),
                     "tsp")],
                   text_header +:+ "- salt: 0.31 tsp" +:+ newline)).
Proof.
  split.
  - do 2 eexists. split_and!; [vm_compute; reflexivity|vm_compute; discriminate
                              |vm_compute; reflexivity|vm_compute; reflexivity].
  - do 2 eexists. split_and!; vm_compute; reflexivity.
Qed.

(** C10: when the ingredient list of one meal names an item more than
    once, the occurrences are merged.  Provided each scaled quantity can
    be computed on its own, adding the meal succeeds, and the item has a
    single value in the shopping list: its quantity is the previous total
    plus the scaled quantity of each occurrence, in order, and its unit
    set is the previous one together with the units of the occurrences. *)
Theorem repeated_item_is_merged MEALS name m n st scaling_factor item :
  get_meal_by_name name MEALS = Some m ->
  Py.truediv (Py.Int n) (default (Py.Int 1) (meal_default_portions m))
    = Ok scaling_factor ->
  Forall (fun ing => is_ok (Py.mul (ing_quantity ing) scaling_factor) = true)
    (meal_ingredients m) ->
  float_valued (shopping_list st) ->
  ingredients_of item (meal_ingredients m) ≠ [] ->
  exists st' total,
    add_ingredients_to_list MEALS name n st = Ok st'
    /\ for_each (add_scaled scaling_factor)
         (quantity (item_value (shopping_list st) item))
         (ingredients_of item (meal_ingredients m))
       = Ok total
    /\ shopping_list st' !! item
       = Some {| quantity := total;
                 units := list_to_set (ing_unit <$> ingredients_of item (meal_ingredients m))
                          ∪ units (item_value (shopping_list st) item) |}.
Proof.
  intros Hm Hf Hmul Hfloat Hocc.
  destruct (truediv_float _ _ _ Hf) as [g Hg].
  destruct (add_ingredients_total scaling_factor (meal_ingredients m) (shopping_list st))
    as (sl' & Hloop & _); [by exists g|done..|].
  destruct (add_ingredients_item _ _ _ _ item Hloop) as (Hq & Hu & Hsome & _).
  unfold add_ingredients_to_list. rewrite Hm. simpl. rewrite Hf. simpl.
  destruct (default false (meal_meal_prep m)); simpl; rewrite Hloop; simpl;
    eexists _, _; (split; [done|]); (split; [exact Hq|]); simpl;
    destruct (Hsome Hocc) as [[q us] Hdata];
    unfold item_value in Hu, Hq |- *; rewrite Hdata in Hu, Hq |- *;
    simpl in *; by rewrite Hu.
Qed.

Lemma repeated_item_is_merged_witness :
  exists st' total,
    add_ingredients_to_list Pantry.MEALS "Pancakes" 2 init_state = Ok st'
    /\ for_each (add_scaled one_half)
         (quantity (item_value (shopping_list init_state) "flour"))
         (ingredients_of "flour" (meal_ingredients Pantry.pancakes))
       = Ok total
    /\ shopping_list st' !! "flour"
       = Some {| quantity := total;
                 units := list_to_set
                            (ing_unit <$> ingredients_of "flour"
                                            (meal_ingredients Pantry.pancakes))
                          ∪ units (item_value (shopping_list init_state) "flour") |}.
Proof.
  apply (repeated_item_is_merged Pantry.MEALS "Pancakes" Pantry.pancakes 2
           init_state one_half "flour").
  - reflexivity.
  - vm_compute. reflexivity.
  - repeat constructor.
  - intros item data. simpl. by rewrite lookup_empty.
  - vm_compute. discriminate.
Defined.

(** Pancakes for two: the two flour lines of the recipe make one row. *)
Example pancakes_output :
  generate Pantry.MEALS Pantry.plan_pancakes
  = Ok (Artifacts
          [("flour", Py.Float (S754_finite false 7107243161944064 (-47)), "g, tbsp");
           ("milk", Py.Float (S754_finite false 7036874417766400 (-46)), "ml")]
          (text_header +:+ "- flour: 50.5 g, tbsp" +:+ newline
             +:+ "- milk: 100.0 ml" +:+ newline)
          [("Sunday", [("Breakfast", ("Pancakes", "Easy"))])]
          ["Pancakes"]).
Proof. vm_compute. reflexivity. Qed.

(** ** The salad of a slot *)

(** C9: when an entry has a salad, the salad is added with the people
    count of the entry's main if a main is selected, and with 1 otherwise:
    for a salad found in the catalog the ingredients are scaled by that
    count over the salad's portion count, and the salad's name joins the
    prep-ahead list when its ['meal_prep'] flag is set. *)
Theorem salad_scaled_by_main_people_count MEALS sel salad r st st' :
  sel_salad sel = Some salad ->
  (is_Some (sel_name sel) <-> is_Some (sel_people sel)) ->
  get_meal_by_name salad MEALS = Some r ->
  process_salad MEALS sel st = Ok st' ->
  process_salad MEALS sel st
    = add_ingredients_to_list MEALS salad (salad_people sel) (not_empty st)
  /\ prep_list st'
     = prep_list st ++ (if default false (meal_meal_prep r) then [meal_name r] else [])
  /\ exists scaling_factor,
       Py.truediv (Py.Int (salad_people sel))
         (default (Py.Int 1) (meal_default_portions r))
         = Ok scaling_factor
       /\ forall item,
            for_each (add_scaled scaling_factor)
              (quantity (item_value (shopping_list st) item))
              (ingredients_of item (meal_ingredients r))
            = Ok (quantity (item_value (shopping_list st') item)).
Proof.
  intros Hsalad Hshape Hr Hrun.
  assert (default 1 (sel_people sel) = salad_people sel) as Hpeople.
  { unfold salad_people.
    destruct (sel_name sel) as [name|], (sel_people sel) as [n|]; simpl; try done.
    assert (is_Some (@None string)) as [? [=]]. apply Hshape. by eexists. }
  unfold process_salad in Hrun |- *. rewrite Hsalad in Hrun |- *.
  rewrite Hpeople in Hrun |- *. split; [done|].
  destruct (add_ingredients_to_list_resolved _ _ _ _ _ _ Hr Hrun)
    as (f & Hf & Hloop & Hprep & _).
  split; [done|]. exists f. split; [done|].
  intros item. by destruct (add_ingredients_item _ _ _ _ item Hloop) as [? _].
Qed.

Lemma salad_scaled_by_main_people_count_witness :
  process_salad Example.MEALS lunch_with_salad init_state
    = add_ingredients_to_list Example.MEALS "Garden Salad"
        (salad_people lunch_with_salad) (not_empty init_state)
  /\ prep_list after_salad
     = prep_list init_state
         ++ (if default false (meal_meal_prep Example.garden_salad)
             then [meal_name Example.garden_salad] else [])
  /\ exists scaling_factor,
       Py.truediv (Py.Int (salad_people lunch_with_salad))
         (default (Py.Int 1) (meal_default_portions Example.garden_salad))
         = Ok scaling_factor
       /\ forall item,
            for_each (add_scaled scaling_factor)
              (quantity (item_value (shopping_list init_state) item))
              (ingredients_of item (meal_ingredients Example.garden_salad))
            = Ok (quantity (item_value (shopping_list after_salad) item)).
Proof.
  apply (salad_scaled_by_main_people_count Example.MEALS lunch_with_salad
           "Garden Salad" Example.garden_salad init_state after_salad).
  - reflexivity.
  - split; intros _; by eexists.
  - reflexivity.
  - vm_compute. reflexivity.
Defined.

(** The people count of the example's salad is the main's, 3; without a
    main it is 1. *)
Example salad_people_with_main : salad_people lunch_with_salad = 3.
Proof. reflexivity. Qed.

Example salad_people_without_main :
  salad_people {| sel_name := None; sel_people := None;
                  sel_salad := Some "Garden Salad" |} = 1.
Proof. reflexivity. Qed.

(** ** References that the catalog does not hold *)

Lemma get_meal_by_name_None MEALS name :
  get_meal_by_name name MEALS = None <-> name ∉ meal_name <$> MEALS.
Proof.
  induction MEALS as [|m MEALS IH]; simpl.
  - split; [intros _; apply not_elem_of_nil|done].
  - rewrite not_elem_of_cons, <- IH. case_bool_decide; naive_solver.
Qed.

Lemma add_ingredients_to_list_unknown MEALS name n st :
  name ∉ meal_name <$> MEALS -> add_ingredients_to_list MEALS name n st = Ok st.
Proof.
  intros Hname%get_meal_by_name_None. unfold add_ingredients_to_list.
  by rewrite Hname.
Qed.

Lemma known_spec MEALS name :
  known MEALS name = false <-> get_meal_by_name name MEALS = None.
Proof.
  unfold known. rewrite get_meal_by_name_None, bool_decide_eq_false. done.
Qed.

(** The functions of the handler read the emptiness flag nowhere. *)
Lemma add_ingredients_to_list_core MEALS name n st1 st2 :
  core st1 = core st2 ->
  core <$> add_ingredients_to_list MEALS name n st1
  = core <$> add_ingredients_to_list MEALS name n st2.
Proof.
  destruct st1 as [sl1 fp1 pl1 e1], st2 as [sl2 fp2 pl2 e2].
  unfold core. simpl. intros [= -> -> ->].
  unfold add_ingredients_to_list.
  destruct (get_meal_by_name name MEALS) as [m|]; [|done].
  destruct (default false (meal_meal_prep m)); simpl;
    destruct (Py.truediv _ _); simpl; try done;
    destruct (for_each _ _ _); done.
Qed.

Lemma not_empty_core st : core (not_empty st) = core st.
Proof. done. Qed.

Lemma process_selection_known_refs MEALS day mt sel st1 st2 :
  (is_Some (sel_name sel) -> is_Some (sel_people sel)) ->
  core st1 = core st2 ->
  core <$> process_selection MEALS day st1 (mt, sel)
  = core <$> process_selection MEALS day st2 (mt, known_refs MEALS sel).
Proof.
  intros Hpeople Hcore. unfold process_selection.
  assert (exists r1 r2,
             process_main MEALS day mt sel st1 = r1
             /\ process_main MEALS day mt (known_refs MEALS sel) st2 = r2
             /\ core <$> r1 = core <$> r2) as (r1 & r2 & -> & -> & Hmain).
  { do 2 eexists. split; [done|]. split; [done|].
    unfold process_main, known_refs. simpl.
    destruct (sel_name sel) as [name|]; simpl; [|by rewrite Hcore].
    destruct Hpeople as [n Hn]; [by eexists|]. rewrite Hn. simpl.
    destruct (known MEALS name) eqn:Hknown.
    - simpl.
      destruct (get_meal_by_name name MEALS) as [m|]; simpl.
      + apply add_ingredients_to_list_core.
        destruct st1, st2. unfold core in *. by simplify_eq/=.
      + by rewrite !not_empty_core, Hcore.
    - apply known_spec in Hknown. rewrite Hknown. simpl.
      by rewrite not_empty_core, Hcore. }
  destruct r1 as [st1'|e1], r2 as [st2'|e2]; try done.
  assert (core st1' = core st2') as Hcore' by (simpl in Hmain; congruence).
  clear Hmain. simpl.
  unfold process_salad, known_refs. simpl.
  destruct (sel_salad sel) as [salad|]; simpl; [|by rewrite Hcore'].
  destruct (known MEALS salad) eqn:Hknown; simpl.
  - apply add_ingredients_to_list_core. by rewrite !not_empty_core.
  - apply known_spec, get_meal_by_name_None in Hknown.
    rewrite add_ingredients_to_list_unknown by done. simpl.
    by rewrite not_empty_core, Hcore'.
Qed.

Lemma for_each_process_selection_known MEALS day meals st1 st2 :
  Forall (fun slot : string * selection =>
            is_Some (sel_name slot.2) -> is_Some (sel_people slot.2)) meals ->
  core st1 = core st2 ->
  core <$> for_each (process_selection MEALS day) st1 meals
  = core <$> for_each (process_selection MEALS day) st2
               ((fun slot : string * selection => (slot.1, known_refs MEALS slot.2))
                  <$> meals).
Proof.
  intros Hpeople. revert st1 st2.
  induction Hpeople as [|[mt sel] meals Hsel _ IH]; intros st1 st2 Hcore.
  { simpl. by rewrite Hcore. }
  rewrite fmap_cons. cbn [for_each fst snd].
  pose proof (process_selection_known_refs MEALS day mt sel st1 st2 Hsel Hcore) as Hstep.
  destruct (process_selection MEALS day st1 (mt, sel)) as [st1'|e1],
    (process_selection MEALS day st2 (mt, known_refs MEALS sel)) as [st2'|e2];
    try done.
  simpl. apply IH. simpl in Hstep. congruence.
Qed.

Lemma for_each_process_day_known MEALS (plan : plan_t) st1 st2 :
  Forall (fun e : string * string * selection =>
            is_Some (sel_name e.2) -> is_Some (sel_people e.2)) (entries plan) ->
  core st1 = core st2 ->
  core <$> for_each (process_day MEALS) st1 plan
  = core <$> for_each (process_day MEALS) st2 (known_only MEALS plan).
Proof.
  revert st1 st2. induction plan as [|[day meals] plan IH]; intros st1 st2 Hpeople Hcore.
  { simpl. by rewrite Hcore. }
  rewrite entries_cons in Hpeople. apply Forall_app in Hpeople as [Hmeals Hplan].
  unfold known_only. rewrite fmap_cons. fold (known_only MEALS plan).
  cbn [for_each process_day fst snd].
  assert (core (with_final_plan (Dict.set day [] (final_plan st1)) st1)
          = core (with_final_plan (Dict.set day [] (final_plan st2)) st2)) as Hcore'.
  { destruct st1, st2. unfold core in *. by simplify_eq/=. }
  pose proof (for_each_process_selection_known MEALS day meals _ _
                ltac:(rewrite Forall_fmap in Hmeals;
                      eapply Forall_impl; [exact Hmeals|by intros []]) Hcore') as Hstep.
  destruct (for_each (process_selection MEALS day)
              (with_final_plan (Dict.set day [] (final_plan st1)) st1) meals)
    as [st1'|e1],
    (for_each (process_selection MEALS day)
       (with_final_plan (Dict.set day [] (final_plan st2)) st2)
       ((fun slot : string * selection => (slot.1, known_refs MEALS slot.2)) <$> meals))
    as [st2'|e2]; try done.
  simpl. apply IH; [done|]. simpl in Hstep. congruence.
Qed.

(** C8: a name that the catalog does not hold is not found, and the call
    that would add its ingredients leaves the state as it is and raises
    nothing.  The aggregation of a plan therefore gives the same shopping
    list, prep-ahead list and timetable, or fails in the same way, as the
    aggregation of the plan without its unknown references; an entry all
    of whose references are unknown counts as a blank one there. *)
Theorem unknown_meal_names_are_skipped MEALS plan :
  Forall (fun e : string * string * selection =>
            is_Some (sel_name e.2) -> is_Some (sel_people e.2)) (entries plan) ->
  (forall name,
      name ∉ meal_name <$> MEALS ->
      get_meal_by_name name MEALS = None
      /\ forall n st, add_ingredients_to_list MEALS name n st = Ok st)
  /\ core <$> aggregate MEALS plan = core <$> aggregate MEALS (known_only MEALS plan)
  /\ (forall sel,
        (forall name, sel_name sel = Some name -> name ∉ meal_name <$> MEALS) ->
        (forall salad, sel_salad sel = Some salad -> salad ∉ meal_name <$> MEALS) ->
        blank (known_refs MEALS sel) = true).
Proof.
  intros Hpeople. split_and!.
  - intros name Hname. split; [by apply get_meal_by_name_None|].
    intros n st. by apply add_ingredients_to_list_unknown.
  - by apply for_each_process_day_known.
  - intros sel Hmain Hsalad. unfold blank, known_refs, known. simpl.
    apply bool_decide_eq_true. split.
    + destruct (sel_name sel) as [name|]; [|done]. simpl.
      by rewrite bool_decide_eq_false_2 by (by apply Hmain).
    + destruct (sel_salad sel) as [salad|]; [|done]. simpl.
      by rewrite bool_decide_eq_false_2 by (by apply Hsalad).
Qed.

Lemma unknown_meal_names_are_skipped_witness :
  (forall name,
      name ∉ meal_name <$> Example.MEALS ->
      get_meal_by_name name Example.MEALS = None
      /\ forall n st, add_ingredients_to_list Example.MEALS name n st = Ok st)
  /\ core <$> aggregate Example.MEALS Example.mixed_plan
     = core <$> aggregate Example.MEALS (known_only Example.MEALS Example.mixed_plan)
  /\ (forall sel,
        (forall name, sel_name sel = Some name -> name ∉ meal_name <$> Example.MEALS) ->
        (forall salad, sel_salad sel = Some salad -> salad ∉ meal_name <$> Example.MEALS) ->
        blank (known_refs Example.MEALS sel) = true).
Proof.
  apply (unknown_meal_names_are_skipped Example.MEALS Example.mixed_plan).
  repeat constructor; simpl; by eexists.
Defined.

(** With the stale lunch entry or without it, the example gives the same
    table and the same text. *)
Example mixed_plan_output :
  table_and_text (generate Example.MEALS Example.mixed_plan)
  = table_and_text (generate Example.MEALS Example.plan).
Proof. vm_compute. reflexivity. Qed.

(** ** The quantities stay floats *)

Lemma add_ingredient_float_valued g sl ing sl' :
  float_valued sl -> add_ingredient (Py.Float g) sl ing = Ok sl' -> float_valued sl'.
Proof.
  intros Hsl. unfold add_ingredient.
  intros (s & [fs ->]%mul_float_r & (total & [ft ->]%add_float_r & [= <-])%bind_Ok)%bind_Ok.
  intros item data. destruct (decide (item = ing_item ing)) as [->|Hne].
  - rewrite lookup_insert_eq. intros [= <-]. simpl. eauto.
  - rewrite lookup_insert_ne by done. apply Hsl.
Qed.

Lemma add_ingredients_float_valued g ings sl sl' :
  float_valued sl ->
  for_each (add_ingredient (Py.Float g)) sl ings = Ok sl' ->
  float_valued sl'.
Proof.
  revert sl. induction ings as [|ing ings IH]; intros sl Hsl.
  - by intros [= <-].
  - intros (sl1 & H1 & Hrest)%bind_Ok.
    eapply IH; [|exact Hrest]. by eapply add_ingredient_float_valued.
Qed.

Lemma add_ingredients_to_list_float_valued MEALS name n st st' :
  float_valued (shopping_list st) ->
  add_ingredients_to_list MEALS name n st = Ok st' ->
  float_valued (shopping_list st').
Proof.
  intros Hst. unfold add_ingredients_to_list.
  destruct (get_meal_by_name name MEALS) as [m|]; [|by intros [= <-]].
  intros (f & [g ->]%truediv_float & (sl & Hsl & [= <-])%bind_Ok)%bind_Ok.
  apply (add_ingredients_float_valued g (meal_ingredients m) (shopping_list st));
    [done|].
  by destruct (default false (meal_meal_prep m)).
Qed.

Lemma process_selection_float_valued MEALS day st mt sel st' :
  float_valued (shopping_list st) ->
  process_selection MEALS day st (mt, sel) = Ok st' ->
  float_valued (shopping_list st').
Proof.
  intros Hst. unfold process_selection, process_main, process_salad.
  intros (st1 & Hmain & Hsalad)%bind_Ok.
  assert (float_valued (shopping_list st1)) as Hst1.
  { destruct (sel_name sel) as [name|]; [|by simplify_eq].
    apply bind_Ok in Hmain as (n & _ & Hmain).
    destruct (get_meal_by_name name MEALS); [|by simplify_eq].
    by eapply add_ingredients_to_list_float_valued; [|exact Hmain]. }
  destruct (sel_salad sel) as [salad|]; [|by simplify_eq].
  by eapply add_ingredients_to_list_float_valued; [|exact Hsalad].
Qed.

(** Every shopping list the aggregation builds holds float quantities
    only. *)
Lemma aggregate_float_valued MEALS plan st :
  aggregate MEALS plan = Ok st -> float_valued (shopping_list st).
Proof.
  unfold aggregate.
  assert (float_valued (shopping_list init_state)) as Hinit.
  { intros item data. simpl. by rewrite lookup_empty. }
  revert Hinit. generalize init_state.
  induction plan as [|[day meals] plan IH]; intros st0 Hst0.
  { by intros [= <-]. }
  intros (st1 & Hday & Hrest)%bind_Ok. eapply IH; [|exact Hrest].
  unfold process_day in Hday.
  assert (float_valued
            (shopping_list (with_final_plan (Dict.set day [] (final_plan st0)) st0)))
    as Hstart by done.
  revert Hday Hstart.
  generalize (with_final_plan (Dict.set day [] (final_plan st0)) st0).
  induction meals as [|[mt sel] meals IHm]; intros st2.
  { by intros [= <-]. }
  intros (st3 & Hsel & Hmeals)%bind_Ok Hst2.
  eapply IHm; [exact Hmeals|]. by eapply process_selection_float_valued.
Qed.

(** * Further properties of the script *)

(** ** The plan after a run *)

(** X1: once the script has run, the plan holds for every slot of the grid
    exactly what the widgets of the latest run say, and nothing outside
    the grid; what earlier runs stored plays no part. *)
Theorem session_plan_reflects_latest_widgets runs widgets day mt :
  plan_get day mt (session (runs ++ [widgets]))
  = if bool_decide (day ∈ days_of_week /\ mt ∈ meal_types)
    then slot_value mt (widgets day mt)
    else None.
Proof.
  rewrite session_snoc, plan_week_get by apply session_inv.
  case_bool_decide as Hgrid; [done|].
  by apply session_get_outside.
Qed.

Lemma dict_mem_keys {V} (k : string) (d : Dict.t V) :
  Dict.mem k d = bool_decide (k ∈ Dict.keys d).
Proof.
  unfold Dict.mem. destruct (Dict.get k d) eqn:Hg.
  - symmetry. apply bool_decide_eq_true. apply dec_stable.
    intros Hk. apply dict_get_None in Hk. congruence.
  - symmetry. apply bool_decide_eq_false. by apply dict_get_None.
Qed.

Lemma keys_set_day day meals (plan : plan_t) :
  Dict.keys (Dict.set day meals plan)
  = if bool_decide (day ∈ Dict.keys plan) then Dict.keys plan
    else Dict.keys plan ++ [day].
Proof. by rewrite dict_keys_set, dict_mem_keys. Qed.

Lemma keys_update_slot day mt w (plan : plan_t) :
  day ∈ Dict.keys plan ->
  Dict.keys (update_slot day mt w plan) = Dict.keys plan.
Proof.
  intros Hday.
  assert (forall meals, Dict.keys (Dict.set day meals plan) = Dict.keys plan) as Hset.
  { intros meals. by rewrite keys_set_day, bool_decide_eq_true_2. }
  assert (Dict.keys (set_main day mt w plan) = Dict.keys plan) as Hmain.
  { unfold set_main. repeat case_match; by rewrite ?Hset. }
  unfold update_slot. case_bool_decide; [|done].
  unfold set_salad. rewrite <- Hmain in Hday.
  repeat case_match; rewrite ?keys_set_day, ?bool_decide_eq_true_2; done.
Qed.

Lemma keys_update_day widgets day (plan : plan_t) :
  Dict.keys (update_day widgets day plan)
  = if bool_decide (day ∈ Dict.keys plan) then Dict.keys plan
    else Dict.keys plan ++ [day].
Proof.
  unfold update_day. rewrite dict_mem_keys.
  assert (forall p : plan_t,
             day ∈ Dict.keys p ->
             Dict.keys (foldl (fun plan mt => update_slot day mt (widgets day mt) plan)
                          p meal_types)
             = Dict.keys p) as Hslots.
  { intros p Hp. generalize meal_types. intros mts. revert p Hp.
    induction mts as [|mt mts IH]; intros p Hp; simpl; [done|].
    rewrite IH; rewrite keys_update_slot; done. }
  case_bool_decide as Hday.
  - by apply Hslots.
  - rewrite Hslots; rewrite keys_set_day, bool_decide_eq_false_2 by done; [done|].
    set_solver.
Qed.

Lemma keys_plan_week widgets (plan : plan_t) :
  Dict.keys (plan_week widgets plan)
  = foldl (fun ks day => if bool_decide (day ∈ ks) then ks else ks ++ [day])
      (Dict.keys plan) days_of_week.
Proof.
  unfold plan_week. generalize days_of_week. intros days. revert plan.
  induction days as [|day days IH]; intros plan; simpl; [done|].
  by rewrite IH, keys_update_day.
Qed.

(** X2: after the first run the keys of the plan are the seven days, in
    the order of the week, and every later run keeps them so. *)
Theorem session_days_in_week_order runs widgets :
  Dict.keys (session (runs ++ [widgets])) = days_of_week.
Proof.
  revert widgets. induction runs as [|w runs IH] using rev_ind; intros widgets.
  - change (session ([] ++ [widgets])) with (plan_week widgets []).
    by rewrite keys_plan_week.
  - rewrite session_snoc, keys_plan_week, IH. done.
Qed.

(** X3: with the salad select box at ["-"], the slot has no ['salad'] key
    left once the main select box has been processed, whatever the plan
    held: the [del] of the salad branch is never reached in the loop, and
    the salad branch changes nothing. *)
Theorem salad_deletion_is_never_reached day mt w plan :
  plan_inv plan ->
  selected_salad w = "-" ->
  plan_get day mt (set_main day mt w plan) ≫= sel_salad = None
  /\ set_salad day mt w (set_main day mt w plan) = set_main day mt w plan.
Proof.
  intros Hinv Hw.
  assert (plan_get day mt (set_main day mt w plan) ≫= sel_salad = None) as Hnone.
  { rewrite set_main_get by done. rewrite bool_decide_eq_true_2 by done.
    by case_bool_decide. }
  split; [done|]. unfold set_salad.
  rewrite bool_decide_eq_false_2 by (by rewrite Hw; intros []).
  destruct (plan_get day mt (set_main day mt w plan)) as [sel|]; [|done].
  simpl in Hnone. by rewrite Hnone.
Qed.

Lemma salad_deletion_is_never_reached_witness :
  plan_get "Monday" "Lunch"
    (set_main "Monday" "Lunch"
       (clear_salad "Monday" "Lunch" monday_lunch_widgets "Monday" "Lunch")
       (session [monday_lunch_widgets]))
    ≫= sel_salad = None
  /\ set_salad "Monday" "Lunch"
       (clear_salad "Monday" "Lunch" monday_lunch_widgets "Monday" "Lunch")
       (set_main "Monday" "Lunch"
          (clear_salad "Monday" "Lunch" monday_lunch_widgets "Monday" "Lunch")
          (session [monday_lunch_widgets]))
     = set_main "Monday" "Lunch"
         (clear_salad "Monday" "Lunch" monday_lunch_widgets "Monday" "Lunch")
         (session [monday_lunch_widgets]).
Proof.
  apply (salad_deletion_is_never_reached "Monday" "Lunch"
           (clear_salad "Monday" "Lunch" monday_lunch_widgets "Monday" "Lunch")
           (session [monday_lunch_widgets])).
  - apply (session_inv [monday_lunch_widgets]).
  - reflexivity.
Defined.

(** X4: the plan never stores the sentinel, an entry without any key, a
    name without its people count, or a salad at breakfast: every entry of
    a session lies in the grid, holds ['name'] and ['people'] together,
    holds a main or a salad, holds neither as ["-"], and holds a salad only
    at lunch or dinner. *)
Theorem session_entries_are_well_formed runs day mt sel :
  plan_get day mt (session runs) = Some sel ->
  day ∈ days_of_week /\ mt ∈ meal_types
  /\ (is_Some (sel_name sel) <-> is_Some (sel_people sel))
  /\ (is_Some (sel_name sel) \/ is_Some (sel_salad sel))
  /\ sel_name sel ≠ Some "-" /\ sel_salad sel ≠ Some "-"
  /\ (is_Some (sel_salad sel) -> mt ∈ ["Lunch"; "Dinner"]).
Proof.
  destruct runs as [|widgets runs _] using rev_ind; [done|].
  rewrite session_snoc, plan_week_get by apply session_inv.
  case_bool_decide as Hgrid; [|by rewrite session_get_outside].
  destruct Hgrid as [Hday Hmt]. unfold slot_value. intros Hsel.
  split; [done|]. split; [done|].
  destruct (bool_decide (mt ∈ ["Lunch"; "Dinner"])) eqn:Hld;
    repeat case_bool_decide; simplify_eq/=;
    split_and!; try done; eauto;
    try (split; intros [? [=]]); try (by intros [? [=]]);
    try congruence.
  all: intros _; by apply bool_decide_eq_true_1.
Qed.

Lemma session_entries_are_well_formed_witness :
  "Monday" ∈ days_of_week /\ "Lunch" ∈ meal_types
  /\ (is_Some (Some "Oat Bowl") <-> is_Some (Some 2))
  /\ (is_Some (Some "Oat Bowl") \/ is_Some (Some "Garden Salad"))
  /\ Some "Oat Bowl" ≠ Some "-" /\ Some "Garden Salad" ≠ Some "-"
  /\ (is_Some (Some "Garden Salad") -> "Lunch" ∈ ["Lunch"; "Dinner"]).
Proof.
  apply (session_entries_are_well_formed [monday_lunch_widgets] "Monday" "Lunch"
           {| sel_name := Some "Oat Bowl"; sel_people := Some 2;
              sel_salad := Some "Garden Salad" |}).
  vm_compute. reflexivity.
Defined.

(** ** Entries and lookups *)

Lemma dict_elem_of_get {V} (k : string) (v : V) (d : Dict.t V) :
  NoDup (Dict.keys d) -> (k, v) ∈ d <-> Dict.get k d = Some v.
Proof.
  induction d as [|[k' v'] d IH]; simpl.
  { intros _. split; [by intros ?%elem_of_nil|done]. }
  intros [Hk' Hd]%NoDup_cons. rewrite elem_of_cons.
  case_bool_decide as Hk; subst.
  - split; [|naive_solver].
    intros [[= <-]|Hin]; [done|].
    exfalso. apply Hk'. apply list_elem_of_fmap. by exists (k, v).
  - rewrite <- IH by done. naive_solver.
Qed.

Lemma elem_of_entries (plan : plan_t) day mt sel :
  NoDup (Dict.keys plan) -> plan_inv plan ->
  (day, mt, sel) ∈ entries plan <-> plan_get day mt plan = Some sel.
Proof.
  intros Hdays Hinv. unfold entries, plan_get, day_meals.
  rewrite list_elem_of_bind. split.
  - intros ([day' meals] & Hin & Hmeals).
    apply list_elem_of_fmap in Hin as ([mt' sel'] & [= <- <- <-] & Hslot).
    pose proof (proj1 (dict_elem_of_get _ _ _ Hdays) Hmeals) as Hday.
    rewrite Hday. simpl. apply dict_elem_of_get; [|done].
    specialize (Hinv day). unfold day_meals in Hinv. by rewrite Hday in Hinv.
  - destruct (Dict.get day plan) as [meals|] eqn:Hday; simpl; [|done].
    intros Hslot. exists (day, meals). split.
    + apply list_elem_of_fmap. exists (mt, sel). split; [done|].
      apply dict_elem_of_get; [|done].
      specialize (Hinv day). unfold day_meals in Hinv. by rewrite Hday in Hinv.
    + by apply dict_elem_of_get.
Qed.

Lemma session_keys_NoDup runs : NoDup (Dict.keys (session runs)).
Proof.
  destruct runs as [|widgets runs _] using rev_ind; [apply NoDup_nil_2|].
  assert (Dict.keys (session (runs ++ [widgets])) = days_of_week) as ->.
  { revert widgets. induction runs as [|w runs IH] using rev_ind; intros widgets.
    - change (session ([] ++ [widgets])) with (plan_week widgets []).
      by rewrite keys_plan_week.
    - by rewrite session_snoc, keys_plan_week, IH. }
  unfold days_of_week. repeat constructor; set_solver.
Qed.

Lemma elem_of_session_entries runs day mt sel :
  (day, mt, sel) ∈ entries (session runs)
  <-> plan_get day mt (session runs) = Some sel.
Proof. apply elem_of_entries; [apply session_keys_NoDup|apply session_inv]. Qed.

Lemma generate_warning_iff_blank MEALS plan :
  generate MEALS plan = Ok EmptyPlanWarning
  <-> forallb blank (entries plan).*2 = true.
Proof.
  unfold generate, aggregate. split.
  - intros (st & Hagg & Hout)%bind_Ok.
    rewrite (for_each_process_day_flag _ _ _ _ Hagg) in Hout. simpl in Hout.
    destruct (forallb blank (entries plan).*2); [done|].
    by apply bind_Ok in Hout as (rows & _ & [=]).
  - intros Hblank.
    destruct (for_each_process_day_blank MEALS init_state plan Hblank) as [st Hagg].
    rewrite Hagg. simpl.
    by rewrite (for_each_process_day_flag _ _ _ _ Hagg), Hblank.
Qed.

Lemma slot_value_not_blank mt w sel : slot_value mt w = Some sel -> blank sel = false.
Proof.
  unfold slot_value, blank. intros Hsel. apply bool_decide_eq_false.
  repeat (case_bool_decide || destruct (bool_decide (mt ∈ _)));
    simplify_eq/=; naive_solver.
Qed.

Lemma slot_value_None mt w :
  slot_value mt w = None
  <-> selected_meal w = "-" /\ (mt ∈ ["Lunch"; "Dinner"] -> selected_salad w = "-").
Proof.
  unfold slot_value.
  destruct (decide (selected_meal w = "-")) as [Hm|Hm];
    destruct (decide (mt ∈ ["Lunch"; "Dinner"])) as [Ht|Ht];
    destruct (decide (selected_salad w = "-")) as [Hs|Hs];
    rewrite ?(bool_decide_eq_true_2 _ Ht), ?(bool_decide_eq_false_2 _ Ht);
    repeat case_bool_decide; simpl; naive_solver.
Qed.

(** X5: in a session the handler shows the empty-plan warning exactly when
    every main select box of the grid is at ["-"] and so is every side
    salad select box of lunch and dinner. *)
Theorem warning_iff_every_select_box_is_dash MEALS runs widgets :
  generate MEALS (session (runs ++ [widgets])) = Ok EmptyPlanWarning
  <-> forall day mt,
        day ∈ days_of_week -> mt ∈ meal_types ->
        selected_meal (widgets day mt) = "-"
        /\ (mt ∈ ["Lunch"; "Dinner"] -> selected_salad (widgets day mt) = "-").
Proof.
  rewrite generate_warning_iff_blank, List.forallb_forall.
  assert (forall day mt,
             plan_get day mt (session (runs ++ [widgets]))
             = if bool_decide (day ∈ days_of_week /\ mt ∈ meal_types)
               then slot_value mt (widgets day mt) else None) as Hget.
  { intros day mt. rewrite session_snoc, plan_week_get by apply session_inv.
    case_bool_decide; [done|]. by apply session_get_outside. }
  split.
  - intros Hblank day mt Hday Hmt. apply slot_value_None.
    destruct (slot_value mt (widgets day mt)) as [sel|] eqn:Hsel; [|done].
    assert (blank sel = true) as Hb.
    { apply Hblank. apply list_elem_of_In, list_elem_of_fmap.
      exists (day, mt, sel). split; [done|]. apply elem_of_session_entries.
      by rewrite Hget, bool_decide_eq_true_2. }
    by rewrite (slot_value_not_blank _ _ _ Hsel) in Hb.
  - intros Hdash sel Hin.
    apply list_elem_of_In, list_elem_of_fmap in Hin as ([[day mt] sel'] & -> & Hin).
    apply elem_of_session_entries in Hin. rewrite Hget in Hin.
    case_bool_decide as Hgrid; [|done]. destruct Hgrid as [Hday Hmt].
    by rewrite (proj2 (slot_value_None _ _) (Hdash _ _ Hday Hmt)) in Hin.
Qed.

(** ** The catalog lookup and the select box options *)

Lemma get_meal_by_name_name MEALS name m :
  get_meal_by_name name MEALS = Some m -> meal_name m = name /\ m ∈ MEALS.
Proof.
  induction MEALS as [|m' MEALS IH]; simpl; [done|].
  case_bool_decide as Hname.
  - intros [= <-]. split; [done|left].
  - intros [? ?]%IH. split; [done|by right].
Qed.

(** X6: the lookup returns the first record of the catalog that carries
    the name: a record is returned exactly when the catalog splits into
    records with other names, that record, and a rest; records further
    down with the same name are never returned. *)
Theorem get_meal_by_name_is_first_match MEALS name m :
  get_meal_by_name name MEALS = Some m
  <-> exists before after,
        MEALS = before ++ m :: after
        /\ meal_name m = name
        /\ name ∉ meal_name <$> before.
Proof.
  induction MEALS as [|m' MEALS IH]; simpl.
  { split; [done|]. intros (before & after & Heq & _). by destruct before. }
  case_bool_decide as Hname.
  - split.
    + intros [= <-]. exists [], MEALS. split_and!; [done..|apply not_elem_of_nil].
    + intros ([|m0 before] & after & Heq & Hm & Hbefore); simplify_eq/=; [done|].
      exfalso. apply Hbefore. left.
  - rewrite IH. split.
    + intros (before & after & -> & Hm & Hbefore).
      exists (m' :: before), after. split_and!; [done..|].
      rewrite fmap_cons, not_elem_of_cons. done.
    + intros ([|m0 before] & after & Heq & Hm & Hbefore); simplify_eq/=.
      exists before, after. split_and!; [done..|].
      rewrite not_elem_of_cons in Hbefore. naive_solver.
Qed.

Lemma get_meal_by_name_unique MEALS m :
  NoDup (meal_name <$> MEALS) -> m ∈ MEALS ->
  get_meal_by_name (meal_name m) MEALS = Some m.
Proof.
  induction MEALS as [|m' MEALS IH]; simpl.
  { by intros _ ?%elem_of_nil. }
  intros [Hm' Hnd]%NoDup_cons [->|Hin]%elem_of_cons.
  - by rewrite bool_decide_eq_true_2.
  - rewrite bool_decide_eq_false_2; [by apply IH|].
    intros Heq. apply Hm'. rewrite Heq. apply list_elem_of_fmap. by exists m.
Qed.

(** X7: when the names of the catalog are distinct, a name other than
    ["-"] is offered by the main select box of a slot exactly when the
    lookup finds for it a record of that slot's type that is not a salad,
    and by the side salad select box exactly when the lookup finds a
    salad. *)
Theorem options_are_the_records_of_the_slot MEALS slot_type name :
  NoDup (meal_name <$> MEALS) ->
  name ≠ "-" ->
  (name ∈ meal_options MEALS slot_type
   <-> exists m, get_meal_by_name name MEALS = Some m
                 /\ slot_type ∈ meal_type m
                 /\ default false (meal_is_salad m) = false)
  /\ (name ∈ salad_options MEALS
      <-> exists m, get_meal_by_name name MEALS = Some m
                    /\ default false (meal_is_salad m) = true).
Proof.
  intros Hnd Hname. unfold meal_options, salad_options.
  rewrite !elem_of_cons, !list_elem_of_fmap. split.
  - split.
    + intros [->|(m & -> & [[Htype Hsalad] Hin]%list_elem_of_filter)]; [done|].
      exists m. by rewrite get_meal_by_name_unique.
    + intros (m & [<- Hin]%get_meal_by_name_name & Htype & Hsalad). right.
      exists m. split; [done|]. by apply list_elem_of_filter.
  - split.
    + intros [->|(m & -> & [Hsalad Hin]%list_elem_of_filter)]; [done|].
      exists m. by rewrite get_meal_by_name_unique.
    + intros (m & [<- Hin]%get_meal_by_name_name & Hsalad). right.
      exists m. split; [done|]. by apply list_elem_of_filter.
Qed.

Lemma options_are_the_records_of_the_slot_witness :
  ("Oat Bowl" ∈ meal_options Example.MEALS "Breakfast"
   <-> exists m, get_meal_by_name "Oat Bowl" Example.MEALS = Some m
                 /\ "Breakfast" ∈ meal_type m
                 /\ default false (meal_is_salad m) = false)
  /\ ("Oat Bowl" ∈ salad_options Example.MEALS
      <-> exists m, get_meal_by_name "Oat Bowl" Example.MEALS = Some m
                    /\ default false (meal_is_salad m) = true).
Proof.
  apply (options_are_the_records_of_the_slot Example.MEALS "Breakfast" "Oat Bowl").
  - vm_compute. repeat constructor; set_solver.
  - discriminate.
Defined.

Lemma option_is_found MEALS name options :
  options ⊆ "-" :: (meal_name <$> MEALS) ->
  name ∈ options -> name ≠ "-" -> is_Some (get_meal_by_name name MEALS).
Proof.
  intros Hsub Hin Hname. apply Hsub in Hin.
  apply elem_of_cons in Hin as [->|Hin]; [done|].
  destruct (get_meal_by_name name MEALS) eqn:Hget; [done|].
  by apply get_meal_by_name_None in Hget.
Qed.

Lemma meal_options_subseteq MEALS slot_type :
  meal_options MEALS slot_type ⊆ "-" :: (meal_name <$> MEALS).
Proof.
  unfold meal_options. intros name [->|Hin]%elem_of_cons; [left|right].
  apply list_elem_of_fmap in Hin as (m & -> & [_ Hin]%list_elem_of_filter).
  apply list_elem_of_fmap. by exists m.
Qed.

Lemma salad_options_subseteq MEALS :
  salad_options MEALS ⊆ "-" :: (meal_name <$> MEALS).
Proof.
  unfold salad_options. intros name [->|Hin]%elem_of_cons; [left|right].
  apply list_elem_of_fmap in Hin as (m & -> & [_ Hin]%list_elem_of_filter).
  apply list_elem_of_fmap. by exists m.
Qed.

Lemma slot_value_from_options MEALS mt w sel :
  selected_meal w ∈ meal_options MEALS mt ->
  selected_salad w ∈ salad_options MEALS ->
  slot_value mt w = Some sel -> all_found MEALS sel.
Proof.
  intros Hmain Hsalad. unfold slot_value, all_found.
  pose proof (option_is_found MEALS (selected_meal w) _
                (meal_options_subseteq MEALS mt) Hmain) as Hm.
  pose proof (option_is_found MEALS (selected_salad w) _
                (salad_options_subseteq MEALS) Hsalad) as Hs.
  destruct (bool_decide (mt ∈ ["Lunch"; "Dinner"]));
    repeat case_bool_decide; simpl; intros; simplify_eq/=;
    split; intros; simplify_eq/=; auto.
Qed.

(** X8: when every select box shows one of its options for the catalog in
    use, every meal and salad name stored in the plan is found in that
    catalog, and the handler then warns of an empty plan exactly when no
    entry of the plan is resolvable. *)
Theorem plans_from_options_have_no_stale_reference MEALS runs widgets :
  from_options MEALS widgets ->
  Forall (fun e => all_found MEALS e.2) (entries (session (runs ++ [widgets])))
  /\ (generate MEALS (session (runs ++ [widgets])) = Ok EmptyPlanWarning
      <-> Forall (fun e => ~ resolvable MEALS e.2)
            (entries (session (runs ++ [widgets])))).
Proof.
  intros Hoptions.
  assert (Forall (fun e => all_found MEALS e.2)
            (entries (session (runs ++ [widgets])))) as Hfound.
  { apply Forall_forall. intros [[day mt] sel] Hin.
    apply elem_of_session_entries in Hin.
    rewrite session_snoc, plan_week_get in Hin by apply session_inv.
    case_bool_decide; [|by rewrite session_get_outside in Hin].
    destruct (Hoptions day mt) as [Hmain Hsalad].
    by eapply slot_value_from_options. }
  split; [done|].
  rewrite generate_warning_iff_blank, List.forallb_forall, <- List.Forall_forall.
  rewrite Forall_fmap. rewrite !Forall_forall. split.
  - intros Hblank e He. specialize (Hblank e He). simpl in Hblank.
    apply bool_decide_eq_true in Hblank as [Hname Hsalad].
    intros [(name & Hn & _)|(salad & Hs & _)]; congruence.
  - intros Hnone e He. specialize (Hnone e He).
    rewrite Forall_forall in Hfound. destruct (Hfound e He) as [Hmain Hsalad].
    simpl. apply bool_decide_eq_true. split.
    + destruct (sel_name e.2) as [name|] eqn:Hname; [|done].
      exfalso. apply Hnone. left. exists name. split; [done|]. by apply Hmain.
    + destruct (sel_salad e.2) as [salad|] eqn:Hs; [|done].
      exfalso. apply Hnone. right. exists salad. split; [done|]. by apply Hsalad.
Qed.

Lemma plans_from_options_have_no_stale_reference_witness :
  Forall (fun e => all_found Example.MEALS e.2)
    (entries (session ([] ++ [monday_from_options])))
  /\ (generate Example.MEALS (session ([] ++ [monday_from_options]))
        = Ok EmptyPlanWarning
      <-> Forall (fun e => ~ resolvable Example.MEALS e.2)
            (entries (session ([] ++ [monday_from_options])))).
Proof.
  apply (plans_from_options_have_no_stale_reference Example.MEALS []
           monday_from_options).
  intros day slot_type. unfold monday_from_options.
  repeat case_bool_decide; simpl; split;
    try (apply elem_of_cons; by left);
    destruct_and?; subst; vm_compute; set_solver.
Defined.

(** ** The empty-plan condition, for the plans the handler reads *)






(** ** The prep-ahead notes *)

Lemma add_ingredients_to_list_prep MEALS name n st st' :
  add_ingredients_to_list MEALS name n st = Ok st' ->
  prep_list st' = prep_list st ++ prep_names MEALS (name, n)
  /\ final_plan st' = final_plan st.
Proof.
  unfold add_ingredients_to_list, prep_names. simpl.
  destruct (get_meal_by_name name MEALS) as [m|].
  - intros (f & _ & (sl & _ & [= <-])%bind_Ok)%bind_Ok.
    destruct (default false (meal_meal_prep m)); simpl; by rewrite ?app_nil_r.
  - intros [= <-]. by rewrite app_nil_r.
Qed.

Lemma process_selection_prep MEALS day st mt sel st' :
  process_selection MEALS day st (mt, sel) = Ok st' ->
  prep_list st' = prep_list st ++ (calls sel ≫= prep_names MEALS).
Proof.
  unfold process_selection, process_main, process_salad, calls.
  intros (st1 & Hmain & Hsalad)%bind_Ok.
  rewrite bind_app, app_assoc.
  assert (prep_list st1
          = prep_list st
            ++ (match sel_name sel, sel_people sel with
                | Some name, Some n => [(name, n)]
                | _, _ => []
                end ≫= prep_names MEALS)) as <-.
  { destruct (sel_name sel) as [name|]; [|simplify_eq; by rewrite app_nil_r].
    destruct (sel_people sel) as [n|]; [|done]. simpl in *. rewrite app_nil_r.
    destruct (get_meal_by_name name MEALS) as [m|] eqn:Hm.
    - by destruct (add_ingredients_to_list_prep _ _ _ _ _ Hmain) as [-> _].
    - simplify_eq. unfold prep_names. simpl. by rewrite Hm, app_nil_r. }
  destruct (sel_salad sel) as [salad|]; [|simplify_eq; by rewrite app_nil_r].
  simpl. rewrite app_nil_r.
  by destruct (add_ingredients_to_list_prep _ _ _ _ _ Hsalad) as [-> _].
Qed.

Lemma for_each_process_day_prep MEALS plan st st' :
  for_each (process_day MEALS) st plan = Ok st' ->
  prep_list st'
  = prep_list st ++ (entries plan ≫= (fun e => calls e.2 ≫= prep_names MEALS)).
Proof.
  revert st. induction plan as [|[day meals] plan IH]; intros st.
  { intros [= <-]. by rewrite app_nil_r. }
  intros (st1 & Hday & Hrest)%bind_Ok.
  rewrite (IH _ Hrest), entries_cons, bind_app, app_assoc. f_equal.
  unfold process_day in Hday.
  change (prep_list st) with
    (prep_list (with_final_plan (Dict.set day [] (final_plan st)) st)).
  revert Hday. generalize (with_final_plan (Dict.set day [] (final_plan st)) st).
  clear. induction meals as [|[mt sel] meals IHm]; intros st.
  { intros [= <-]. by rewrite app_nil_r. }
  intros (st2 & Hsel & Hmeals)%bind_Ok.
  rewrite (IHm _ Hmeals), (process_selection_prep _ _ _ _ _ _ Hsel).
  rewrite fmap_cons, bind_cons. simpl. by rewrite app_assoc.
Qed.

Lemma unique_prep_list_spec prep_list :
  StronglySorted str_lt (unique_prep_list prep_list)
  /\ forall name, name ∈ unique_prep_list prep_list <-> name ∈ prep_list.
Proof.
  unfold unique_prep_list. split.
  - assert (NoDup (merge_sort str_le (elements (list_to_set prep_list : gset string))))
      as Hnd by (rewrite merge_sort_Permutation; apply NoDup_elements).
    assert (StronglySorted str_le
              (merge_sort str_le (elements (list_to_set prep_list : gset string))))
      as Hs by (apply StronglySorted_merge_sort; apply _).
    induction Hs as [|x l Hs IH Hx]; [constructor|].
    apply NoDup_cons in Hnd as [Hx' Hnd]. constructor; [by apply IH|].
    apply Forall_forall. intros y Hy. apply str_lt_le_ne. split.
    + rewrite Forall_forall in Hx. by apply Hx.
    + by intros ->.
  - intros name.
    by rewrite merge_sort_Permutation, elem_of_elements, elem_of_list_to_set.
Qed.

(** X9: the prep-ahead notes list, in strictly increasing order and so
    each once, exactly the names that some entry of the plan selects, as
    main or as salad, and that the catalog holds with a true ['meal_prep']
    flag. *)
Theorem prep_notes_are_the_flagged_selected_meals
    MEALS plan table text timetable prep :
  generate MEALS plan = Ok (Artifacts table text timetable prep) ->
  StronglySorted str_lt prep
  /\ forall name,
       name ∈ prep
       <-> exists e n m,
             e ∈ entries plan
             /\ (name, n) ∈ calls e.2
             /\ get_meal_by_name name MEALS = Some m
             /\ default false (meal_meal_prep m) = true.
Proof.
  intros (st & Hagg & _ & _ & _ & _ & ->)%generate_Artifacts.
  destruct (unique_prep_list_spec (prep_list st)) as [Hsorted Hmem].
  split; [done|]. intros name. rewrite Hmem.
  rewrite (for_each_process_day_prep _ _ _ _ Hagg). simpl.
  rewrite list_elem_of_bind. split.
  - intros (e & Hname & He).
    apply list_elem_of_bind in Hname as ([name' n] & Hname & Hcall).
    unfold prep_names in Hname. simpl in Hname.
    destruct (get_meal_by_name name' MEALS) as [m|] eqn:Hm;
      [|by apply elem_of_nil in Hname].
    destruct (default false (meal_meal_prep m)) eqn:Hflag;
      [|by apply elem_of_nil in Hname].
    apply list_elem_of_singleton in Hname as ->.
    destruct (get_meal_by_name_name _ _ _ Hm) as [-> _].
    by exists e, n, m.
  - intros (e & n & m & He & Hcall & Hm & Hflag).
    exists e. split; [|done]. apply list_elem_of_bind. exists (name, n).
    split; [|done]. unfold prep_names. simpl. rewrite Hm, Hflag.
    destruct (get_meal_by_name_name _ _ _ Hm) as [-> _]. by left.
Qed.

Lemma prep_notes_are_the_flagged_selected_meals_witness :
  StronglySorted str_lt (outcome_prep (week_outcome Week.plan))
  /\ forall name,
       name ∈ outcome_prep (week_outcome Week.plan)
       <-> exists e n m,
             e ∈ entries Week.plan
             /\ (name, n) ∈ calls e.2
             /\ get_meal_by_name name Week.MEALS = Some m
             /\ default false (meal_meal_prep m) = true.
Proof.
  apply (prep_notes_are_the_flagged_selected_meals Week.MEALS Week.plan
           (outcome_table (week_outcome Week.plan))
           (outcome_text (week_outcome Week.plan))
           (outcome_timetable (week_outcome Week.plan))).
  vm_compute. reflexivity.
Defined.

(** Chili is planned twice and noted once; the salad is noted too. *)
Example week_prep_notes : outcome_prep (week_outcome Week.plan) = ["Chili"; "Slaw"].
Proof. vm_compute. reflexivity. Qed.

(** X10: the prep-ahead notes do not depend on the order in which the
    entries of the plan are processed. *)
Theorem prep_notes_stable_under_reordering
    MEALS plan plan' table text timetable prep table' text' timetable' prep' :
  entries plan ≡ₚ entries plan' ->
  generate MEALS plan = Ok (Artifacts table text timetable prep) ->
  generate MEALS plan' = Ok (Artifacts table' text' timetable' prep') ->
  prep = prep'.
Proof.
  intros Hperm (st & Hagg & _ & _ & _ & _ & ->)%generate_Artifacts
    (st' & Hagg' & _ & _ & _ & _ & ->)%generate_Artifacts.
  unfold unique_prep_list. f_equal. f_equal. apply set_eq. intros name.
  rewrite !elem_of_list_to_set.
  rewrite (for_each_process_day_prep _ _ _ _ Hagg).
  rewrite (for_each_process_day_prep _ _ _ _ Hagg'). simpl.
  by rewrite Hperm.
Qed.

Lemma prep_notes_stable_under_reordering_witness :
  outcome_prep (week_outcome Week.plan) = outcome_prep (week_outcome Week.plan_swapped).
Proof.
  apply (prep_notes_stable_under_reordering Week.MEALS Week.plan Week.plan_swapped
           (outcome_table (week_outcome Week.plan))
           (outcome_text (week_outcome Week.plan))
           (outcome_timetable (week_outcome Week.plan))
           (outcome_prep (week_outcome Week.plan))
           (outcome_table (week_outcome Week.plan_swapped))
           (outcome_text (week_outcome Week.plan_swapped))
           (outcome_timetable (week_outcome Week.plan_swapped))
           (outcome_prep (week_outcome Week.plan_swapped))).
  - vm_compute. symmetry. apply Permutation_cons_append.
  - vm_compute. reflexivity.
  - vm_compute. reflexivity.
Defined.

(** ** The timetable *)

Lemma cell_set day mt c day' mt' (fp : Dict.t (Dict.t (string * string))) :
  cell day' mt' (Dict.set day (Dict.set mt c (default [] (Dict.get day fp))) fp)
  = if bool_decide (day = day' /\ mt = mt') then Some c else cell day' mt' fp.
Proof.
  unfold cell. case_bool_decide as Heq.
  - destruct Heq as [<- <-]. rewrite dict_get_set_eq. simpl. apply dict_get_set_eq.
  - destruct (decide (day = day')) as [<-|Hday].
    + rewrite dict_get_set_eq. simpl. apply dict_get_set_ne. naive_solver.
    + by rewrite dict_get_set_ne.
Qed.

Lemma cell_reset day day' mt' (fp : Dict.t (Dict.t (string * string))) :
  cell day' mt' (Dict.set day [] fp)
  = if bool_decide (day = day') then None else cell day' mt' fp.
Proof.
  unfold cell. case_bool_decide as Heq.
  - subst. by rewrite dict_get_set_eq.
  - by rewrite dict_get_set_ne.
Qed.

Lemma process_selection_final_plan MEALS day st mt sel st' :
  process_selection MEALS day st (mt, sel) = Ok st' ->
  final_plan st'
  = match main_cell MEALS sel with
    | Some c =>
        Dict.set day (Dict.set mt c (default [] (Dict.get day (final_plan st))))
          (final_plan st)
    | None => final_plan st
    end.
Proof.
  unfold process_selection, process_main, process_salad, main_cell.
  intros (st1 & Hmain & Hsalad)%bind_Ok.
  assert (final_plan st' = final_plan st1) as ->.
  { destruct (sel_salad sel); [|by simplify_eq].
    by destruct (add_ingredients_to_list_prep _ _ _ _ _ Hsalad) as [_ ->]. }
  destruct (sel_name sel) as [name|]; simpl; [|by simplify_eq].
  apply bind_Ok in Hmain as (n & _ & Hmain).
  destruct (get_meal_by_name name MEALS) as [m|]; simpl; [|by simplify_eq].
  by destruct (add_ingredients_to_list_prep _ _ _ _ _ Hmain) as [_ ->].
Qed.

Lemma for_each_process_selection_cells MEALS day meals st st' day' mt' :
  NoDup (Dict.keys meals) ->
  for_each (process_selection MEALS day) st meals = Ok st' ->
  cell day' mt' (final_plan st')
  = if bool_decide (day = day')
    then from_option Some (cell day' mt' (final_plan st))
           (Dict.get mt' meals ≫= main_cell MEALS)
    else cell day' mt' (final_plan st).
Proof.
  revert st. induction meals as [|[mt sel] meals IH]; intros st Hnd.
  { intros [= <-]. by case_bool_decide. }
  simpl in Hnd. apply NoDup_cons in Hnd as [Hmt Hnd].
  intros (st1 & Hsel & Hrest)%bind_Ok.
  rewrite (IH _ Hnd Hrest), (process_selection_final_plan _ _ _ _ _ _ Hsel).
  case_bool_decide as Hday; subst.
  - simpl. case_bool_decide as Hslot; subst.
    + apply dict_get_None in Hmt. rewrite Hmt. simpl.
      destruct (main_cell MEALS sel) as [c|]; simpl; [|done].
      by rewrite cell_set, bool_decide_eq_true_2.
    + destruct (Dict.get mt' meals ≫= main_cell MEALS); simpl; [done|].
      destruct (main_cell MEALS sel) as [c|]; [|done].
      rewrite cell_set, bool_decide_eq_false_2; naive_solver.
  - destruct (main_cell MEALS sel) as [c|]; [|done].
    rewrite cell_set, bool_decide_eq_false_2; naive_solver.
Qed.

Lemma day_meals_cons day day' meals (plan : plan_t) :
  day_meals day' ((day, meals) :: plan)
  = if bool_decide (day = day') then meals else day_meals day' plan.
Proof. unfold day_meals. simpl. by case_bool_decide. Qed.

Lemma for_each_process_day_cells MEALS (plan : plan_t) st st' day' mt' :
  NoDup (Dict.keys plan) -> plan_inv plan ->
  for_each (process_day MEALS) st plan = Ok st' ->
  cell day' mt' (final_plan st')
  = if bool_decide (day' ∈ Dict.keys plan)
    then plan_get day' mt' plan ≫= main_cell MEALS
    else cell day' mt' (final_plan st).
Proof.
  revert st. induction plan as [|[day meals] plan IH]; intros st Hdays Hinv.
  { intros [= <-]. rewrite bool_decide_eq_false_2; [done|apply not_elem_of_nil]. }
  simpl in Hdays. apply NoDup_cons in Hdays as [Hday Hdays].
  assert (plan_inv plan) as Hinv'.
  { intros d. specialize (Hinv d). rewrite day_meals_cons in Hinv.
    case_bool_decide; [|done]. subst.
    unfold day_meals. apply dict_get_None in Hday. rewrite Hday. apply NoDup_nil_2. }
  assert (NoDup (Dict.keys meals)) as Hmeals.
  { specialize (Hinv day). by rewrite day_meals_cons, bool_decide_eq_true_2 in Hinv. }
  intros (st1 & Hstep & Hrest)%bind_Ok.
  rewrite (IH _ Hdays Hinv' Hrest). unfold process_day in Hstep.
  rewrite (for_each_process_selection_cells _ _ _ _ _ day' mt' Hmeals Hstep).
  simpl. rewrite cell_reset. unfold plan_get. rewrite day_meals_cons.
  destruct (decide (day = day')) as [<-|Hne].
  - rewrite (bool_decide_eq_false_2 (day ∈ Dict.keys plan)) by done.
    rewrite !(bool_decide_eq_true_2 (day = day)) by done.
    rewrite bool_decide_eq_true_2 by left.
    by destruct (Dict.get mt' meals ≫= main_cell MEALS).
  - rewrite !(bool_decide_eq_false_2 (day = day')) by done.
    rewrite (bool_decide_ext (day' ∈ day :: Dict.keys plan) (day' ∈ Dict.keys plan));
      [done|].
    rewrite elem_of_cons. naive_solver.
Qed.

(** X11: a cell of the timetable holds the name and the difficulty of the
    main that the plan selects for that day and slot, when the catalog
    holds it, and is empty otherwise: side salads, unknown mains and slots
    without a main never appear in the timetable. *)
Theorem timetable_shows_the_resolved_mains
    MEALS plan table text timetable prep day mt :
  NoDup (Dict.keys plan) ->
  plan_inv plan ->
  generate MEALS plan = Ok (Artifacts table text timetable prep) ->
  cell day mt timetable = plan_get day mt plan ≫= main_cell MEALS.
Proof.
  intros Hdays Hinv (st & Hagg & _ & _ & _ & -> & _)%generate_Artifacts.
  rewrite (for_each_process_day_cells _ _ _ _ day mt Hdays Hinv Hagg).
  case_bool_decide as Hday; [done|].
  apply dict_get_None in Hday. unfold plan_get, day_meals, cell. simpl.
  by rewrite Hday.
Qed.

Lemma timetable_shows_the_resolved_mains_witness :
  cell "Monday" "Dinner" (outcome_timetable (week_outcome Week.plan))
  = plan_get "Monday" "Dinner" Week.plan ≫= main_cell Week.MEALS.
Proof.
  apply (timetable_shows_the_resolved_mains Week.MEALS Week.plan
           (outcome_table (week_outcome Week.plan))
           (outcome_text (week_outcome Week.plan))
           (outcome_timetable (week_outcome Week.plan))
           (outcome_prep (week_outcome Week.plan)) "Monday" "Dinner").
  - vm_compute. repeat constructor; set_solver.
  - intros day. unfold day_meals. simpl.
    repeat case_bool_decide; simpl; repeat constructor; set_solver.
  - vm_compute. reflexivity.
Defined.

Example week_timetable_cells :
  cell "Monday" "Dinner" (outcome_timetable (week_outcome Week.plan))
    = Some ("Chili", "Medium")
  /\ cell "Monday" "Lunch" (outcome_timetable (week_outcome Week.plan)) = None
  /\ cell "Tuesday" "Lunch" (outcome_timetable (week_outcome Week.plan))
     = Some ("Chili", "Medium").
Proof. split_and!; vm_compute; reflexivity. Qed.

(** ** When the aggregation raises *)

Lemma add_ingredients_ok f ings sl :
  (exists g, f = Py.Float g) ->
  float_valued sl ->
  is_ok (for_each (add_ingredient f) sl ings)
  = forallb (fun ing => is_ok (Py.mul (ing_quantity ing) f)) ings.
Proof.
  intros [g ->]. revert sl. induction ings as [|ing ings IH]; intros sl Hsl; [done|].
  cbn [for_each forallb].
  destruct (Py.mul (ing_quantity ing) (Py.Float g)) as [s|e] eqn:Hs.
  - destruct (mul_float_r _ _ _ Hs) as [fs ->].
    destruct (add_to_item_total (default new_item (sl !! ing_item ing)) fs)
      as [total Htotal].
    { destruct (sl !! ing_item ing) as [data|] eqn:Hdata; [left|by right].
      by eapply Hsl. }
    assert (add_ingredient (Py.Float g) sl ing
            = Ok (<[ing_item ing :=
                     {| quantity := Py.Float total;
                        units := {[ing_unit ing]}
                                 ∪ units (default new_item (sl !! ing_item ing)) |}]> sl))
      as Hstep.
    { unfold add_ingredient. rewrite Hs. simpl. by rewrite Htotal. }
    rewrite Hstep. simpl. apply IH.
    by eapply add_ingredient_float_valued.
  - unfold add_ingredient. rewrite Hs. done.
Qed.

Lemma add_ingredients_to_list_ok MEALS name n st :
  float_valued (shopping_list st) ->
  is_ok (add_ingredients_to_list MEALS name n st) = call_ok MEALS (name, n).
Proof.
  intros Hst. unfold add_ingredients_to_list, call_ok. simpl.
  destruct (get_meal_by_name name MEALS) as [m|]; [|done].
  destruct (Py.truediv (Py.Int n) (default (Py.Int 1) (meal_default_portions m)))
    as [f|e] eqn:Hf; [|done].
  simpl. rewrite <- (add_ingredients_ok f (meal_ingredients m) (shopping_list st));
    [|by eapply truediv_float|done].
  destruct (default false (meal_meal_prep m)); simpl;
    by destruct (for_each (add_ingredient f) (shopping_list st) (meal_ingredients m)).
Qed.

Lemma process_selection_ok MEALS day st mt sel :
  float_valued (shopping_list st) ->
  is_ok (process_selection MEALS day st (mt, sel)) = entry_ok MEALS sel.
Proof.
  intros Hst. unfold process_selection, entry_ok, calls.
  assert (forall st1 : gen_state,
             float_valued (shopping_list st1) ->
             is_ok (process_salad MEALS sel st1)
             = forallb (call_ok MEALS)
                 match sel_salad sel with
                 | Some salad => [(salad, default 1 (sel_people sel))]
                 | None => []
                 end) as Hsalad.
  { intros st1 Hst1. unfold process_salad.
    destruct (sel_salad sel) as [salad|]; [|done]. simpl.
    rewrite andb_true_r. by apply add_ingredients_to_list_ok. }
  unfold process_main.
  destruct (sel_name sel) as [name|]; simpl; [|by apply Hsalad].
  destruct (sel_people sel) as [n|]; simpl; [|done].
  destruct (get_meal_by_name name MEALS) as [m|] eqn:Hm.
  - pose proof (add_ingredients_to_list_ok MEALS name n
                  (with_final_plan
                     (Dict.set day
                        (Dict.set mt (meal_name m, meal_difficulty m)
                           (default [] (Dict.get day (final_plan (not_empty st)))))
                        (final_plan (not_empty st)))
                     (not_empty st)) Hst) as Hmain.
    destruct (add_ingredients_to_list MEALS name n _) as [st1|e] eqn:Hadd.
    + simpl. rewrite <- Hmain. simpl. apply Hsalad.
      by eapply add_ingredients_to_list_float_valued; [|exact Hadd].
    + simpl. by rewrite <- Hmain.
  - simpl. unfold call_ok at 1. simpl. rewrite Hm. simpl. by apply Hsalad.
Qed.

Lemma for_each_process_selection_ok MEALS day meals st :
  float_valued (shopping_list st) ->
  is_ok (for_each (process_selection MEALS day) st meals)
  = forallb (entry_ok MEALS) meals.*2.
Proof.
  revert st. induction meals as [|[mt sel] meals IH]; intros st Hst; [done|].
  cbn [for_each]. rewrite fmap_cons. cbn [forallb snd].
  rewrite <- (process_selection_ok MEALS day st mt sel Hst).
  destruct (process_selection MEALS day st (mt, sel)) as [st1|e] eqn:Hsel; [|done].
  simpl. apply IH. by eapply process_selection_float_valued.
Qed.

Lemma for_each_process_selection_float_valued MEALS day meals st st' :
  float_valued (shopping_list st) ->
  for_each (process_selection MEALS day) st meals = Ok st' ->
  float_valued (shopping_list st').
Proof.
  revert st. induction meals as [|[mt sel] meals IH]; intros st Hst.
  { by intros [= <-]. }
  intros (st1 & Hsel & Hrest)%bind_Ok. eapply IH; [|exact Hrest].
  by eapply process_selection_float_valued.
Qed.

Lemma for_each_process_day_ok MEALS plan st :
  float_valued (shopping_list st) ->
  is_ok (for_each (process_day MEALS) st plan)
  = forallb (entry_ok MEALS) (entries plan).*2.
Proof.
  revert st. induction plan as [|[day meals] plan IH]; intros st Hst; [done|].
  cbn [for_each process_day]. rewrite entries_cons, fmap_app, forallb_app.
  rewrite <- list_fmap_compose.
  assert (((snd ∘ (fun '(meal_type, sel) => (day, meal_type, sel)))
             <$> meals) = meals.*2) as ->.
  { apply list_fmap_ext. by intros ? []. }
  rewrite <- (for_each_process_selection_ok MEALS day meals
                (with_final_plan (Dict.set day [] (final_plan st)) st) Hst).
  destruct (for_each (process_selection MEALS day) _ meals) as [st1|e] eqn:Hday;
    [|done].
  simpl. apply IH.
  by eapply for_each_process_selection_float_valued; [|exact Hday].
Qed.

(** X12: the aggregation returns exactly when every entry can be
    processed: each main comes with its people count, and, for each
    reference found in the catalog, [people / default_portions] and the
    product of every ingredient quantity with it can be computed.  What
    was accumulated before never makes it raise. *)
Theorem aggregate_returns_iff_every_entry_can_be_scaled MEALS plan :
  is_ok (aggregate MEALS plan) = forallb (entry_ok MEALS) (entries plan).*2.
Proof.
  unfold aggregate. apply for_each_process_day_ok.
  intros item data. simpl. by rewrite lookup_empty.
Qed.

(** X13: whether the aggregation raises does not depend on the order of
    the entries. *)
Theorem aggregate_raises_in_any_order MEALS plan plan' :
  entries plan ≡ₚ entries plan' ->
  is_ok (aggregate MEALS plan) = is_ok (aggregate MEALS plan').
Proof.
  intros Hperm. unfold aggregate.
  rewrite !for_each_process_day_ok
    by (intros item data; simpl; by rewrite lookup_empty).
  apply eq_true_iff_eq. rewrite !List.forallb_forall.
  split; intros Hok sel Hin; apply Hok; apply list_elem_of_In;
    apply list_elem_of_In in Hin; [by rewrite Hperm|by rewrite <- Hperm].
Qed.

Lemma aggregate_raises_in_any_order_witness :
  is_ok (aggregate Week.MEALS Week.plan) = is_ok (aggregate Week.MEALS Week.plan_swapped).
Proof.
  apply (aggregate_raises_in_any_order Week.MEALS Week.plan Week.plan_swapped).
  vm_compute. symmetry. apply Permutation_cons_append.
Defined.

(** X14: a plan that selects a meal whose record has ['default_portions']
    0 makes the handler raise, whatever else the plan holds and even when
    that record lists no ingredient: nothing is shown. *)
Theorem zero_portions_make_the_handler_raise MEALS plan e name n m :
  e ∈ entries plan ->
  (name, n) ∈ calls e.2 ->
  get_meal_by_name name MEALS = Some m ->
  meal_default_portions m = Some (Py.Int 0) ->
  is_ok (generate MEALS plan) = false.
Proof.
  intros He Hcall Hm Hzero.
  assert (is_ok (aggregate MEALS plan) = false) as Hagg.
  { unfold aggregate. rewrite for_each_process_day_ok
      by (intros item data; simpl; by rewrite lookup_empty).
    apply not_true_is_false. rewrite List.forallb_forall. intros Hok.
    specialize (Hok e.2 ltac:(apply list_elem_of_In, list_elem_of_fmap; by exists e)).
    unfold entry_ok in Hok.
    assert (forallb (call_ok MEALS) (calls e.2) = true) as Hcalls
      by (by destruct (sel_name e.2), (sel_people e.2)).
    rewrite List.forallb_forall in Hcalls.
    specialize (Hcalls (name, n) ltac:(by apply list_elem_of_In)).
    unfold call_ok in Hcalls. simpl in Hcalls. rewrite Hm, Hzero in Hcalls.
    done. }
  unfold generate. by destruct (aggregate MEALS plan).
Qed.

Lemma zero_portions_make_the_handler_raise_witness :
  is_ok (generate Week.MEALS Week.plan_broken) = false.
Proof.
  apply (zero_portions_make_the_handler_raise Week.MEALS Week.plan_broken
           ("Monday", "Dinner",
            {| sel_name := Some "Broken"; sel_people := Some 2; sel_salad := None |})
           "Broken" 2 Week.broken).
  - vm_compute. left.
  - vm_compute. left.
  - reflexivity.
  - reflexivity.
Defined.

Example zero_portions_exception :
  generate Week.MEALS Week.plan_broken = Raise ZeroDivisionError.
Proof. vm_compute. reflexivity. Qed.

(** ** Which items get a row *)

Lemma occurrences_of_nonempty MEALS plan item :
  occurrences_of item (occurrences MEALS plan) ≠ []
  <-> exists e call m ing,
        e ∈ entries plan /\ call ∈ calls e.2
        /\ get_meal_by_name call.1 MEALS = Some m
        /\ ing ∈ meal_ingredients m /\ ing_item ing = item.
Proof.
  split.
  - intros Hocc.
    destruct (occurrences_of item (occurrences MEALS plan)) as [|o occs] eqn:Hoccs;
      [done|].
    assert (o ∈ occurrences_of item (occurrences MEALS plan)) as Ho
      by (rewrite Hoccs; left).
    apply list_elem_of_filter in Ho as [Hitem Ho].
    apply list_elem_of_bind in Ho as (e & Ho & He).
    apply list_elem_of_bind in Ho as (call & Ho & Hcall).
    unfold call_occurrences in Ho.
    destruct (get_meal_by_name call.1 MEALS) as [m|] eqn:Hm;
      [|by apply elem_of_nil in Ho].
    apply list_elem_of_fmap in Ho as (ing & -> & Hing).
    by exists e, call, m, ing.
  - intros (e & call & m & ing & He & Hcall & Hm & Hing & Hitem) Hnil.
    assert ({| occ_ingredient := ing; occ_people := call.2;
               occ_portions := default (Py.Int 1) (meal_default_portions m) |}
            ∈ occurrences_of item (occurrences MEALS plan)) as Ho.
    { apply list_elem_of_filter. split; [done|].
      apply list_elem_of_bind. exists e. split; [|done].
      apply list_elem_of_bind. exists call. split; [|done].
      unfold call_occurrences. rewrite Hm.
      apply list_elem_of_fmap. by exists ing. }
    rewrite Hnil in Ho. by apply elem_of_nil in Ho.
Qed.

(** X15: the shopping list has a row for an item exactly when some entry
    of the plan selects, as main or as salad, a meal found in the catalog
    whose record lists the item; an ingredient with quantity 0 gets its
    row too, and no row comes from anywhere else. *)
Theorem rows_are_the_items_of_the_selected_meals
    MEALS plan table text timetable prep item :
  generate MEALS plan = Ok (Artifacts table text timetable prep) ->
  item ∈ row_item <$> table
  <-> exists e call m ing,
        e ∈ entries plan /\ call ∈ calls e.2
        /\ get_meal_by_name call.1 MEALS = Some m
        /\ ing ∈ meal_ingredients m /\ ing_item ing = item.
Proof.
  intros (st & Hagg & _ & Hrows & _)%generate_Artifacts.
  rewrite <- occurrences_of_nonempty.
  apply shopping_df_data_spec, rows_items in Hrows. rewrite Hrows.
  split.
  - intros ([item' data] & -> & Hin%elem_of_sorted_items)%list_elem_of_fmap Hnil.
    simpl in Hnil.
    by rewrite (aggregate_no_item _ _ _ _ Hagg Hnil) in Hin.
  - intros Hocc.
    destruct (aggregate_item _ _ _ _ Hagg Hocc) as (total & _ & Hlookup).
    apply list_elem_of_fmap. eexists (item, _). split; [done|].
    by apply elem_of_sorted_items.
Qed.

Lemma rows_are_the_items_of_the_selected_meals_witness :
  "beans" ∈ row_item <$> outcome_table (week_outcome Week.plan)
  <-> exists e call m ing,
        e ∈ entries Week.plan /\ call ∈ calls e.2
        /\ get_meal_by_name call.1 Week.MEALS = Some m
        /\ ing ∈ meal_ingredients m /\ ing_item ing = "beans".
Proof.
  apply (rows_are_the_items_of_the_selected_meals Week.MEALS Week.plan
           (outcome_table (week_outcome Week.plan))
           (outcome_text (week_outcome Week.plan))
           (outcome_timetable (week_outcome Week.plan))
           (outcome_prep (week_outcome Week.plan))).
  vm_compute. reflexivity.
Defined.

(** ** Wrapping text for the image *)

Lemma split_space_not_nil text : split_space text ≠ [].
Proof.
  destruct text as [|c rest]; simpl; [done|].
  case_bool_decide; [done|]. by destruct (split_space rest).
Qed.

Lemma join_cons_cons sep w w' ws :
  join sep (w :: w' :: ws) = w +:+ sep +:+ join sep (w' :: ws).
Proof. done. Qed.

Lemma join_split_space text : join " " (split_space text) = text.
Proof.
  induction text as [|c rest IH]; [done|]. cbn [split_space].
  pose proof (split_space_not_nil rest) as Hne.
  destruct (split_space rest) as [|w ws]; [done|].
  case_bool_decide as Hc.
  - subst c. by rewrite join_cons_cons, IH.
  - destruct ws as [|w' ws].
    + simpl in *. by rewrite IH.
    + rewrite join_cons_cons in *. rewrite <- IH. done.
Qed.

Section wrap_text_facts.

Variable fits : string -> bool.
Variable strip : string -> string.

Local Abbreviation step := (fun line w => line +:+ (w +:+ " ")).

Lemma str_length_app (s1 s2 : string) :
  String.length (s1 +:+ s2) = (String.length s1 + String.length s2)%nat.
Proof. induction s1 as [|c s1 IH]; simpl; [done|]. by rewrite IH. Qed.

Lemma foldl_step_length line ws :
  (String.length line ≤ String.length (foldl step line ws))%nat.
Proof.
  revert line. induction ws as [|w ws IH]; intros line; simpl; [done|].
  etrans; [|apply IH]. rewrite str_length_app. lia.
Qed.

Lemma line_of_cons w ws : line_of (w :: ws) = foldl step (w +:+ " ") ws.
Proof. done. Qed.

Lemma line_of_not_empty w ws : line_of (w :: ws) ≠ "".
Proof.
  rewrite line_of_cons. intros Hempty.
  pose proof (foldl_step_length (w +:+ " ") ws) as Hlen.
  rewrite Hempty, str_length_app in Hlen. simpl in Hlen. lia.
Qed.

(** The inner loop takes the longest run of words that pass its test. *)
Lemma fill_line_spec line words :
  exists g rest,
    fill_line fits line words = (foldl step line g, rest)
    /\ words = g ++ rest
    /\ added_fit fits line g = true
    /\ match rest with
       | w' :: _ => fits (foldl step line g +:+ w') = false
       | [] => True
       end.
Proof.
  revert line. induction words as [|w words IH]; intros line.
  { by exists [], []. }
  simpl. destruct (fits (line +:+ w)) eqn:Hfits.
  - destruct (IH (line +:+ (w +:+ " "))) as (g & rest & Hfill & -> & Hadded & Hnext).
    exists (w :: g), rest. simpl. by rewrite Hfits, Hadded.
  - by exists [], (w :: words).
Qed.

(** One pass of the outer loop takes at least one word. *)
Lemma next_line_spec words :
  words ≠ [] ->
  exists g rest,
    next_line fits words = (line_of g, rest)
    /\ words = g ++ rest
    /\ g ≠ []
    /\ taken fits g (head rest) = true.
Proof.
  intros Hwords. unfold next_line.
  destruct (fill_line_spec "" words) as (g & rest & -> & -> & Hadded & Hnext).
  destruct g as [|w ws].
  - cbn [foldl app] in *. destruct rest as [|w rest]; [done|].
    exists [w], rest. change (fits w = false) in Hnext.
    repeat split; [done|]. cbn [taken]. rewrite Hnext. by apply bool_decide_eq_true.
  - exists (w :: ws), rest. fold (line_of (w :: ws)) in *.
    pose proof (line_of_not_empty w ws) as Hne.
    split; [by destruct (line_of (w :: ws))|].
    split; [done|]. split; [done|].
    cbn [added_fit] in Hadded. apply andb_true_iff in Hadded as [Hw Hws].
    change (fits w = true) in Hw.
    change (added_fit fits (w +:+ " ") ws = true) in Hws.
    cbn [taken]. rewrite Hw, Hws. cbn [andb].
    destruct rest as [|w' rest]; cbn [head]; [done|]. by rewrite Hnext.
Qed.

Lemma wrap_loop_spec fuel lines words :
  (length words ≤ fuel)%nat ->
  exists groups,
    wrap_loop fits strip fuel lines words
    = Some (lines ++ ((strip ∘ line_of) <$> groups))
    /\ concat groups = words
    /\ Forall (fun g => g ≠ []) groups
    /\ greedy fits groups = true.
Proof.
  revert lines words. induction fuel as [|fuel IH]; intros lines words Hfuel.
  { destruct words; [|simpl in Hfuel; lia].
    exists []. simpl. by rewrite app_nil_r. }
  destruct words as [|w words].
  { exists []. simpl. by rewrite app_nil_r. }
  destruct (next_line_spec (w :: words)) as (g & rest & Hnext & Hsplit & Hg & Htaken);
    [done|].
  cbn [wrap_loop]. rewrite Hnext.
  destruct (IH (lines ++ [strip (line_of g)]) rest)
    as (groups & Hloop & Hconcat & Hne & Hgreedy).
  { apply (f_equal length) in Hsplit. rewrite length_app in Hsplit. simpl in *.
    destruct g; [done|]. simpl in Hsplit. lia. }
  exists (g :: groups). rewrite Hloop, <- app_assoc. simpl.
  rewrite Hconcat, Htaken, Hgreedy. by repeat constructor.
Qed.

Lemma wrap_text_spec text :
  exists groups,
    wrap_text fits strip text = Some ((strip ∘ line_of) <$> groups)
    /\ concat groups = split_space text
    /\ Forall (fun g => g ≠ []) groups
    /\ greedy fits groups = true.
Proof. by apply (wrap_loop_spec _ []). Qed.

Lemma length_concat_nonempty {A} (groups : list (list A)) :
  Forall (fun g => g ≠ []) groups -> (length groups ≤ length (concat groups))%nat.
Proof.
  induction 1 as [|g groups Hg _ IH]; simpl; [done|].
  rewrite length_app. destruct g; [done|]. simpl. lia.
Qed.

(** The test of the inner loop is made on the words joined by single
    spaces. *)
Lemma foldl_step_join line pre w :
  foldl step line pre +:+ w = line +:+ join " " (pre ++ [w]).
Proof.
  revert line. induction pre as [|p pre IH]; intros line; [done|].
  simpl foldl. rewrite IH. rewrite <- app_comm_cons.
  destruct (pre ++ [w]) as [|x l] eqn:Hl; [by destruct pre|].
  rewrite join_cons_cons. by rewrite !str_app_assoc.
Qed.

Lemma added_fit_last line pre w :
  added_fit fits line (pre ++ [w]) = true ->
  fits (foldl step line pre +:+ w) = true.
Proof.
  revert line. induction pre as [|p pre IH]; intros line; simpl.
  - by intros [? _]%andb_true_iff.
  - intros [_ ?]%andb_true_iff. by apply IH.
Qed.

Lemma taken_fits g next :
  taken fits g next = true ->
  fits (join " " g) = true \/ exists w, g = [w] /\ fits w = false.
Proof.
  destruct g as [|w ws]; [done|]. cbn [taken].
  destruct (fits w) eqn:Hw.
  - intros [Hadded _]%andb_true_iff. left.
    destruct ws as [|w' ws _] using rev_ind; [done|].
    apply added_fit_last in Hadded. rewrite foldl_step_join in Hadded.
    destruct (ws ++ [w']) as [|x l] eqn:Hl; [by destruct ws|].
    rewrite join_cons_cons. by rewrite str_app_assoc in Hadded.
  - intros ->%bool_decide_eq_true. right. by exists w.
Qed.

End wrap_text_facts.

Lemma greedy_middle fits before g rest :
  greedy fits (before ++ g :: rest) = true ->
  taken fits g (head (concat rest)) = true.
Proof.
  induction before as [|g0 before IH]; simpl.
  - by intros [? _]%andb_true_iff.
  - intros [_ ?]%andb_true_iff. by apply IH.
Qed.

(** X16: [wrap_text] returns for every text and every font: its loops
    end, with at least one line and at most as many lines as the text has
    space-separated pieces.  The lines are the stripped groups of a
    partition of the pieces into non-empty consecutive runs, each piece
    followed by one space: no word is lost, repeated or reordered, and
    the pieces of the lines joined by single spaces give back the text. *)
Theorem wrap_text_returns_every_word_once fits strip text :
  exists groups,
    wrap_text fits strip text = Some ((strip ∘ line_of) <$> groups)
    /\ concat groups = split_space text
    /\ join " " (concat groups) = text
    /\ Forall (fun g => g ≠ []) groups
    /\ (1 ≤ length groups ≤ length (split_space text))%nat.
Proof.
  destruct (wrap_text_spec fits strip text) as (groups & Hwrap & Hconcat & Hne & _).
  exists groups. split; [done|]. split; [done|].
  split; [by rewrite Hconcat, join_split_space|]. split; [done|].
  split.
  - destruct groups; [|simpl; lia].
    by destruct (split_space_not_nil text).
  - rewrite <- Hconcat. by apply length_concat_nonempty.
Qed.

(** X17: every line, measured as its words joined by single spaces,
    passes the width test of the font, unless it consists of a single
    word that does not pass it on its own. *)
Theorem wrapped_lines_fit_unless_one_long_word fits strip text :
  exists groups,
    wrap_text fits strip text = Some ((strip ∘ line_of) <$> groups)
    /\ concat groups = split_space text
    /\ Forall (fun g => fits (join " " g) = true
                        \/ exists w, g = [w] /\ fits w = false) groups.
Proof.
  destruct (wrap_text_spec fits strip text) as (groups & Hwrap & Hconcat & _ & Hgreedy).
  exists groups. split; [done|]. split; [done|].
  clear Hwrap Hconcat. induction groups as [|g groups IH]; [constructor|].
  simpl in Hgreedy. apply andb_true_iff in Hgreedy as [Htaken Hgreedy].
  constructor; [by eapply taken_fits|by apply IH].
Qed.

(** X18: a line takes every word that fits: the line together with the
    first word of the next line does not pass the width test, unless the
    line is a single word that does not pass it on its own. *)
Theorem wrapped_lines_take_every_word_that_fits fits strip text :
  exists groups,
    wrap_text fits strip text = Some ((strip ∘ line_of) <$> groups)
    /\ concat groups = split_space text
    /\ forall before g w' g' after,
         groups = before ++ g :: (w' :: g') :: after ->
         fits (join " " (g ++ [w'])) = false
         \/ exists w, g = [w] /\ fits w = false.
Proof.
  destruct (wrap_text_spec fits strip text) as (groups & Hwrap & Hconcat & _ & Hgreedy).
  exists groups. split; [done|]. split; [done|].
  intros before g w' g' after ->.
  apply greedy_middle in Hgreedy. simpl in Hgreedy.
  destruct g as [|w ws]; [done|]. cbn [taken] in Hgreedy.
  destruct (fits w) eqn:Hw.
  - apply andb_true_iff in Hgreedy as [_ Hnext%negb_true_iff]. left.
    unfold line_of in Hnext. by rewrite foldl_step_join in Hnext.
  - apply bool_decide_eq_true in Hgreedy as ->. right. by exists w.
Qed.

(** ** The quantities shown are finite *)

Lemma shr_1_nonneg mrs : 0 <= shr_m mrs -> 0 <= shr_m (shr_1 mrs).
Proof. destruct mrs as [[|[p|p|]|[p|p|]] r s]; simpl; lia. Qed.

Lemma iter_shr_1_nonneg p mrs :
  0 <= shr_m mrs -> 0 <= shr_m (SpecFloat.iter_pos shr_1 p mrs).
Proof.
  revert mrs. induction p as [p IH|p IH|]; intros mrs Hm; simpl.
  - by apply IH, IH, shr_1_nonneg.
  - by apply IH, IH.
  - by apply shr_1_nonneg.
Qed.

Lemma shr_fexp_nonneg prec emax m e l :
  0 <= m -> 0 <= shr_m (shr_fexp prec emax m e l).1.
Proof.
  intros Hm. unfold shr_fexp, shr.
  assert (0 <= shr_m (shr_record_of_loc m l)) as Hrec
    by (by destruct l as [|[]]).
  destruct (fexp prec emax (Zdigits2 m + e) - e); simpl; [done| |done].
  by apply iter_shr_1_nonneg.
Qed.

Lemma round_nearest_even_nonneg m l : 0 <= m -> 0 <= round_nearest_even m l.
Proof.
  intros Hm. destruct l as [|[]]; simpl; [done| |done|lia].
  destruct (Z.even m); lia.
Qed.

(** Rounding a non-negative significand never gives a NaN. *)
Lemma binary_round_aux_not_nan prec emax sx mx ex lx :
  0 <= mx -> binary_round_aux prec emax sx mx ex lx ≠ S754_nan.
Proof.
  intros Hm. unfold binary_round_aux.
  pose proof (shr_fexp_nonneg prec emax mx ex lx Hm) as H1.
  destruct (shr_fexp prec emax mx ex lx) as [mrs' e']. simpl in H1.
  pose proof (shr_fexp_nonneg prec emax
                (round_nearest_even (shr_m mrs') (loc_of_shr_record mrs')) e' loc_Exact
                (round_nearest_even_nonneg _ _ H1)) as H2.
  destruct (shr_fexp prec emax _ e' loc_Exact) as [mrs'' e'']. simpl in H2.
  destruct (shr_m mrs''); [done| |lia].
  by destruct (e'' <=? emax - prec).
Qed.

Lemma div_core_nonneg prec emax m1 e1 m2 e2 :
  0 <= (SFdiv_core_binary prec emax (Z.pos m1) e1 (Z.pos m2) e2).1.1.
Proof.
  unfold SFdiv_core_binary.
  set (s := e1 - e2 - _).
  set (m' := match s with Z.pos _ => _ | Z0 => _ | Z.neg _ => _ end).
  assert (0 <= m') as Hm'.
  { subst m'. destruct s; [lia| |lia]. apply Z.shiftl_nonneg. lia. }
  pose proof (Z_div_mod m' (Z.pos m2) ltac:(lia)) as Hdiv.
  destruct (Z.div_eucl m' (Z.pos m2)) as [q r]. simpl. nia.
Qed.

Lemma fdiv_raw_not_nan a b :
  b ≠ 0 -> Py.fdiv (Py.raw_of_Z a) (Py.raw_of_Z b) ≠ S754_nan.
Proof.
  intros Hb. unfold Py.fdiv, SFdiv.
  destruct b as [|b|b]; [done| |]; destruct a as [|a|a]; try done;
    cbn [Py.raw_of_Z].
  all: pose proof (div_core_nonneg Py.prec Py.emax a 0 b 0) as Hq.
  all: destruct (SFdiv_core_binary Py.prec Py.emax (Z.pos a) 0 (Z.pos b) 0)
         as [[mz ez] lz]; simpl in Hq.
  all: by apply binary_round_aux_not_nan.
Qed.

(** [a / b] on two ints is a finite float whenever it returns. *)
Lemma int_truediv_finite a b q : Py.int_truediv a b = Ok q -> is_finite q = true.
Proof.
  unfold Py.int_truediv. destruct (Z.eqb_spec b 0) as [|Hb]; [done|].
  pose proof (fdiv_raw_not_nan a b Hb) as Hnan.
  destruct (Py.fdiv (Py.raw_of_Z a) (Py.raw_of_Z b)); simpl; try done;
    by intros [= <-].
Qed.

Lemma final_quantity_finite data q :
  final_quantity data = Ok q -> finite_float q = true.
Proof.
  unfold final_quantity.
  intros (cents & _ & (up & _ & Hq)%bind_Ok)%bind_Ok.
  unfold Py.truediv in Hq.
  apply bind_Ok in Hq as (f & Hf & [= <-]). simpl.
  by eapply int_truediv_finite.
Qed.

(** X19: every quantity of the shopping list that is shown is a finite
    float: the table and the text export never hold an [int], an infinity
    or a NaN. *)
Theorem shown_quantities_are_finite_floats
    MEALS plan table text timetable prep r :
  generate MEALS plan = Ok (Artifacts table text timetable prep) ->
  r ∈ table ->
  finite_float (row_quantity r) = true.
Proof.
  intros (st & _ & _ & Hrows & _)%generate_Artifacts Hr.
  apply shopping_df_data_spec in Hrows.
  revert Hr. induction Hrows as [|e r' entries rows (Hq & _) _ IH].
  - by intros ?%elem_of_nil.
  - intros [->|Hr]%elem_of_cons; [|by apply IH].
    by eapply final_quantity_finite.
Qed.

Lemma shown_quantities_are_finite_floats_witness :
  finite_float
    (row_quantity ("beans", Py.Float (S754_finite false 5277655813324800 (-43)), "g"))
  = true.
Proof.
  apply (shown_quantities_are_finite_floats Week.MEALS Week.plan
           (outcome_table (week_outcome Week.plan))
           (outcome_text (week_outcome Week.plan))
           (outcome_timetable (week_outcome Week.plan))
           (outcome_prep (week_outcome Week.plan))).
  - vm_compute. reflexivity.
  - vm_compute. left.
Defined.

Lemma final_quantity_not_finite data f :
  quantity data = Py.Float f -> is_finite f = false ->
  is_ok (final_quantity data) = false.
Proof.
  unfold final_quantity, Py.mul. intros ->.
  by destruct f as [s|s| |s m e].
Qed.

Lemma make_rows_raise entries acc item data :
  (item, data) ∈ entries ->
  is_ok (final_quantity data) = false ->
  is_ok (for_each make_row acc entries) = false.
Proof.
  revert acc. induction entries as [|[item' data'] entries IH]; intros acc.
  { by intros ?%elem_of_nil. }
  intros Hin Hq. cbn [for_each]. unfold make_row at 2.
  destruct (final_quantity data') as [q|e] eqn:Hq'; [|done]. simpl.
  apply elem_of_cons in Hin as [[= <- <-]|Hin]; [by rewrite Hq' in Hq|].
  by apply IH.
Qed.

(** X20: when the running total of an item is an infinity or a NaN, the
    handler raises: no table, text or image is produced. *)
Theorem non_finite_total_makes_the_handler_raise MEALS plan item total :
  occurrences_of item (occurrences MEALS plan) ≠ [] ->
  accumulate (Py.Int 0) (occurrences_of item (occurrences MEALS plan)) = Ok total ->
  finite_float total = false ->
  is_ok (generate MEALS plan) = false.
Proof.
  intros Hocc Hacc Hfinite. unfold generate.
  destruct (aggregate MEALS plan) as [st|e] eqn:Hagg; [|done]. simpl.
  destruct (aggregate_item _ _ _ _ Hagg Hocc) as (total' & Hacc' & Hlookup).
  assert (total' = total) as -> by congruence.
  destruct (accumulate_float _ _ _ Hocc Hacc) as [f ->].
  assert (is_plan_empty st = false) as ->.
  { unfold aggregate in Hagg.
    rewrite (for_each_process_day_flag _ _ _ _ Hagg). simpl.
    apply not_true_is_false. rewrite List.forallb_forall. intros Hblank.
    apply occurrences_of_nonempty in Hocc
      as (e & call & m & ing & He & Hcall & _).
    specialize (Hblank e.2
                  ltac:(apply list_elem_of_In, list_elem_of_fmap; by exists e)).
    apply bool_decide_eq_true in Hblank as [Hname Hsalad].
    unfold calls in Hcall. rewrite Hname, Hsalad in Hcall.
    by apply elem_of_nil in Hcall. }
  assert (is_ok (shopping_df_data (shopping_list st)) = false) as Hrows.
  { eapply make_rows_raise; [by apply elem_of_sorted_items|].
    by eapply final_quantity_not_finite. }
  by destruct (shopping_df_data (shopping_list st)).
Qed.

Lemma non_finite_total_makes_the_handler_raise_witness :
  is_ok (generate Feast.MEALS Feast.plan) = false.
Proof.
  apply (non_finite_total_makes_the_handler_raise Feast.MEALS Feast.plan "rice"
           (Py.Float (S754_infinity false))).
  - by vm_compute.
  - vm_compute. reflexivity.
  - reflexivity.
Defined.

Example feast_exception : generate Feast.MEALS Feast.plan = Raise OverflowError.
Proof. vm_compute. reflexivity. Qed.

(** ** The cells of the image *)

Lemma elem_of_drawn_cells timetable day mt c :
  (day, mt, c) ∈ drawn_cells timetable
  <-> day ∈ days /\ mt ∈ meals_of_day /\ cell day mt timetable = Some c.
Proof.
  unfold drawn_cells. rewrite list_elem_of_bind. split.
  - intros (day' & (mt' & Hin & Hmt)%list_elem_of_bind & Hday).
    destruct (cell day' mt' timetable) as [c'|] eqn:Hcell;
      [|by apply elem_of_nil in Hin].
    apply list_elem_of_singleton in Hin as [= -> -> ->]. done.
  - intros (Hday & Hmt & Hcell). exists day. split; [|done].
    apply list_elem_of_bind. exists mt. split; [|done].
    rewrite Hcell. apply list_elem_of_singleton. done.
Qed.

(** X21: the image leaves out no main of a plan built by the widget loop:
    the loop over the grid of the image draws a cell for a day and a slot
    exactly when the plan selects there a main that the catalog holds, and
    the cell shows the name and the difficulty of its record. *)
Theorem image_draws_every_resolved_main_of_the_session
    MEALS runs table text timetable prep day mt c :
  generate MEALS (session runs) = Ok (Artifacts table text timetable prep) ->
  (day, mt, c) ∈ drawn_cells timetable
  <-> plan_get day mt (session runs) ≫= main_cell MEALS = Some c.
Proof.
  intros (st & Hagg & _ & _ & _ & -> & _)%generate_Artifacts.
  rewrite elem_of_drawn_cells.
  rewrite (for_each_process_day_cells _ _ _ _ day mt
             (session_keys_NoDup runs) (session_inv runs) Hagg).
  assert (cell day mt (final_plan init_state) = None) as -> by done.
  split.
  - intros (_ & _ & Hcell). by case_bool_decide.
  - intros Hcell.
    destruct (decide (day ∈ days_of_week /\ mt ∈ meal_types)) as [[Hday Hmt]|Hout].
    + split; [done|]. split; [done|].
      case_bool_decide as Hkey; [done|].
      apply dict_get_None in Hkey. unfold plan_get, day_meals in Hcell.
      by rewrite Hkey in Hcell.
    + by rewrite (session_get_outside _ _ _ Hout) in Hcell.
Qed.

Lemma image_draws_every_resolved_main_of_the_session_witness :
  ("Monday", "Breakfast", ("Oat Bowl", "Easy"))
    ∈ drawn_cells (outcome_timetable monday_outcome)
  <-> plan_get "Monday" "Breakfast" (session [monday_from_options])
        ≫= main_cell Example.MEALS
      = Some ("Oat Bowl", "Easy").
Proof.
  apply (image_draws_every_resolved_main_of_the_session Example.MEALS
           [monday_from_options]
           (outcome_table monday_outcome) (outcome_text monday_outcome)
           (outcome_timetable monday_outcome) (outcome_prep monday_outcome)).
  vm_compute. reflexivity.
Defined.

Example monday_drawn_cells :
  drawn_cells (outcome_timetable monday_outcome)
  = [("Monday", "Breakfast", ("Oat Bowl", "Easy"))].
Proof. vm_compute. reflexivity. Qed.

(** ** The order of the slots after a rerun *)

Section dict_order.
Context {V : Type}.
Implicit Types (d : list (string * V)) (k : string) (v : V).

Lemma dict_set_same k v d : Dict.get k d = Some v -> Dict.set k v d = d.
Proof.
  induction d as [|[k' v'] d IH]; simpl; [done|].
  case_bool_decide; subst; [by intros [= ->]|].
  intros Hget. by rewrite IH.
Qed.

Lemma dict_set_set k v1 v2 d : Dict.set k v2 (Dict.set k v1 d) = Dict.set k v2 d.
Proof.
  induction d as [|[k' v'] d IH]; simpl.
  - by rewrite bool_decide_eq_true_2.
  - case_bool_decide; subst; simpl.
    + by rewrite bool_decide_eq_true_2.
    + rewrite bool_decide_eq_false_2 by done. by rewrite IH.
Qed.

Lemma dict_set_absent k v d : Dict.get k d = None -> Dict.set k v d = d ++ [(k, v)].
Proof.
  induction d as [|[k' v'] d IH]; simpl; [done|].
  case_bool_decide; [done|]. intros Hget. by rewrite IH.
Qed.

Lemma filter_other_keys k d : k ∉ d.*1 -> filter (fun x => x.1 ≠ k) d = d.
Proof.
  induction d as [|[k' v'] d IH]; [done|].
  rewrite fmap_cons, not_elem_of_cons. simpl. intros [Hne Hd].
  rewrite filter_cons_True by (simpl; congruence). by rewrite IH.
Qed.

Lemma dict_del_filter k d :
  NoDup (Dict.keys d) -> Dict.del k d = filter (fun x => x.1 ≠ k) d.
Proof.
  induction d as [|[k' v'] d IH]; [done|].
  unfold Dict.keys. rewrite fmap_cons. cbn [Dict.del fst].
  intros [Hk' Hd]%NoDup_cons. case_bool_decide as Hk; subst.
  - rewrite filter_cons_False by (simpl; naive_solver).
    by rewrite filter_other_keys.
  - rewrite filter_cons_True by done. by rewrite IH.
Qed.

Lemma move_end_filter k v d :
  NoDup (Dict.keys d) -> Dict.get k d = Some v ->
  move_end k d = filter (fun x => x.1 ≠ k) d ++ [(k, v)].
Proof.
  intros Hd Hget. unfold move_end. rewrite Hget.
  rewrite dict_set_absent by (by apply dict_get_del_eq).
  by rewrite dict_del_filter.
Qed.

Lemma get_move_end k k' d :
  NoDup (Dict.keys d) -> Dict.get k' (move_end k d) = Dict.get k' d.
Proof.
  intros Hd. unfold move_end. destruct (Dict.get k d) as [v|] eqn:Hget; [|done].
  destruct (decide (k = k')) as [<-|Hne].
  - by rewrite dict_get_set_eq.
  - by rewrite dict_get_set_ne, dict_get_del_ne.
Qed.

Lemma NoDup_move_end k d :
  NoDup (Dict.keys d) -> NoDup (Dict.keys (move_end k d)).
Proof.
  intros Hd. unfold move_end. destruct (Dict.get k d); [|done].
  by apply dict_NoDup_set, dict_NoDup_del.
Qed.

Lemma move_end_twice k d :
  NoDup (Dict.keys d) -> move_end k (move_end k d) = move_end k d.
Proof.
  intros Hd. destruct (Dict.get k d) as [v|] eqn:Hget.
  - rewrite (move_end_filter k v (move_end k d))
      by (by apply NoDup_move_end || by rewrite get_move_end).
    rewrite (move_end_filter k v d) by done.
    rewrite filter_app, list_filter_filter.
    rewrite filter_cons_False by (simpl; naive_solver).
    rewrite filter_nil, app_nil_r. f_equal.
    apply list_filter_iff. naive_solver.
  - unfold move_end. by rewrite !Hget.
Qed.

Lemma move_end_pair k1 k2 v1 v2 d :
  NoDup (Dict.keys d) -> k1 ≠ k2 ->
  Dict.get k1 d = Some v1 -> Dict.get k2 d = Some v2 ->
  move_end k2 (move_end k1 d)
  = filter (fun x => x.1 ≠ k1 /\ x.1 ≠ k2) d ++ [(k1, v1); (k2, v2)].
Proof.
  intros Hd Hne H1 H2.
  rewrite (move_end_filter k2 v2 (move_end k1 d))
    by (by apply NoDup_move_end || by rewrite get_move_end).
  rewrite (move_end_filter k1 v1 d) by done.
  rewrite filter_app, filter_cons_True by done.
  rewrite filter_nil, <- app_assoc, list_filter_filter. simpl. f_equal.
  apply list_filter_iff. naive_solver.
Qed.

Lemma move_end_pair_twice k1 k2 d :
  NoDup (Dict.keys d) -> k1 ≠ k2 ->
  is_Some (Dict.get k1 d) -> is_Some (Dict.get k2 d) ->
  move_end k2 (move_end k1 (move_end k2 (move_end k1 d)))
  = move_end k2 (move_end k1 d).
Proof.
  intros Hd Hne [v1 H1] [v2 H2].
  pose proof (NoDup_move_end k2 _ (NoDup_move_end k1 _ Hd)) as Hd'.
  assert (Dict.get k1 (move_end k2 (move_end k1 d)) = Some v1) as H1'
    by (by rewrite !get_move_end by (by try apply NoDup_move_end)).
  assert (Dict.get k2 (move_end k2 (move_end k1 d)) = Some v2) as H2'
    by (by rewrite !get_move_end by (by try apply NoDup_move_end)).
  rewrite (move_end_pair k1 k2 v1 v2 (move_end k2 (move_end k1 d))) by done.
  rewrite (move_end_pair k1 k2 v1 v2 d) by done.
  f_equal. rewrite filter_app, list_filter_filter.
  rewrite filter_cons_False by (simpl; naive_solver).
  rewrite filter_cons_False by (simpl; naive_solver).
  rewrite filter_nil, app_nil_r.
  apply list_filter_iff. naive_solver.
Qed.

End dict_order.

(** A slot that already holds what its widgets select keeps its value;
    its key moves to the end when the slot has a salad and no main. *)
Lemma update_slot_matching day mt w (plan : plan_t) d :
  Dict.get day plan = Some d ->
  NoDup (Dict.keys d) ->
  Dict.get mt d = slot_value mt w ->
  update_slot day mt w plan = Dict.set day (slot_norm mt w d) plan.
Proof.
  intros Hday Hd Hslot.
  assert (day_meals day plan = d) as Hmeals by (unfold day_meals; by rewrite Hday).
  unfold update_slot, slot_norm, salad_only, slot_value in *.
  unfold set_main. rewrite Hmeals.
  destruct (decide (selected_meal w = "-")) as [Hmain|Hmain].
  - rewrite (bool_decide_eq_false_2 (selected_meal w ≠ "-")) in * by naive_solver.
    rewrite (bool_decide_eq_true_2 (selected_meal w = "-")) by done.
    destruct (decide (mt ∈ ["Lunch"; "Dinner"])) as [Hmt|Hmt].
    + rewrite (bool_decide_eq_true_2 (mt ∈ ["Lunch"; "Dinner"])) in * by done.
      destruct (decide (selected_salad w = "-")) as [Hsalad|Hsalad].
      * rewrite (bool_decide_eq_false_2 (selected_salad w ≠ "-")) in * by naive_solver.
        simpl in *. unfold Dict.mem. rewrite Hslot.
        unfold set_salad, plan_get.
        rewrite (bool_decide_eq_false_2 (selected_salad w ≠ "-")) by naive_solver.
        rewrite Hmeals, Hslot. by rewrite dict_set_same.
      * rewrite (bool_decide_eq_true_2 (selected_salad w ≠ "-")) in * by done.
        simpl in *. unfold Dict.mem. rewrite Hslot.
        unfold set_salad, plan_get, day_meals.
        rewrite (bool_decide_eq_true_2 (selected_salad w ≠ "-")) by done.
        rewrite dict_get_set_eq. simpl.
        rewrite dict_get_del_eq by done. simpl.
        rewrite dict_set_set. unfold move_end. by rewrite Hslot.
    + rewrite (bool_decide_eq_false_2 (mt ∈ ["Lunch"; "Dinner"])) in * by done.
      simpl in *. unfold Dict.mem. rewrite Hslot. by rewrite dict_set_same.
  - rewrite (bool_decide_eq_true_2 (selected_meal w ≠ "-")) in * by done.
    rewrite (bool_decide_eq_false_2 (selected_meal w = "-")) by done.
    simpl.
    destruct (decide (mt ∈ ["Lunch"; "Dinner"])) as [Hmt|Hmt].
    + rewrite (bool_decide_eq_true_2 (mt ∈ ["Lunch"; "Dinner"])) in * by done.
      unfold set_salad, plan_get, day_meals.
      rewrite (dict_get_set_eq day). simpl. rewrite (dict_get_set_eq mt). simpl.
      destruct (decide (selected_salad w = "-")) as [Hsalad|Hsalad].
      * rewrite (bool_decide_eq_false_2 (selected_salad w ≠ "-")) in * by naive_solver.
        simpl in *. by rewrite (dict_set_same mt _ d).
      * rewrite (bool_decide_eq_true_2 (selected_salad w ≠ "-")) in * by done.
        simpl in *. rewrite !dict_set_set. by rewrite (dict_set_same mt _ d).
    + rewrite (bool_decide_eq_false_2 (mt ∈ ["Lunch"; "Dinner"])) in * by done.
      simpl in *. by rewrite (dict_set_same mt _ d).
Qed.

Lemma get_slot_norm mt w k (d : Dict.t selection) :
  NoDup (Dict.keys d) -> Dict.get k (slot_norm mt w d) = Dict.get k d.
Proof.
  intros Hd. unfold slot_norm. destruct (salad_only mt w); [|done].
  by apply get_move_end.
Qed.

Lemma NoDup_slot_norm mt w (d : Dict.t selection) :
  NoDup (Dict.keys d) -> NoDup (Dict.keys (slot_norm mt w d)).
Proof.
  intros Hd. unfold slot_norm. destruct (salad_only mt w); [|done].
  by apply NoDup_move_end.
Qed.

Lemma slot_norms_keep (wd : string -> slot_widgets) mts (d : Dict.t selection) :
  NoDup (Dict.keys d) ->
  NoDup (Dict.keys (foldl (fun d mt => slot_norm mt (wd mt) d) d mts))
  /\ forall k,
       Dict.get k (foldl (fun d mt => slot_norm mt (wd mt) d) d mts) = Dict.get k d.
Proof.
  revert d. induction mts as [|mt mts IH]; intros d Hd; [done|].
  simpl. destruct (IH (slot_norm mt (wd mt) d)) as [Hnd Hget].
  { by apply NoDup_slot_norm. }
  split; [done|]. intros k. by rewrite Hget, get_slot_norm.
Qed.

Lemma update_slots_matching day (wd : string -> slot_widgets) mts (plan : plan_t) d :
  Dict.get day plan = Some d ->
  NoDup (Dict.keys d) ->
  (forall mt, mt ∈ mts -> Dict.get mt d = slot_value mt (wd mt)) ->
  foldl (fun plan mt => update_slot day mt (wd mt) plan) plan mts
  = Dict.set day (foldl (fun d mt => slot_norm mt (wd mt) d) d mts) plan.
Proof.
  revert plan d. induction mts as [|mt mts IH]; intros plan d Hday Hd Hmatch.
  { simpl. by rewrite dict_set_same. }
  simpl.
  rewrite (update_slot_matching day mt (wd mt) plan d)
    by (try done; apply Hmatch; left).
  rewrite (IH _ (slot_norm mt (wd mt) d)).
  - by rewrite dict_set_set.
  - by rewrite dict_get_set_eq.
  - by apply NoDup_slot_norm.
  - intros mt' Hmt'. rewrite get_slot_norm by done. apply Hmatch. by right.
Qed.

Lemma update_day_matching widgets day (plan : plan_t) d :
  Dict.get day plan = Some d ->
  NoDup (Dict.keys d) ->
  (forall mt, mt ∈ meal_types -> Dict.get mt d = slot_value mt (widgets day mt)) ->
  update_day widgets day plan = Dict.set day (day_norm (widgets day) d) plan.
Proof.
  intros Hday Hd Hmatch. unfold update_day, Dict.mem. rewrite Hday.
  by apply (update_slots_matching day (widgets day)).
Qed.

(** A second rerun with the same widgets changes nothing more. *)
Lemma day_norm_twice (wd : string -> slot_widgets) (d : Dict.t selection) :
  NoDup (Dict.keys d) ->
  (forall mt, mt ∈ meal_types -> Dict.get mt d = slot_value mt (wd mt)) ->
  day_norm wd (day_norm wd d) = day_norm wd d.
Proof.
  intros Hd Hmatch. unfold day_norm, meal_types. cbn [foldl].
  assert (forall d' : Dict.t selection, slot_norm "Breakfast" (wd "Breakfast") d' = d')
    as Hb.
  { intros d'. unfold slot_norm, salad_only.
    rewrite (bool_decide_eq_false_2 ("Breakfast" ∈ ["Lunch"; "Dinner"]))
      by set_solver.
    by rewrite andb_false_r. }
  rewrite !Hb.
  assert (forall mt, mt ∈ meal_types -> salad_only mt (wd mt) = true ->
                     is_Some (Dict.get mt d)) as Hsome.
  { intros mt Hmt Hso. rewrite (Hmatch mt Hmt).
    unfold salad_only in Hso. unfold slot_value.
    apply andb_true_iff in Hso as [[_ Hin]%andb_true_iff Hsalad].
    rewrite Hin, Hsalad. by eexists. }
  unfold slot_norm.
  destruct (salad_only "Lunch" (wd "Lunch")) eqn:Hl,
           (salad_only "Dinner" (wd "Dinner")) eqn:Hdn; [| | |done].
  - apply move_end_pair_twice; [done|done| |];
      apply Hsome; try done; unfold meal_types; set_solver.
  - by apply move_end_twice.
  - by apply move_end_twice.
Qed.

Lemma settled_matching widgets plan day :
  settled widgets plan day -> matching widgets plan day.
Proof. intros (d & ? & ? & ? & _). by exists d. Qed.

Lemma update_day_settles widgets day (plan : plan_t) :
  matching widgets plan day ->
  settled widgets (update_day widgets day plan) day
  /\ (forall day', matching widgets plan day' ->
                   matching widgets (update_day widgets day plan) day')
  /\ (forall day', settled widgets plan day' ->
                   settled widgets (update_day widgets day plan) day').
Proof.
  intros (d & Hday & Hd & Hmatch).
  rewrite (update_day_matching _ _ _ _ Hday Hd Hmatch).
  destruct (slot_norms_keep (widgets day) meal_types d Hd) as [Hnd Hget].
  fold (day_norm (widgets day) d) in Hnd, Hget.
  assert (settled widgets (Dict.set day (day_norm (widgets day) d) plan) day) as Hset.
  { exists (day_norm (widgets day) d). rewrite dict_get_set_eq.
    split; [done|]. split; [done|]. split.
    - intros mt Hmt. rewrite Hget. by apply Hmatch.
    - by apply day_norm_twice. }
  split; [done|]. split.
  - intros day' Hday'. destruct (decide (day = day')) as [<-|Hne].
    + by apply settled_matching.
    + destruct Hday' as (d' & ? & ? & ?). exists d'.
      by rewrite dict_get_set_ne.
  - intros day' Hday'. destruct (decide (day = day')) as [<-|Hne]; [done|].
    destruct Hday' as (d' & ? & ? & ? & ?). exists d'.
    by rewrite dict_get_set_ne.
Qed.

Lemma update_days_settle widgets ds (plan : plan_t) :
  (forall day, day ∈ ds -> matching widgets plan day) ->
  (forall day, day ∈ ds ->
               settled widgets (foldl (fun plan day => update_day widgets day plan)
                                  plan ds) day)
  /\ (forall day, settled widgets plan day ->
                  settled widgets (foldl (fun plan day => update_day widgets day plan)
                                     plan ds) day).
Proof.
  revert plan. induction ds as [|day ds IH]; intros plan Hmatch.
  { split; [by intros ? ?%elem_of_nil|done]. }
  simpl.
  destruct (update_day_settles widgets day plan) as (Hday & Hkeep & Hkeep');
    [apply Hmatch; left|].
  destruct (IH (update_day widgets day plan)) as [Hin Hout].
  { intros day' Hday'. apply Hkeep, Hmatch. by right. }
  split.
  - intros day' [->|Hday']%elem_of_cons; [by apply Hout|by apply Hin].
  - intros day' Hday'. by apply Hout, Hkeep'.
Qed.

Lemma update_days_settled widgets ds (plan : plan_t) :
  (forall day, day ∈ ds -> settled widgets plan day) ->
  foldl (fun plan day => update_day widgets day plan) plan ds = plan.
Proof.
  induction ds as [|day ds IH]; intros Hsettled; [done|].
  simpl.
  destruct (Hsettled day ltac:(left)) as (d & Hday & Hd & Hmatch & Hnorm).
  rewrite (update_day_matching _ _ _ _ Hday Hd Hmatch), Hnorm.
  rewrite dict_set_same by done. apply IH. intros day' Hday'.
  apply Hsettled. by right.
Qed.

Lemma keys_fold_elem day ds (ks : list string) :
  day ∈ ds \/ day ∈ ks ->
  day ∈ foldl (fun ks day => if bool_decide (day ∈ ks) then ks else ks ++ [day]) ks ds.
Proof.
  revert ks. induction ds as [|day' ds IH]; intros ks.
  { intros [?%elem_of_nil|?]; done. }
  intros Hin. simpl. apply IH.
  destruct Hin as [[->|Hds]%elem_of_cons|Hks].
  - right. case_bool_decide; [done|]. apply elem_of_app. right. left.
  - by left.
  - right. case_bool_decide; [done|]. apply elem_of_app. by left.
Qed.

(** After a run, every day of the grid holds what its widgets select. *)
Lemma plan_week_matching widgets (plan : plan_t) day :
  plan_inv plan -> day ∈ days_of_week ->
  matching widgets (plan_week widgets plan) day.
Proof.
  intros Hinv Hday.
  assert (day ∈ Dict.keys (plan_week widgets plan)) as Hkey.
  { rewrite keys_plan_week. apply keys_fold_elem. by left. }
  destruct (Dict.get day (plan_week widgets plan)) as [d|] eqn:Hget;
    [|by apply dict_get_None in Hget].
  exists d. split; [done|].
  pose proof (plan_week_inv widgets plan Hinv day) as Hd.
  unfold day_meals in Hd. rewrite Hget in Hd.
  split; [done|]. intros mt Hmt.
  pose proof (plan_week_get widgets day mt plan Hinv) as Hslot.
  rewrite bool_decide_eq_true_2 in Hslot by done.
  unfold plan_get, day_meals in Hslot. by rewrite Hget in Hslot.
Qed.

(** X22: from the second run with the same widget values on, the plan no
    longer changes, neither in its entries nor in their order: a further
    rerun that touches no widget makes the handler read the same plan. *)
Theorem plan_is_settled_after_two_runs runs widgets :
  session (runs ++ [widgets; widgets; widgets])
  = session (runs ++ [widgets; widgets]).
Proof.
  assert (runs ++ [widgets; widgets; widgets]
          = (runs ++ [widgets; widgets]) ++ [widgets]) as ->
    by (by rewrite <- app_assoc).
  rewrite (session_snoc (runs ++ [widgets; widgets])).
  assert (runs ++ [widgets; widgets] = (runs ++ [widgets]) ++ [widgets]) as ->
    by (by rewrite <- app_assoc).
  rewrite (session_snoc (runs ++ [widgets])).
  set (e := session (runs ++ [widgets])).
  assert (forall day, day ∈ days_of_week -> matching widgets e day) as Hmatch.
  { intros day Hday. subst e. rewrite session_snoc.
    apply plan_week_matching; [apply session_inv|done]. }
  destruct (update_days_settle widgets days_of_week e Hmatch) as [Hsettled _].
  by apply update_days_settled.
Qed.

(** The first rerun can still move a slot: a salad without a main is
    deleted and stored again, behind the slots that follow it. *)
Example first_rerun_moves_salad_only_slots :
  Dict.keys (day_meals "Monday" (session [salad_then_main])) = ["Lunch"; "Dinner"]
  /\ Dict.keys (day_meals "Monday" (session [salad_then_main; salad_then_main]))
     = ["Dinner"; "Lunch"].
Proof. split; vm_compute; reflexivity. Qed.
